(** * datadog-sync-cli: resource adapters of the sync engine

    A shallow embedding of the eight resource adapters under
    [datadog_sync/model/] and of the properties the specification states
    about them: identity resolution, the create-or-update decision against
    the destination cache, where update and delete take their target from,
    pagination, and graceful degradation on malformed listings.

    Python values are embedded as a small JSON type; dictionaries keep their
    insertion order (association lists with unique keys), because the
    webhooks adapter iterates over the state store.  JSON numbers are
    integers.  The adapters' caches are finite maps keyed by the hashable
    values ([None], numbers, strings).  Exceptions are values of
    [exn]; a method is a function from the world (state store, cache, the
    requests sent so far, the log) to a result and a new world, so effects
    that precede an exception stay visible. *)

From Stdlib Require Import ssreflect ZArith String Ascii List Lia Bool.
From stdpp Require Import base option list gmap strings fin_maps pretty.

Set Warnings "-register-all,-rewrite-rw".

Open Scope Z_scope.
Open Scope string_scope.

(** ** Python values *)

Inductive json : Type :=
| JNull : json
| JBool : bool -> json
| JNum : Z -> json
| JStr : string -> json
| JList : list json -> json
| JDict : list (string * json) -> json.

(** The keys of a dictionary are the hashable values: of the JSON values,
    [None], the booleans, the integers and the strings.  [True] and [1] are
    one key, and so are [False] and [0]. *)
Inductive dkey : Type :=
| KNone : dkey
| KNum : Z -> dkey
| KStr : string -> dkey.

#[global] Instance dkey_eq_dec : EqDecision dkey.
Proof. solve_decision. Defined.

Definition key_code (k : dkey) : unit + (Z + string) :=
  match k with
  | KNone => inl tt
  | KNum z => inr (inl z)
  | KStr s => inr (inr s)
  end.

Definition key_of_code (c : unit + (Z + string)) : dkey :=
  match c with
  | inl _ => KNone
  | inr (inl z) => KNum z
  | inr (inr s) => KStr s
  end.

#[global] Instance dkey_countable : Countable dkey :=
  inj_countable' key_code key_of_code
    (fun k => match k with KNone => eq_refl | KNum _ => eq_refl | KStr _ => eq_refl end).

(** The key as a [KeyError] reports it. *)
Definition key_text (k : dkey) : string :=
  match k with
  | KNone => "None"
  | KNum z => pretty z
  | KStr s => s
  end.

(** Python exceptions raised by the adapters.  [Unmodelled] stands for a
    program point the embedding does not follow: [dict(x)] for an [x] that
    is neither a mapping nor empty, and a pagination that has not stopped
    within the bound on its page requests. *)
Inductive exn : Type :=
| KeyError : string -> exn
| AttributeError : exn
| TypeError : exn
| IndexError : exn
| CustomClientHTTPError : Z -> exn
| Unmodelled : exn.

Inductive result (A : Type) : Type :=
| Ok : A -> result A
| Raise : exn -> result A.

Arguments Ok {A} _.
Arguments Raise {A} _.

Definition rbind {A B} (r : result A) (k : A -> result B) : result B :=
  match r with
  | Ok a => k a
  | Raise e => Raise e
  end.

Notation "'let?' x := r 'in' k" := (rbind r (fun x => k))
  (at level 10, x name, r at level 100, k at level 200).

(** ** Dictionaries in insertion order *)

Module PyDict.

Fixpoint get {A} (k : string) (d : list (string * A)) : option A :=
  match d with
  | [] => None
  | (k', v) :: d' => if String.eqb k k' then Some v else get k d'
  end.

(** [d[k] = v]: an existing key keeps its position, a new key goes last. *)
Fixpoint set {A} (k : string) (v : A) (d : list (string * A)) : list (string * A) :=
  match d with
  | [] => [(k, v)]
  | (k', v') :: d' =>
      if String.eqb k k' then (k, v) :: d' else (k', v') :: set k v d'
  end.

(** [d.pop(k, None)] as far as the dictionary is concerned. *)
Fixpoint pop {A} (k : string) (d : list (string * A)) : list (string * A) :=
  match d with
  | [] => []
  | (k', v') :: d' =>
      if String.eqb k k' then pop k d' else (k', v') :: pop k d'
  end.

Definition mem {A} (k : string) (d : list (string * A)) : bool :=
  match get k d with Some _ => true | None => false end.

(** [d.update(e)]: the items of [e] are assigned in their order. *)
Definition update {A} (d e : list (string * A)) : list (string * A) :=
  fold_left (fun acc kv => set (fst kv) (snd kv) acc) e d.

End PyDict.

(** ** Built-in operations, with the exceptions they raise *)

Module Py.

(** Truth value of an object, as tested by [if x:], [x or y], [not x]. *)
Definition truthy (v : json) : bool :=
  match v with
  | JNull => false
  | JBool b => b
  | JNum z => negb (Z.eqb z 0)
  | JStr s => negb (String.eqb s "")
  | JList l => match l with [] => false | _ => true end
  | JDict d => match d with [] => false | _ => true end
  end.

(** [o.get(k, default)]: only dictionaries have [get]. *)
Definition get (o : json) (k : string) (default : json) : result json :=
  match o with
  | JDict d => Ok (match PyDict.get k d with Some v => v | None => default end)
  | _ => Raise AttributeError
  end.

(** [o[k]] for a string [k]. *)
Definition index (o : json) (k : string) : result json :=
  match o with
  | JDict d => match PyDict.get k d with Some v => Ok v | None => Raise (KeyError k) end
  | _ => Raise TypeError
  end.

(** [o[k] = v] for a string [k]. *)
Definition setitem (o : json) (k : string) (v : json) : result json :=
  match o with
  | JDict d => Ok (JDict (PyDict.set k v d))
  | _ => Raise TypeError
  end.

Fixpoint is_prefix (p s : string) : bool :=
  match p, s with
  | EmptyString, _ => true
  | String a p', String b s' => Ascii.eqb a b && is_prefix p' s'
  | String _ _, EmptyString => false
  end.

Fixpoint is_substring (p s : string) : bool :=
  is_prefix p s ||
  match s with
  | EmptyString => false
  | String _ s' => is_substring p s'
  end.

(** [k in o] for a string [k]: key of a dictionary, element of a list,
    substring of a string. *)
Definition contains (k : string) (o : json) : result bool :=
  match o with
  | JDict d => Ok (PyDict.mem k d)
  | JList l => Ok (existsb (fun x => match x with JStr s => String.eqb k s | _ => false end) l)
  | JStr s => Ok (is_substring k s)
  | _ => Raise TypeError
  end.

Definition is_list (v : json) : bool :=
  match v with JList _ => true | _ => false end.

Definition is_dict (v : json) : bool :=
  match v with JDict _ => true | _ => false end.

Fixpoint chars (s : string) : list json :=
  match s with
  | EmptyString => []
  | String c s' => JStr (String c EmptyString) :: chars s'
  end.

(** The items a [for] loop visits. *)
Definition iter (v : json) : result (list json) :=
  match v with
  | JList l => Ok l
  | JDict d => Ok (map (fun kv => JStr (fst kv)) d)
  | JStr s => Ok (chars s)
  | _ => Raise TypeError
  end.

(** A value used as the key of a dictionary: lists and dictionaries are
    unhashable. *)
Definition as_key (v : json) : result dkey :=
  match v with
  | JNull => Ok KNone
  | JBool b => Ok (KNum (if b then 1 else 0))
  | JNum z => Ok (KNum z)
  | JStr s => Ok (KStr s)
  | JList _ | JDict _ => Raise TypeError
  end.

(** [v in cache] *)
Definition in_cache (v : json) (cache : gmap dkey json) : result bool :=
  let? k := as_key v in
  Ok (bool_decide (is_Some (cache !! k))).

(** [s.split(sep, 1)] for a one-character separator. *)
Fixpoint split_once (sep : ascii) (s : string) : list string :=
  match s with
  | EmptyString => [EmptyString]
  | String c s' =>
      if Ascii.eqb c sep then [EmptyString; s']
      else match split_once sep s' with
           | h :: t => String c h :: t
           | [] => []
           end
  end.

(** Formatting of a value inside an f-string.  A string is inserted as it
    is; the text of any other value is that of the interpreter's [str],
    which the adapters take as given. *)
Class Format := {
  repr : json -> string;
  exn_text : exn -> string
}.

Definition str `{Format} (v : json) : string :=
  match v with
  | JStr s => s
  | _ => repr v
  end.

(** [o.copy()] *)
Definition copy (o : json) : result json :=
  match o with
  | JDict d => Ok (JDict d)
  | JList l => Ok (JList l)
  | _ => Raise AttributeError
  end.

(** [o.update(e)] for a dictionary [e]. *)
Definition update (o e : json) : result json :=
  match o, e with
  | JDict d, JDict d' => Ok (JDict (PyDict.update d d'))
  | JDict _, _ => Raise TypeError
  | _, _ => Raise AttributeError
  end.

End Py.

(** ** The HTTP transport and the engine's stores

    The transport is an injected collaborator: [get], [post], [put], [patch]
    and [delete], each answering with a body or failing with an HTTP error
    that carries a status code.  Its answer may depend on the requests seen
    so far. *)

Inductive method : Type := GET | POST | PUT | PATCH | DELETE.

Inductive org : Type := SourceOrg | DestinationOrg.

Record request : Type := Request {
  client : org;
  verb : method;
  path : string;
  body : option json;
  params : option json
}.

Inductive response : Type :=
| Body : json -> response
| HTTPFail : Z -> response.

Class Transport := respond : list request -> request -> response.

Arguments respond : simpl never.

Inductive level : Type := LDebug | LWarning.

(** [config.state]: per resource type, identity to last-known instance. *)
Record State : Type := MkState {
  source : list (string * list (string * json));
  destination : list (string * list (string * json))
}.

(** What a method of an adapter can read and change: the state store, the
    adapter's own destination cache, the requests issued, the log. *)
Record world : Type := World {
  state : State;
  cache : gmap dkey json;
  sent : list request;
  logged : list (level * string)
}.

Definition M (A : Type) : Type := world -> result A * world.

Definition ret {A} (a : A) : M A := fun w => (Ok a, w).

Definition bind {A B} (m : M A) (k : A -> M B) : M B :=
  fun w => match m w with
           | (Ok a, w') => k a w'
           | (Raise e, w') => (Raise e, w')
           end.

Definition lift {A} (r : result A) : M A := fun w => (r, w).

(** [try: m  except E as e: h e] where [catches] selects the class [E]. *)
Definition try_except {A} (m : M A) (catches : exn -> bool) (h : exn -> M A) : M A :=
  fun w => match m w with
           | (Ok a, w') => (Ok a, w')
           | (Raise e, w') => if catches e then h e w' else (Raise e, w')
           end.

Declare Scope py_scope.
Delimit Scope py_scope with py.
Notation "x <- m ;; k" := (bind m (fun x => k))
  (at level 100, m at next level, right associativity) : py_scope.
Notation "m ;;; k" := (bind m (fun _ => k))
  (at level 100, right associativity) : py_scope.
Notation "x <~ r ;; k" := (bind (lift r) (fun x => k))
  (at level 100, r at next level, right associativity) : py_scope.
Open Scope py_scope.

Definition get_cache : M (gmap dkey json) := fun w => (Ok (cache w), w).

Definition set_cache (c : gmap dkey json) : M unit :=
  fun w => (Ok tt, World (state w) c (sent w) (logged w)).

Definition get_state : M State := fun w => (Ok (state w), w).

Definition set_state (s : State) : M unit :=
  fun w => (Ok tt, World s (cache w) (sent w) (logged w)).

Definition log (l : level) (msg : string) : M unit :=
  fun w => (Ok tt, World (state w) (cache w) (sent w) (logged w ++ [(l, msg)])).

(** One call of the client: the request is recorded, then answered. *)
Definition call `{Transport} (q : request) : M json :=
  fun w =>
    let w' := World (state w) (cache w) (sent w ++ [q]) (logged w) in
    match respond (sent w) q with
    | Body j => (Ok j, w')
    | HTTPFail status => (Raise (CustomClientHTTPError status), w')
    end.

(** [state.destination[resource_type]] *)
Definition destination_of (resource_type : string) : M (list (string * json)) :=
  s <- get_state ;;
  match PyDict.get resource_type (destination s) with
  | Some t => ret t
  | None => lift (Raise (KeyError resource_type))
  end.

(** [state.destination[resource_type][_id]] *)
Definition destination_entry (resource_type _id : string) : M json :=
  t <- destination_of resource_type ;;
  match PyDict.get _id t with
  | Some v => ret v
  | None => lift (Raise (KeyError _id))
  end.

(** [state.destination[resource_type].get(_id, {})] *)
Definition destination_entry_or_empty (resource_type _id : string) : M json :=
  t <- destination_of resource_type ;;
  ret (match PyDict.get _id t with Some v => v | None => JDict [] end).

(** [state.destination[resource_type][_id] = v] *)
Definition store_destination (resource_type _id : string) (v : json) : M unit :=
  t <- destination_of resource_type ;;
  s <- get_state ;;
  set_state (MkState (source s)
                     (PyDict.set resource_type (PyDict.set _id v t) (destination s))).

(** [cache[key]] once [key in cache] has been tested. *)
Definition cached (k : dkey) : M json :=
  c <- get_cache ;;
  match c !! k with
  | Some v => ret v
  | None => lift (Raise (KeyError (key_text k)))
  end.

Section Client.
Context `{Transport}.

Definition client_get (c : org) (p : string) : M json :=
  call (Request c GET p None None).

Definition client_post (p : string) (b : json) : M json :=
  call (Request DestinationOrg POST p (Some b) None).

Definition client_put (p : string) (b : json) (ps : option json) : M json :=
  call (Request DestinationOrg PUT p (Some b) ps).

Definition client_patch (p : string) (b : json) : M json :=
  call (Request DestinationOrg PATCH p (Some b) None).

Definition client_delete (p : string) (b : option json) : M unit :=
  call (Request DestinationOrg DELETE p b None) ;;; ret tt.

End Client.

(** The outcome of a block, for the [try] statements that inspect it. *)
Definition attempt {A} (m : M A) : M (result A) :=
  fun w => match m w with (r, w') => (Ok r, w') end.

Fixpoint for_each {A} (l : list A) (body : A -> M unit) : M unit :=
  match l with
  | [] => ret tt
  | x :: l' => body x ;;; for_each l' body
  end.

(** [v in self.destination_...] *)
Definition key_in_cache (v : json) : M bool :=
  c <- get_cache ;;
  lift (Py.in_cache v c).

(** [self.destination_...[v]] *)
Definition cached_at (v : json) : M json :=
  k <~ Py.as_key v ;;
  cached k.

(** [self.destination_...[v] = r] *)
Definition cache_insert (v r : json) : M unit :=
  k <~ Py.as_key v ;;
  c <- get_cache ;;
  set_cache (<[k := r]> c).

(** [if _id:] for an optional string. *)
Definition given (_id : option string) : option string :=
  match _id with
  | Some i => if String.eqb i "" then None else Some i
  | None => None
  end.

(** The loop of the list-and-match import:
    [for r in all_resources: if ident(r) == _id: resource = r; break]. *)
Fixpoint first_match (ident : json -> result string) (_id : string)
    (rs : list json) (resource : json) : result json :=
  match rs with
  | [] => Ok resource
  | r :: rs' =>
      let? rid := ident r in
      if String.eqb rid _id then Ok r else first_match ident _id rs' resource
  end.

(** The loop that indexes a listing:
    [for r in resources: integrations[ident(r)] = r]. *)
Fixpoint index_by (ident : json -> result string) (rs : list json)
    (acc : gmap dkey json) : result (gmap dkey json) :=
  match rs with
  | [] => Ok acc
  | r :: rs' =>
      let? rid := ident r in
      index_by ident rs' (<[KStr rid := r]> acc)
  end.

(** ** aws_integration.py *)

Module AWSIntegration.
Section Adapter.
Context `{Py.Format} `{Transport}.

Definition resource_type : string := "aws_integration".
Definition base_path : string := "/api/v1/integration/aws".

Definition _get_resource_id (resource : json) : result string :=
  let? account_id := Py.get resource "account_id" (JStr "") in
  let? role_name := Py.get resource "role_name" (JStr "") in
  let? access_key_id := Py.get resource "access_key_id" (JStr "") in
  if Py.truthy access_key_id
  then Ok (Py.str account_id +:+ ":" +:+ Py.str access_key_id)
  else Ok (Py.str account_id +:+ ":" +:+ Py.str role_name).

Definition get_resources (c : org) : M json :=
  resp <- client_get c base_path ;;
  lift (Py.get resp "accounts" (JList [])).

Definition import_resource (_id : option string) (resource : json) : M (string * json) :=
  resource <- match given _id with
              | Some i =>
                  all_resources <- get_resources SourceOrg ;;
                  rs <~ Py.iter all_resources ;;
                  lift (first_match _get_resource_id i rs resource)
              | None => ret resource
              end ;;
  resource_id <~ _get_resource_id resource ;;
  ret (resource_id, resource).

Definition _get_destination_integrations : M (gmap dkey json) :=
  resources <- get_resources DestinationOrg ;;
  rs <~ Py.iter resources ;;
  lift (index_by _get_resource_id rs ∅).

Definition pre_apply_hook : M unit :=
  integrations <- _get_destination_integrations ;;
  set_cache integrations.

Definition update_resource (_id : string) (resource : json) : M (string * json) :=
  dest_resource <- destination_entry_or_empty resource_type _id ;;
  r_account <~ Py.get resource "account_id" JNull ;;
  account_id <~ Py.get dest_resource "account_id" r_account ;;
  d_role <~ Py.get dest_resource "role_name" JNull ;;
  r_role <~ (if Py.truthy d_role then Ok d_role else Py.get resource "role_name" JNull) ;;
  params <- (if Py.truthy r_role then
               r <~ Py.get resource "role_name" JNull ;;
               v <~ Py.get dest_resource "role_name" r ;;
               ret [("account_id", account_id); ("role_name", v)]
             else
               d_key <~ Py.get dest_resource "access_key_id" JNull ;;
               r_key <~ (if Py.truthy d_key then Ok d_key
                         else Py.get resource "access_key_id" JNull) ;;
               if Py.truthy r_key then
                 r <~ Py.get resource "access_key_id" JNull ;;
                 v <~ Py.get dest_resource "access_key_id" r ;;
                 ret [("account_id", account_id); ("access_key_id", v)]
               else ret [("account_id", account_id)]) ;;
  resp <- client_put base_path resource (Some (JDict params)) ;;
  updated_resource <~ Py.copy resource ;;
  updated_resource <~ (if Py.is_dict resp then Py.update updated_resource resp
                       else Ok updated_resource) ;;
  ret (_id, updated_resource).

Definition create_resource (_id : string) (resource : json) : M (string * json) :=
  resource_id <~ _get_resource_id resource ;;
  c <- get_cache ;;
  if bool_decide (is_Some (c !! KStr resource_id)) then
    existing <- cached (KStr resource_id) ;;
    store_destination resource_type _id existing ;;;
    update_resource _id resource
  else
    resp <- client_post base_path resource ;;
    created_resource <~ Py.copy resource ;;
    has_external_id <~ Py.contains "external_id" resp ;;
    if has_external_id : bool then
      external_id <~ Py.index resp "external_id" ;;
      created_resource <~ Py.setitem created_resource "external_id" external_id ;;
      ret (_id, created_resource)
    else ret (_id, created_resource).

Definition delete_resource (_id : string) : M unit :=
  dest_resource <- destination_entry_or_empty resource_type _id ;;
  account_id <~ Py.get dest_resource "account_id" JNull ;;
  role_name <~ Py.get dest_resource "role_name" JNull ;;
  body <- (if Py.truthy role_name then
             v <~ Py.get dest_resource "role_name" JNull ;;
             ret [("account_id", account_id); ("role_name", v)]
           else
             access_key_id <~ Py.get dest_resource "access_key_id" JNull ;;
             if Py.truthy access_key_id then
               v <~ Py.get dest_resource "access_key_id" JNull ;;
               ret [("account_id", account_id); ("access_key_id", v)]
             else ret [("account_id", account_id)]) ;;
  client_delete base_path (Some (JDict body)).

End Adapter.
End AWSIntegration.

(** ** azure_integration.py *)

Module AzureIntegration.
Section Adapter.
Context `{Py.Format} `{Transport}.

Definition resource_type : string := "azure_integration".
Definition base_path : string := "/api/v1/integration/azure".

Definition _get_resource_id (resource : json) : result string :=
  let? tenant_name := Py.get resource "tenant_name" (JStr "") in
  let? client_id := Py.get resource "client_id" (JStr "") in
  Ok (Py.str tenant_name +:+ ":" +:+ Py.str client_id).

Definition get_resources (c : org) : M json :=
  resp <- client_get c base_path ;;
  if Py.is_list resp then ret resp else ret (JList []).

Definition import_resource (_id : option string) (resource : json) : M (string * json) :=
  resource <- match given _id with
              | Some i =>
                  all_resources <- get_resources SourceOrg ;;
                  rs <~ Py.iter all_resources ;;
                  lift (first_match _get_resource_id i rs resource)
              | None => ret resource
              end ;;
  resource_id <~ _get_resource_id resource ;;
  ret (resource_id, resource).

Definition _get_destination_integrations : M (gmap dkey json) :=
  resources <- get_resources DestinationOrg ;;
  rs <~ Py.iter resources ;;
  lift (index_by _get_resource_id rs ∅).

Definition pre_apply_hook : M unit :=
  integrations <- _get_destination_integrations ;;
  set_cache integrations.

Definition update_resource (_id : string) (resource : json) : M (string * json) :=
  client_put base_path resource None ;;;
  ret (_id, resource).

Definition create_resource (_id : string) (resource : json) : M (string * json) :=
  resource_id <~ _get_resource_id resource ;;
  c <- get_cache ;;
  if bool_decide (is_Some (c !! KStr resource_id)) then
    existing <- cached (KStr resource_id) ;;
    store_destination resource_type _id existing ;;;
    update_resource _id resource
  else
    client_post base_path resource ;;;
    ret (_id, resource).

Definition delete_resource (_id : string) : M unit :=
  dest_resource <- destination_entry_or_empty resource_type _id ;;
  tenant_name <~ Py.get dest_resource "tenant_name" JNull ;;
  client_id <~ Py.get dest_resource "client_id" JNull ;;
  client_delete base_path
    (Some (JDict [("tenant_name", tenant_name); ("client_id", client_id)])).

End Adapter.
End AzureIntegration.

(** ** fastly_integration.py *)

Module FastlyIntegration.
Section Adapter.
Context `{Py.Format} `{Transport}.

Definition resource_type : string := "fastly_integration".
Definition base_path : string := "/api/v2/integrations/fastly/accounts".

Definition get_resources (c : org) : M json :=
  resp <- client_get c base_path ;;
  lift (Py.get resp "data" (JList [])).

Definition import_resource (_id : option string) (resource : json) : M (json * json) :=
  resource <- match given _id with
              | Some i =>
                  resp <- client_get SourceOrg (base_path +:+ "/" +:+ i) ;;
                  lift (Py.index resp "data")
              | None => ret resource
              end ;;
  rid <~ Py.index resource "id" ;;
  ret (rid, resource).

Definition pre_apply_hook : M unit :=
  resp <- get_resources DestinationOrg ;;
  set_cache ∅ ;;;
  rs <~ Py.iter resp ;;
  for_each rs (fun r =>
    attributes <~ Py.index r "attributes" ;;
    name <~ Py.index attributes "name" ;;
    cache_insert name r).

Definition update_resource (_id : string) (resource : json) : M (string * json) :=
  entry <- destination_entry resource_type _id ;;
  destination_resource_id <~ Py.index entry "id" ;;
  resp <- client_patch (base_path +:+ "/" +:+ Py.str destination_resource_id)
                       (JDict [("data", resource)]) ;;
  data <~ Py.index resp "data" ;;
  ret (_id, data).

Definition create_resource (_id : string) (resource : json) : M (string * json) :=
  attributes <~ Py.index resource "attributes" ;;
  account_name <~ Py.index attributes "name" ;;
  hit <- key_in_cache account_name ;;
  if hit : bool then
    existing <- cached_at account_name ;;
    store_destination resource_type _id existing ;;;
    update_resource _id resource
  else
    resp <- client_post base_path (JDict [("data", resource)]) ;;
    data <~ Py.index resp "data" ;;
    ret (_id, data).

Definition delete_resource (_id : string) : M unit :=
  entry <- destination_entry resource_type _id ;;
  destination_resource_id <~ Py.index entry "id" ;;
  client_delete (base_path +:+ "/" +:+ Py.str destination_resource_id) None.

End Adapter.
End FastlyIntegration.

(** ** gcp_integration.py *)

Module GCPIntegration.
Section Adapter.
Context `{Py.Format} `{Transport}.

Definition resource_type : string := "gcp_integration".
Definition base_path : string := "/api/v2/integration/gcp/accounts".

Definition get_resources (c : org) : M json :=
  resp <- client_get c base_path ;;
  lift (Py.get resp "data" (JList [])).

Definition import_resource (_id : option string) (resource : json) : M (json * json) :=
  resource <- match given _id with
              | Some i =>
                  resp <- client_get SourceOrg (base_path +:+ "/" +:+ i) ;;
                  lift (Py.index resp "data")
              | None => ret resource
              end ;;
  rid <~ Py.index resource "id" ;;
  ret (rid, resource).

(** [account.get("attributes", {}).get("client_email")] *)
Definition client_email_of (account : json) : result json :=
  let? attributes := Py.get account "attributes" (JDict []) in
  Py.get attributes "client_email" JNull.

Fixpoint index_accounts (rs : list json) (acc : gmap dkey json) : result (gmap dkey json) :=
  match rs with
  | [] => Ok acc
  | account :: rs' =>
      let? client_email := client_email_of account in
      if Py.truthy client_email then
        let? k := Py.as_key client_email in
        index_accounts rs' (<[k := account]> acc)
      else index_accounts rs' acc
  end.

Definition _get_destination_gcp_accounts : M (gmap dkey json) :=
  resp <- get_resources DestinationOrg ;;
  rs <~ Py.iter resp ;;
  lift (index_accounts rs ∅).

Definition pre_apply_hook : M unit :=
  accounts <- _get_destination_gcp_accounts ;;
  set_cache accounts.

Definition update_resource (_id : string) (resource : json) : M (string * json) :=
  entry <- destination_entry resource_type _id ;;
  dest_id <~ Py.index entry "id" ;;
  resp <- client_patch (base_path +:+ "/" +:+ Py.str dest_id)
                       (JDict [("data", resource)]) ;;
  data <~ Py.index resp "data" ;;
  ret (_id, data).

Definition create_resource (_id : string) (resource : json) : M (string * json) :=
  client_email <~ client_email_of resource ;;
  hit <- (if Py.truthy client_email then key_in_cache client_email else ret false) ;;
  if hit : bool then
    existing <- cached_at client_email ;;
    store_destination resource_type _id existing ;;;
    update_resource _id resource
  else
    resp <- client_post base_path (JDict [("data", resource)]) ;;
    data <~ Py.index resp "data" ;;
    ret (_id, data).

Definition delete_resource (_id : string) : M unit :=
  entry <- destination_entry resource_type _id ;;
  dest_id <~ Py.index entry "id" ;;
  client_delete (base_path +:+ "/" +:+ Py.str dest_id) None.

End Adapter.
End GCPIntegration.

(** ** pagerduty_integration.py *)

Module PagerDutyIntegration.
Section Adapter.
Context `{Py.Format} `{Transport}.

Definition resource_type : string := "pagerduty_integration".
Definition base_path : string := "/api/v1/integration/pagerduty/configuration/services".

Definition get_resources (c : org) : M json :=
  resp <- client_get c base_path ;;
  lift (Py.get resp "services" (JList [])).

Definition import_resource (_id : option string) (resource : json) : M (json * json) :=
  resource <- match given _id with
              | Some i => client_get SourceOrg (base_path +:+ "/" +:+ i)
              | None => ret resource
              end ;;
  service_name <~ Py.index resource "service_name" ;;
  ret (service_name, resource).

(** [{s["service_name"]: s for s in services}] *)
Fixpoint index_services (rs : list json) (acc : gmap dkey json) : result (gmap dkey json) :=
  match rs with
  | [] => Ok acc
  | s :: rs' =>
      let? service_name := Py.index s "service_name" in
      let? k := Py.as_key service_name in
      index_services rs' (<[k := s]> acc)
  end.

Definition get_destination_services : M (gmap dkey json) :=
  services <- get_resources DestinationOrg ;;
  rs <~ Py.iter services ;;
  lift (index_services rs ∅).

Definition pre_apply_hook : M unit :=
  services <- get_destination_services ;;
  set_cache services.

Definition update_resource (_id : string) (resource : json) : M (string * json) :=
  entry <- destination_entry resource_type _id ;;
  dest_service_name <~ Py.index entry "service_name" ;;
  resp <- client_put (base_path +:+ "/" +:+ Py.str dest_service_name) resource None ;;
  ret (_id, resp).

Definition create_resource (_id : string) (resource : json) : M (string * json) :=
  service_name <~ Py.index resource "service_name" ;;
  hit <- key_in_cache service_name ;;
  if hit : bool then
    existing <- cached_at service_name ;;
    store_destination resource_type _id existing ;;;
    update_resource _id resource
  else
    resp <- client_post base_path resource ;;
    ret (_id, resp).

Definition delete_resource (_id : string) : M unit :=
  entry <- destination_entry resource_type _id ;;
  dest_service_name <~ Py.index entry "service_name" ;;
  client_delete (base_path +:+ "/" +:+ Py.str dest_service_name) None.

End Adapter.
End PagerDutyIntegration.

(** ** webhooks_integration.py *)

Module WebhooksIntegration.
Section Adapter.
Context `{Py.Format} `{Transport}.

Definition resource_type : string := "webhooks_integration".
Definition base_path : string := "/api/v1/integration/webhooks/configuration/webhooks".

Definition get_resources (c : org) : M json :=
  log LWarning
    ("Webhooks Integration API does not support listing all webhooks. " +:+
     "Please use --filter to specify webhook names, or use import with specific webhook names.") ;;;
  ret (JList []).

Definition import_resource (_id : option string) (resource : json) : M (json * json) :=
  resource <- match given _id with
              | Some i => client_get SourceOrg (base_path +:+ "/" +:+ i)
              | None => ret resource
              end ;;
  name <~ Py.index resource "name" ;;
  ret (name, resource).

Definition is_http_error (e : exn) : bool :=
  match e with CustomClientHTTPError _ => true | _ => false end.

(** The [try] block shared by the two loops of [get_destination_webhooks]:
    fetch the webhook by name and record it; [on_404] is what the handler
    does with a 404. *)
Definition fetch_webhook (webhook_name : json) (on_404 : M unit)
    (destination_webhooks : gmap dkey json) : M (gmap dkey json) :=
  try_except
    (resp <- client_get DestinationOrg (base_path +:+ "/" +:+ Py.str webhook_name) ;;
     k <~ Py.as_key webhook_name ;;
     ret (<[k := resp]> destination_webhooks))
    is_http_error
    (fun e =>
       match e with
       | CustomClientHTTPError status_code =>
           (if Z.eqb status_code 404 then on_404
            else log LWarning ("Error fetching webhook '" +:+ Py.str webhook_name +:+ "': "
                               +:+ Py.exn_text e)) ;;;
           ret destination_webhooks
       | _ => ret destination_webhooks
       end).

(** First loop: the webhooks of the destination state. *)
Fixpoint check_destination (entries : list (string * json))
    (destination_webhooks : gmap dkey json) : M (gmap dkey json) :=
  match entries with
  | [] => ret destination_webhooks
  | (_, webhook_data) :: rest =>
      webhook_name <~ Py.get webhook_data "name" JNull ;;
      acc <- (if Py.truthy webhook_name then
                fetch_webhook webhook_name
                  (log LDebug ("Webhook '" +:+ Py.str webhook_name +:+ "' not found at destination"))
                  destination_webhooks
              else ret destination_webhooks) ;;
      check_destination rest acc
  end.

(** Second loop: the webhooks of the source state not found so far. *)
Fixpoint check_source (entries : list (string * json))
    (destination_webhooks : gmap dkey json) : M (gmap dkey json) :=
  match entries with
  | [] => ret destination_webhooks
  | (_, webhook_data) :: rest =>
      webhook_name <~ Py.get webhook_data "name" JNull ;;
      acc <- (if Py.truthy webhook_name then
                known <~ Py.in_cache webhook_name destination_webhooks ;;
                if known : bool then ret destination_webhooks
                else fetch_webhook webhook_name (ret tt) destination_webhooks
              else ret destination_webhooks) ;;
      check_source rest acc
  end.

Definition items_of (resource_type : string) (store : list (string * list (string * json)))
    : list (string * json) :=
  match PyDict.get resource_type store with
  | Some t => t
  | None => []
  end.

Definition get_destination_webhooks : M (gmap dkey json) :=
  s <- get_state ;;
  found <- check_destination (items_of resource_type (destination s)) ∅ ;;
  s <- get_state ;;
  check_source (items_of resource_type (source s)) found.

Definition pre_apply_hook : M unit :=
  webhooks <- get_destination_webhooks ;;
  set_cache webhooks.

Definition update_resource (_id : string) (resource : json) : M (string * json) :=
  entry <- destination_entry resource_type _id ;;
  webhook_name <~ Py.index entry "name" ;;
  resp <- client_put (base_path +:+ "/" +:+ Py.str webhook_name) resource None ;;
  ret (_id, resp).

Definition create_resource (_id : string) (resource : json) : M (string * json) :=
  name <~ Py.index resource "name" ;;
  hit <- key_in_cache name ;;
  if hit : bool then
    name' <~ Py.index resource "name" ;;
    existing <- cached_at name' ;;
    store_destination resource_type _id existing ;;;
    update_resource _id resource
  else
    resp <- client_post base_path resource ;;
    ret (_id, resp).

Definition delete_resource (_id : string) : M unit :=
  entry <- destination_entry resource_type _id ;;
  webhook_name <~ Py.index entry "name" ;;
  client_delete (base_path +:+ "/" +:+ Py.str webhook_name) None.

End Adapter.
End WebhooksIntegration.

(** ** slack_integration_channels.py *)

Module SlackIntegrationChannels.
Section Adapter.
Context `{Py.Format} `{Transport}.

Definition resource_type : string := "slack_integration_channels".
Definition base_path : string := "/api/v1/integration/slack/configuration/accounts".

Definition _get_composite_id (resource : json) : result string :=
  let? account_name := Py.get resource "_account_name" (JStr "") in
  let? name := Py.get resource "name" (JStr "") in
  let? channel_name := Py.get resource "channel_name" name in
  Ok (Py.str account_name +:+ ":" +:+ Py.str channel_name).

Definition _parse_composite_id (composite_id : string) : string * string :=
  match Py.split_once ":" composite_id with
  | [account_name; channel_name] => (account_name, channel_name)
  | _ => ("", composite_id)
  end.

(** [dict(resource)]: a copy of a mapping.  Of the other arguments [dict]
    accepts, only the empty sequences are followed. *)
Definition dict_of (resource : json) : result (list (string * json)) :=
  match resource with
  | JDict d => Ok d
  | JList [] => Ok []
  | JStr "" => Ok []
  | JNull | JBool _ | JNum _ => Raise TypeError
  | _ => Raise Unmodelled
  end.

Definition _prepare_payload (resource : json) : result json :=
  let? payload := dict_of resource in
  Ok (JDict (PyDict.pop "_account_name" payload)).

(** The inner loop of [get_resources]; it stops at the first channel that
    cannot take the extra field, keeping the channels appended before. *)
Fixpoint augment (account_name : json) (channels all_channels : list json)
    : list json * option exn :=
  match channels with
  | [] => (all_channels, None)
  | channel :: rest =>
      match Py.setitem channel "_account_name" account_name with
      | Ok channel' => augment account_name rest (all_channels ++ [channel'])
      | Raise e => (all_channels, Some e)
      end
  end.

Definition warn_fetch (account_name : json) (e : exn) : M unit :=
  log LWarning ("Error fetching channels for account " +:+ Py.str account_name +:+ ": "
                +:+ Py.exn_text e).

Fixpoint collect (c : org) (accounts all_channels : list json) : M (list json) :=
  match accounts with
  | [] => ret all_channels
  | account :: rest =>
      fallback <~ Py.get account "account_name" (JStr "") ;;
      account_name <~ Py.get account "name" fallback ;;
      if negb (Py.truthy account_name) then collect c rest all_channels
      else
        let channels_path := base_path +:+ "/" +:+ Py.str account_name +:+ "/channels" in
        r <- attempt (client_get c channels_path) ;;
        match r with
        | Ok channels_resp =>
            let channels := match channels_resp with JList l => l | _ => [] end in
            match augment account_name channels all_channels with
            | (acc, None) => collect c rest acc
            | (acc, Some e) => warn_fetch account_name e ;;; collect c rest acc
            end
        | Raise e => warn_fetch account_name e ;;; collect c rest all_channels
        end
  end.

Definition get_resources (c : org) : M json :=
  accounts_resp <- client_get c base_path ;;
  let accounts := match accounts_resp with JList l => l | _ => [] end in
  all_channels <- collect c accounts [] ;;
  ret (JList all_channels).

Definition import_resource (_id : option string) (resource : json) : M (string * json) :=
  resource <- match given _id with
              | Some i =>
                  let '(account_name, channel_name) := _parse_composite_id i in
                  let channel_path :=
                    base_path +:+ "/" +:+ account_name +:+ "/channels/" +:+ channel_name in
                  fetched <- client_get SourceOrg channel_path ;;
                  lift (Py.setitem fetched "_account_name" (JStr account_name))
              | None => ret resource
              end ;;
  composite_id <~ _get_composite_id resource ;;
  ret (composite_id, resource).

Definition pre_apply_hook : M unit :=
  resp <- get_resources DestinationOrg ;;
  set_cache ∅ ;;;
  rs <~ Py.iter resp ;;
  for_each rs (fun channel =>
    composite_id <~ _get_composite_id channel ;;
    cache_insert (JStr composite_id) channel).

Definition update_resource (_id : string) (resource : json) : M (string * json) :=
  let '(account_name, channel_name) := _parse_composite_id _id in
  let channel_path :=
    base_path +:+ "/" +:+ account_name +:+ "/channels/" +:+ channel_name in
  payload <~ _prepare_payload resource ;;
  resp <- client_patch channel_path payload ;;
  resp <~ Py.setitem resp "_account_name" (JStr account_name) ;;
  ret (_id, resp).

Definition create_resource (_id : string) (resource : json) : M (string * json) :=
  c <- get_cache ;;
  if bool_decide (is_Some (c !! KStr _id)) then
    existing <- cached (KStr _id) ;;
    store_destination resource_type _id existing ;;;
    update_resource _id resource
  else
    account_name <~ Py.get resource "_account_name" (JStr "") ;;
    let channels_path := base_path +:+ "/" +:+ Py.str account_name +:+ "/channels" in
    payload <~ _prepare_payload resource ;;
    resp <- client_post channels_path payload ;;
    resp <~ Py.setitem resp "_account_name" account_name ;;
    ret (_id, resp).

Definition delete_resource (_id : string) : M unit :=
  let '(account_name, channel_name) := _parse_composite_id _id in
  let channel_path :=
    base_path +:+ "/" +:+ account_name +:+ "/channels/" +:+ channel_name in
  client_delete channel_path None.

End Adapter.
End SlackIntegrationChannels.

(** ** service_definition.py *)

(** [PaginationConfig] of [custom_client]: the fields the adapter sets. *)
Record PaginationConfig : Type := MkPaginationConfig {
  page_size : Z;
  remaining_func : Z -> json -> Z -> Z -> result Z
}.

Module ServiceDefinition.

(** A value used as an integer operand: [bool] is a subclass of [int]. *)
Definition as_int (v : json) : result Z :=
  match v with
  | JNum z => Ok z
  | JBool b => Ok (if b then 1 else 0)
  | _ => Raise TypeError
  end.

Definition _remaining_func (idx : Z) (resp : json) (page_size page_number : Z) : result Z :=
  let? meta := Py.get resp "meta" (JDict []) in
  let? page := Py.get meta "page" (JDict []) in
  let? total_count := Py.get page "total_count" (JNum 0) in
  let fetched := page_size * (page_number + 1) in
  let? total := as_int total_count in
  Ok (Z.max 0 (total - fetched)).

Definition pagination_config : PaginationConfig :=
  MkPaginationConfig 100 _remaining_func.

Section Adapter.
Context `{Py.Format} `{Transport}.

(** [client.paginated_request(client.get)(path, pagination_config=...)]: the
    driver belongs to [custom_client], which the adapter takes as given. *)
Variable paginated_get : org -> string -> PaginationConfig -> M json.

Definition resource_type : string := "service_definition".
Definition base_path : string := "/api/v2/services/definitions".

Definition get_resources (c : org) : M json :=
  paginated_get c base_path pagination_config.

Definition _get_service_name (resource : json) : result json :=
  let? has_attributes := Py.contains "attributes" resource in
  let? found :=
    (if has_attributes : bool then
       let? attributes := Py.index resource "attributes" in
       let? schema := Py.get attributes "schema" (JDict []) in
       let? has_dd := Py.contains "dd-service" schema in
       if has_dd : bool then
         let? v := Py.index schema "dd-service" in Ok (Some v)
       else
         let? has_name := Py.contains "name" schema in
         if has_name : bool then
           let? v := Py.index schema "name" in Ok (Some v)
         else Ok None
     else Ok None) in
  match found with
  | Some v => Ok v
  | None =>
      let? has_dd := Py.contains "dd-service" resource in
      if has_dd : bool then Py.index resource "dd-service"
      else
        let? has_name := Py.contains "name" resource in
        if has_name : bool then Py.index resource "name"
        else Py.get resource "id" (JStr "")
  end.

Definition _extract_schema_data (resource : json) : result json :=
  let? has_attributes := Py.contains "attributes" resource in
  let? has_schema :=
    (if has_attributes : bool then
       let? attributes := Py.index resource "attributes" in
       Py.contains "schema" attributes
     else Ok false) in
  if has_schema : bool then
    let? attributes := Py.index resource "attributes" in
    Py.index attributes "schema"
  else Ok resource.

(** [resp["data"][0] if isinstance(resp.get("data"), list) else resp["data"]] *)
Definition first_data (resp : json) : result json :=
  let? d := Py.get resp "data" JNull in
  let? data := Py.index resp "data" in
  if Py.is_list d then
    match data with
    | JList (x :: _) => Ok x
    | JList [] => Raise IndexError
    | _ => Raise TypeError
    end
  else Ok data.

Definition import_resource (_id : option string) (resource : json) : M (json * json) :=
  resource <- match given _id with
              | Some i =>
                  resp <- client_get SourceOrg (base_path +:+ "/" +:+ i) ;;
                  lift (Py.index resp "data")
              | None => ret resource
              end ;;
  service_name <~ _get_service_name resource ;;
  ret (service_name, resource).

Fixpoint index_definitions (rs : list json) (acc : gmap dkey json)
    : result (gmap dkey json) :=
  match rs with
  | [] => Ok acc
  | service_def :: rs' =>
      let? service_name := _get_service_name service_def in
      if Py.truthy service_name then
        let? k := Py.as_key service_name in
        index_definitions rs' (<[k := service_def]> acc)
      else index_definitions rs' acc
  end.

Definition _get_destination_service_definitions : M (gmap dkey json) :=
  resp <- get_resources DestinationOrg ;;
  rs <~ Py.iter resp ;;
  lift (index_definitions rs ∅).

Definition pre_apply_hook : M unit :=
  definitions <- _get_destination_service_definitions ;;
  set_cache definitions.

Definition update_resource (_id : string) (resource : json) : M (string * json) :=
  schema_data <~ _extract_schema_data resource ;;
  resp <- client_post base_path schema_data ;;
  data <~ first_data resp ;;
  ret (_id, data).

Definition create_resource (_id : string) (resource : json) : M (string * json) :=
  c <- get_cache ;;
  if bool_decide (is_Some (c !! KStr _id)) then
    existing <- cached (KStr _id) ;;
    store_destination resource_type _id existing ;;;
    update_resource _id resource
  else
    schema_data <~ _extract_schema_data resource ;;
    resp <- client_post base_path schema_data ;;
    data <~ first_data resp ;;
    ret (_id, data).

Definition delete_resource (_id : string) : M unit :=
  client_delete (base_path +:+ "/" +:+ _id) None.

End Adapter.
End ServiceDefinition.

(** ** The pagination driver *)

Module Pagination.
Section Driver.
Context `{Transport}.

(** How the items of a page are read off its envelope; the driver treats a
    page without items as an empty response. *)
Variable items_of : json -> result (list json).

Definition page_request (c : org) (p : string) (size number : Z) : request :=
  Request c GET p None
    (Some (JDict [("page[size]", JNum size); ("page[number]", JNum number)])).

(** Modelled from the spec: the pagination driver of [custom_client]
    ([paginated_request]), which is not among the sources.  It issues one
    page request after another, advancing the page number and accumulating
    the items, and stops when the remaining function returns 0 or the
    response is empty.  [fuel] bounds the number of page requests; [None]
    means the bound was reached before the driver stopped. *)
Fixpoint paginated_request (fuel : nat) (c : org) (p : string) (cfg : PaginationConfig)
    (idx page_number : Z) (acc : list json) : M (option (list json)) :=
  match fuel with
  | O => ret None
  | S fuel' =>
      resp <- call (page_request c p (page_size cfg) page_number) ;;
      items <~ items_of resp ;;
      remaining <~ remaining_func cfg idx resp (page_size cfg) page_number ;;
      if Z.eqb remaining 0 || match items with [] => true | _ => false end
      then ret (Some (acc ++ items)%list)
      else paginated_request fuel' c p cfg (idx + 1) (page_number + 1) (acc ++ items)%list
  end.

End Driver.
End Pagination.

(** ** Objects and aliasing

    [_prepare_payload] of the Slack adapter builds a new dictionary and
    changes it in place.  To say that the argument is left alone, the
    dictionaries live in a store of objects and a variable holds a
    reference. *)

Module Objects.

Record heap : Type := Heap {
  objects : gmap nat (list (string * json));
  next : nat
}.

(** Every reference handed out so far is below [next]. *)
Definition well_formed (h : heap) : Prop :=
  forall r : nat, (next h <= r)%nat -> objects h !! r = None.

(** [dict(x)] for a dictionary [x]: a new object with the same items. *)
Definition new_dict (r : nat) (h : heap) : option (nat * heap) :=
  match objects h !! r with
  | Some d => Some (next h, Heap (<[next h := d]> (objects h)) (S (next h)))
  | None => None
  end.

(** [x.pop(k, None)] *)
Definition pop (r : nat) (k : string) (h : heap) : heap :=
  Heap (alter (PyDict.pop k) r (objects h)) (next h).

(** [SlackIntegrationChannels._prepare_payload] on references. *)
Definition _prepare_payload (resource : nat) (h : heap) : option (nat * heap) :=
  match new_dict resource h with
  | Some (payload, h') => Some (payload, pop payload "_account_name" h')
  | None => None
  end.

End Objects.

(** ** The adapter contract

    The engine drives every resource type through the same methods. *)

Inductive adapter : Type :=
| AWS | Azure | Fastly | GCP | PagerDuty | ServiceDef | Slack | Webhooks.

Section Contract.
Context `{Py.Format} `{Transport}.

Definition resource_type (a : adapter) : string :=
  match a with
  | AWS => AWSIntegration.resource_type
  | Azure => AzureIntegration.resource_type
  | Fastly => FastlyIntegration.resource_type
  | GCP => GCPIntegration.resource_type
  | PagerDuty => PagerDutyIntegration.resource_type
  | ServiceDef => ServiceDefinition.resource_type
  | Slack => SlackIntegrationChannels.resource_type
  | Webhooks => WebhooksIntegration.resource_type
  end.

Definition with_key {A} (m : M (string * A)) : M (json * A) :=
  r <- m ;; ret (JStr (fst r), snd r).

Definition import_resource (a : adapter) (_id : option string) (resource : json)
    : M (json * json) :=
  match a with
  | AWS => with_key (AWSIntegration.import_resource _id resource)
  | Azure => with_key (AzureIntegration.import_resource _id resource)
  | Fastly => FastlyIntegration.import_resource _id resource
  | GCP => GCPIntegration.import_resource _id resource
  | PagerDuty => PagerDutyIntegration.import_resource _id resource
  | ServiceDef => ServiceDefinition.import_resource _id resource
  | Slack => with_key (SlackIntegrationChannels.import_resource _id resource)
  | Webhooks => WebhooksIntegration.import_resource _id resource
  end.

Definition create_resource (a : adapter) (_id : string) (resource : json)
    : M (string * json) :=
  match a with
  | AWS => AWSIntegration.create_resource _id resource
  | Azure => AzureIntegration.create_resource _id resource
  | Fastly => FastlyIntegration.create_resource _id resource
  | GCP => GCPIntegration.create_resource _id resource
  | PagerDuty => PagerDutyIntegration.create_resource _id resource
  | ServiceDef => ServiceDefinition.create_resource _id resource
  | Slack => SlackIntegrationChannels.create_resource _id resource
  | Webhooks => WebhooksIntegration.create_resource _id resource
  end.

Definition update_resource (a : adapter) (_id : string) (resource : json)
    : M (string * json) :=
  match a with
  | AWS => AWSIntegration.update_resource _id resource
  | Azure => AzureIntegration.update_resource _id resource
  | Fastly => FastlyIntegration.update_resource _id resource
  | GCP => GCPIntegration.update_resource _id resource
  | PagerDuty => PagerDutyIntegration.update_resource _id resource
  | ServiceDef => ServiceDefinition.update_resource _id resource
  | Slack => SlackIntegrationChannels.update_resource _id resource
  | Webhooks => WebhooksIntegration.update_resource _id resource
  end.

Definition delete_resource (a : adapter) (_id : string) : M unit :=
  match a with
  | AWS => AWSIntegration.delete_resource _id
  | Azure => AzureIntegration.delete_resource _id
  | Fastly => FastlyIntegration.delete_resource _id
  | GCP => GCPIntegration.delete_resource _id
  | PagerDuty => PagerDutyIntegration.delete_resource _id
  | ServiceDef => ServiceDefinition.delete_resource _id
  | Slack => SlackIntegrationChannels.delete_resource _id
  | Webhooks => WebhooksIntegration.delete_resource _id
  end.

(** The Identity Key under which [create_resource] looks the instance up in
    the destination cache. *)
Definition cache_key (a : adapter) (_id : string) (resource : json) : result json :=
  match a with
  | AWS => let? k := AWSIntegration._get_resource_id resource in Ok (JStr k)
  | Azure => let? k := AzureIntegration._get_resource_id resource in Ok (JStr k)
  | Fastly => let? attributes := Py.index resource "attributes" in
              Py.index attributes "name"
  | GCP => GCPIntegration.client_email_of resource
  | PagerDuty => Py.index resource "service_name"
  | ServiceDef => Ok (JStr _id)
  | Slack => Ok (JStr _id)
  | Webhooks => Py.index resource "name"
  end.

End Contract.

(** ** Observations on a run *)

Definition method_eqb (a b : method) : bool :=
  match a, b with
  | GET, GET | POST, POST | PUT, PUT | PATCH, PATCH | DELETE, DELETE => true
  | _, _ => false
  end.

(** The requests a method issued, given the worlds before and after it. *)
Definition issued (w w' : world) : list request :=
  drop (length (sent w)) (sent w').

Definition count_verb (v : method) (qs : list request) : nat :=
  length (filter (fun q => method_eqb (verb q) v = true) qs).

(** Where a write is aimed: the URL path and the query parameters. *)
Definition target (q : request) : string * option json :=
  (path q, params q).

(** [state.destination[resource_type].get(_id)] as a pure observation. *)
Definition entry_of (resource_type _id : string) (w : world) : option json :=
  match PyDict.get resource_type (destination (state w)) with
  | Some t => PyDict.get _id t
  | None => None
  end.

Definition has_table (resource_type : string) (w : world) : Prop :=
  is_Some (PyDict.get resource_type (destination (state w))).

Definition with_cache (c : gmap dkey json) (w : world) : world :=
  World (state w) c (sent w) (logged w).

Definition with_state (s : State) (w : world) : world :=
  World s (cache w) (sent w) (logged w).

(** The world once [state.destination[resource_type][_id] = v] has run. *)
Definition stored (resource_type _id : string) (v : json) (w : world) : world :=
  match PyDict.get resource_type (destination (state w)) with
  | Some t =>
      with_state (MkState (source (state w))
                          (PyDict.set resource_type (PyDict.set _id v t)
                                      (destination (state w)))) w
  | None => w
  end.

(** A transport whose answers do not depend on the requests seen before. *)
Definition history_free `{Transport} : Prop :=
  forall h h' q, respond h q = respond h' q.

(** ** Instances for the examples *)

(** Exact on [None], the booleans and the integers; containers are not
    formatted by any example. *)
Definition plain_repr (v : json) : string :=
  match v with
  | JNull => "None"
  | JBool true => "True"
  | JBool false => "False"
  | JNum z => pretty z
  | JStr s => s
  | JList _ => "[...]"
  | JDict _ => "{...}"
  end.

Definition plain_exn_text (e : exn) : string :=
  match e with
  | KeyError k => "'" +:+ k +:+ "'"
  | AttributeError => "AttributeError"
  | TypeError => "TypeError"
  | IndexError => "IndexError"
  | CustomClientHTTPError status => pretty status
  | Unmodelled => "Unmodelled"
  end.

Definition plain_format : Py.Format :=
  {| Py.repr := plain_repr; Py.exn_text := plain_exn_text |}.

(** A destination that answers every request with an empty object. *)
Definition accepting : Transport := fun _ _ => Body (JDict []).

(** A destination that fails every request with the given status. *)
Definition failing (status : Z) : Transport := fun _ _ => HTTPFail status.

Definition empty_state (resource_type : string) : State :=
  MkState [(resource_type, [])] [(resource_type, [])].

Definition fresh_world (resource_type : string) : world :=
  World (empty_state resource_type) ∅ [] [].

(** An account name that the composite id can be split back from. *)
Fixpoint colon_free (s : string) : bool :=
  match s with
  | EmptyString => true
  | String c s' => negb (Ascii.eqb c ":") && colon_free s'
  end.

(** A listing envelope that carries the total count [t]. *)
Definition counts (resp : json) (t : Z) : Prop :=
  exists d m p,
    resp = JDict d /\
    PyDict.get "meta" d = Some (JDict m) /\
    PyDict.get "page" m = Some (JDict p) /\
    PyDict.get "total_count" p = Some (JNum t).

(** A listing envelope without count metadata: no [meta], or no [page]
    under it, or no [total_count] under that. *)
Definition no_count (resp : json) : Prop :=
  exists d,
    resp = JDict d /\
    (PyDict.get "meta" d = None \/
     exists m, PyDict.get "meta" d = Some (JDict m) /\
       (PyDict.get "page" m = None \/
        exists p, PyDict.get "page" m = Some (JDict p) /\
                  PyDict.get "total_count" p = None)).

(** The destination lists a catalogue of [t] services, page by page:
    every page request is answered by an envelope that counts [t] and
    carries at least one item. *)
Definition serves `{Transport} (items_of : json -> result (list json)) (t : Z) : Prop :=
  forall h q, exists resp item items,
    respond h q = Body resp /\ counts resp t /\ items_of resp = Ok (item :: items).

(** A page of a catalogue of 250 services, as the examples serve it. *)
Definition page_of_250 : json :=
  JDict [("data", JList [JDict [("id", JStr "svc")]]);
         ("meta", JDict [("page", JDict [("total_count", JNum 250)])])].

Definition catalogue : Transport := fun _ _ => Body page_of_250.

(** The items under the [data] key of an envelope. *)
Definition data_items (resp : json) : result (list json) :=
  let? d := Py.get resp "data" (JList []) in
  Py.iter d.

(** The transport answers a [get] of [p], issued in world [w], with [resp]. *)
Definition answers `{Transport} (c : org) (p : string) (w : world) (resp : json) : Prop :=
  respond (sent w) (Request c GET p None None) = Body resp.

(** A response body that is a mapping without the envelope key [k]. *)
Definition lacks_key (k : string) (resp : json) : Prop :=
  exists d, resp = JDict d /\ PyDict.get k d = None.

(** A request body that is a mapping without the tracking field. *)
Definition untracked (q : request) : Prop :=
  exists p, body q = Some (JDict p) /\ PyDict.get "_account_name" p = None.

(** A Slack channel as [get_resources] returns it, and a store that holds
    it at reference 0. *)
Definition alerts_channel : list (string * json) :=
  [("_account_name", JStr "my-workspace"); ("channel_name", JStr "#alerts");
   ("display", JDict [("message", JBool true); ("notified", JBool true)])].

Definition alerts_heap : Objects.heap :=
  Objects.Heap {[ 0%nat := alerts_channel ]} 1.

(** The adapters whose identity composes several fields with [get] and a
    default, and the single field the others subscript. *)
Definition composite_key (a : adapter) : bool :=
  match a with
  | AWS | Azure | Slack => true
  | _ => false
  end.

(** The fields a composite identity is composed from, the leading one
    first. *)
Definition composing_fields (a : adapter) : list string :=
  match a with
  | AWS => ["account_id"; "role_name"; "access_key_id"]
  | Azure => ["tenant_name"; "client_id"]
  | Slack => ["_account_name"; "name"; "channel_name"]
  | _ => []
  end.

(** The text of a field of a mapping inside a key; the empty string when the
    mapping has no such field. *)
Definition segment `{Py.Format} (f : string) (d : list (string * json)) : string :=
  match PyDict.get f d with
  | Some v => Py.str v
  | None => ""
  end.

Definition key_field (a : adapter) : option string :=
  match a with
  | Fastly | GCP => Some "id"
  | PagerDuty => Some "service_name"
  | Webhooks => Some "name"
  | _ => None
  end.

(** The specification's statement that import resolves an identity for any
    mapping. *)
Definition identity_resolution_total : Prop :=
  forall (F : Py.Format) (T : Transport) (a : adapter)
         (d : list (string * json)) (w : world),
  exists key : string,
    fst (import_resource a None (JDict d) w) = Ok (JStr key, JDict d).

(** A method that neither reads nor writes the state store: it runs the
    same way whatever the store holds, and leaves it as it found it. *)
Definition ignores_state {A} (m : M A) : Prop :=
  forall w s, m (with_state s w) = (fst (m w), with_state s (snd (m w))).

(** A method that neither reads nor writes the destination cache. *)
Definition ignores_cache {A} (m : M A) : Prop :=
  forall w c, m (with_cache c w) = (fst (m w), with_cache c (snd (m w))).

(** The specification's statement that a missing state-store entry is fatal
    to update and delete. *)
Definition missing_entry_fatal : Prop :=
  forall (F : Py.Format) (T : Transport) (a : adapter)
         (_id : string) (resource : json) (w : world),
    has_table (resource_type a) w ->
    entry_of (resource_type a) _id w = None ->
    (exists e, fst (update_resource a _id resource w) = Raise e)
    /\ (exists e, fst (delete_resource a _id w) = Raise e).

(** Every request a method issues satisfies [P]. *)
Definition emits {A} (P : request -> Prop) (m : M A) : Prop :=
  forall w, exists qs, sent (snd (m w)) = (sent w ++ qs)%list /\ Forall P qs.

Definition not_post (q : request) : Prop := verb q <> POST.

(** The instance is found in the destination cache [c] by the check that
    [create_resource] of adapter [a] makes. *)
Definition hits `{Py.Format} (a : adapter) (c : gmap dkey json)
    (_id : string) (resource : json) (existing : json) : Prop :=
  exists (v : json) (k : dkey),
    cache_key a _id resource = Ok v
    /\ Py.as_key v = Ok k
    /\ c !! k = Some existing
    /\ (a = GCP -> Py.truthy v = true).

(** Modelled from the spec: the apply pass of the engine over the instances
    of one resource type, which is not among the sources.  Each instance is
    reconciled on its own; a failure is that instance's and the pass goes on
    to the next one. *)
Fixpoint create_all `{Py.Format} `{Transport} (a : adapter)
    (instances : list (string * json)) : M unit :=
  match instances with
  | [] => ret tt
  | (_id, resource) :: rest =>
      attempt (create_resource a _id resource) ;;; create_all a rest
  end.

(** A method that leaves the state store as it found it. *)
Definition keeps_state {A} (m : M A) : Prop :=
  forall w, state (snd (m w)) = state w.

(** The AWS integration of the specification's example, as the destination
    lists it and as the source has it. *)
Definition aws_existing : json :=
  JDict [("account_id", JStr "123456789012"); ("role_name", JStr "DatadogIntegrationRole")].

Definition aws_resource : json :=
  JDict [("account_id", JStr "123456789012"); ("role_name", JStr "DatadogIntegrationRole");
         ("host_tags", JList [JStr "env:staging"])].

Definition aws_world : world :=
  with_cache {[ KStr "123456789012:DatadogIntegrationRole" := aws_existing ]}
             (fresh_world "aws_integration").

(** The AWS integration of the example, recorded in the state store under
    the id of its source. *)
Definition aws_recorded_world : world :=
  World (MkState [("aws_integration", [])]
                 [("aws_integration", [("src-aws", aws_existing)])])
        ∅ [] [].

(** The specification's statement that a cache hit never leads to a POST,
    for every adapter. *)
Definition upsert_never_posts : Prop :=
  forall (F : Py.Format) (T : Transport) (a : adapter)
         (_id : string) (resource existing : json) (w : world),
    hits a (cache w) _id resource existing ->
    count_verb POST (issued w (snd (create_resource a _id resource w))) = 0%nat.

(** The service definition of the adapter's tests, already at the
    destination. *)
Definition existing_service : json :=
  JDict [("attributes",
          JDict [("schema", JDict [("dd-service", JStr "existing-service");
                                   ("team", JStr "old-team")])])].

Definition service_resource : json :=
  JDict [("attributes",
          JDict [("schema", JDict [("dd-service", JStr "existing-service");
                                   ("team", JStr "new-team")])])].

Definition service_world : world :=
  with_cache {[ KStr "existing-service" := existing_service ]}
             (fresh_world "service_definition").

Definition base_path (a : adapter) : string :=
  match a with
  | AWS => AWSIntegration.base_path
  | Azure => AzureIntegration.base_path
  | Fastly => FastlyIntegration.base_path
  | GCP => GCPIntegration.base_path
  | PagerDuty => PagerDutyIntegration.base_path
  | ServiceDef => ServiceDefinition.base_path
  | Slack => SlackIntegrationChannels.base_path
  | Webhooks => WebhooksIntegration.base_path
  end.

(** [d.get(f)]: the field, [None] when the mapping has none. *)
Definition field (f : string) (d : list (string * json)) : json :=
  match PyDict.get f d with
  | Some v => v
  | None => JNull
  end.

(** [e.get(f, r.get(f))]: the field of the entry, else that of the
    resource. *)
Definition field_or (f : string) (e r : list (string * json)) : json :=
  match PyDict.get f e with
  | Some v => v
  | None => field f r
  end.

(** The specification's statement that update and delete aim the write by
    the state-store entry of [_id]: were it so, two runs that find the same
    entry would aim at the same target. *)
Definition target_from_state_entry : Prop :=
  forall (F : Py.Format) (T : Transport) (a : adapter)
         (id1 id2 : string) (resource : json) (w1 w2 : world),
    has_table (resource_type a) w1 ->
    has_table (resource_type a) w2 ->
    entry_of (resource_type a) id1 w1 = entry_of (resource_type a) id2 w2 ->
    map target (issued w1 (snd (update_resource a id1 resource w1)))
    = map target (issued w2 (snd (update_resource a id2 resource w2)))
    /\ map target (issued w1 (snd (delete_resource a id1 w1)))
       = map target (issued w2 (snd (delete_resource a id2 w2))).

(** One Slack channel of the destination, recorded in the state store under
    the identity of its source channel, and under its own. *)
Definition dest_channel : json :=
  JDict [("_account_name", JStr "dest-ws"); ("name", JStr "#dest")].

Definition slack_world (_id : string) : world :=
  World (MkState [("slack_integration_channels", [])]
                 [("slack_integration_channels", [(_id, dest_channel)])])
        ∅ [] [].

(** A Fastly account recorded in the state store under its source id. *)
Definition fastly_world : world :=
  World (MkState [("fastly_integration", [])]
                 [("fastly_integration", [("src-1", JDict [("id", JStr "dest-1")])])])
        ∅ [] [].

(** The fetch of a webhook by name, and the two log lines of the cache
    build. *)
Definition webhook_get (name : string) : request :=
  Request DestinationOrg GET (WebhooksIntegration.base_path +:+ "/" +:+ name) None None.


Definition fetch_error_message `{Py.Format} (name : string) (status : Z) : string :=
  "Error fetching webhook '" +:+ name +:+ "': "
  +:+ Py.exn_text (CustomClientHTTPError status).

(** A state-store entry of a webhook: a mapping whose "name", when it has
    one that counts as true, is hashable (a string, a number, a boolean). *)
Definition well_named (v : json) : bool :=
  match v with
  | JDict d =>
      match PyDict.get "name" d with
      | Some (JList (_ :: _)) | Some (JDict (_ :: _)) => false
      | _ => true
      end
  | _ => false
  end.




(** Every entry of [acc] is the answer to a fetch of a webhook whose name is
    its key. *)
Definition fetched `{Py.Format} `{Transport} (acc : gmap dkey json) : Prop :=
  forall k r, acc !! k = Some r ->
    exists name h,
      Py.as_key name = Ok k /\ respond h (webhook_get (Py.str name)) = Body r.





(** A webhook recorded in both stores, for the examples. *)
Definition webhook_world : world :=
  World (MkState [("webhooks_integration", [("test-webhook", JDict [("name", JStr "test-webhook")])])]
                 [("webhooks_integration", [("test-webhook", JDict [("name", JStr "test-webhook")])])])
        ∅ [] [].

(** ** More of the contract *)

(** [pre_resource_action_hook]: every adapter leaves it empty. *)
Definition pre_resource_action_hook (a : adapter) (_id : string) (resource : json) : M unit :=
  ret tt.

(** [pre_apply_hook] of every adapter; the service definition adapter lists
    through the pagination driver it is given. *)
Definition pre_apply_hook `{Py.Format} `{Transport}
    (paginated_get : org -> string -> PaginationConfig -> M json) (a : adapter) : M unit :=
  match a with
  | AWS => AWSIntegration.pre_apply_hook
  | Azure => AzureIntegration.pre_apply_hook
  | Fastly => FastlyIntegration.pre_apply_hook
  | GCP => GCPIntegration.pre_apply_hook
  | PagerDuty => PagerDutyIntegration.pre_apply_hook
  | ServiceDef => ServiceDefinition.pre_apply_hook paginated_get
  | Slack => SlackIntegrationChannels.pre_apply_hook
  | Webhooks => WebhooksIntegration.pre_apply_hook
  end.

(** A method that sends nothing. *)
Definition quiet {A} (m : M A) : Prop :=
  forall w, sent (snd (m w)) = sent w.

(** A method that sends at most one request, and only one that satisfies
    [P]. *)
Definition sends_at_most_one {A} (P : request -> Prop) (m : M A) : Prop :=
  forall w, exists qs,
    sent (snd (m w)) = (sent w ++ qs)%list /\ (length qs <= 1)%nat /\ Forall P qs.

Definition to_destination (q : request) : Prop := client q = DestinationOrg.

Definition reads_source (q : request) : Prop :=
  client q = SourceOrg /\ verb q = GET.

Definition reads_destination (q : request) : Prop :=
  client q = DestinationOrg /\ verb q = GET.

(** A method that leaves the destination cache as it found it. *)
Definition keeps_cache {A} (m : M A) : Prop :=
  forall w, cache (snd (m w)) = cache w.

(** A method that, of the state store, writes at most the destination entry
    of [_id] under [resource_type]. *)
Definition writes_only_entry {A} (resource_type _id : string) (m : M A) : Prop :=
  forall w,
    source (state (snd (m w))) = source (state w)
    /\ forall rt id', (rt, id') <> (resource_type, _id) ->
         entry_of rt id' (snd (m w)) = entry_of rt id' w.

(** A method that never reports success, and that raises the HTTP error of
    status [status] once it has sent a request. *)
Definition fails_with {A} (status : Z) (m : M A) : Prop :=
  forall w, exists e w',
    m w = (Raise e, w')
    /\ (sent w' = sent w \/ e = CustomClientHTTPError status).

(** The transport is down: every request fails with [status]. *)
Definition down `{Transport} (status : Z) : Prop :=
  forall h q, respond h q = HTTPFail status.

(** A source (or destination) that lists two AWS integrations. *)
Definition aws_other : json :=
  JDict [("account_id", JStr "210987654321"); ("access_key_id", JStr "AKIAEXAMPLE")].

Definition aws_accounts : json :=
  JDict [("accounts", JList [aws_other; aws_existing])].

Definition aws_listing : Transport := fun _ _ => Body aws_accounts.

(** A destination that answers a created AWS integration with its
    generated external id. *)
Definition aws_creating : Transport :=
  fun _ _ => Body (JDict [("external_id", JStr "abc123def456")]).

(** A Slack channel that carries the name of its account, as
    [get_resources] hands it out. *)
Definition tagged (channel : json) : Prop :=
  exists d n,
    channel = JDict d /\ PyDict.get "_account_name" d = Some n /\ Py.truthy n = true.

(** The name of a Slack account: "name", else "account_name", else the
    empty string. *)
Definition slack_account_name (account : list (string * json)) : json :=
  match PyDict.get "name" account with
  | Some v => v
  | None =>
      match PyDict.get "account_name" account with
      | Some v => v
      | None => JStr ""
      end
  end.

(** The request for the channels of the account called [name], and the
    warning logged when it cannot be answered. *)
Definition channels_get `{Py.Format} (c : org) (name : json) : request :=
  Request c GET
    (SlackIntegrationChannels.base_path +:+ "/" +:+ Py.str name +:+ "/channels")
    None None.

Definition channels_warning `{Py.Format} (name : json) (e : exn) : level * string :=
  (LWarning,
   "Error fetching channels for account " +:+ Py.str name +:+ ": " +:+ Py.exn_text e).

(** A channel as the listing hands it out: a channel that the channels
    request of a listed account, one with a name that counts as true,
    answered, with "_account_name" set to that name. *)
Definition channel_of `{Py.Format} `{Transport} (c : org) (accounts : list json)
    (channel : json) : Prop :=
  exists a h l d,
    In (JDict a) accounts
    /\ Py.truthy (slack_account_name a) = true
    /\ respond h (channels_get c (slack_account_name a)) = Body (JList l)
    /\ In (JDict d) l
    /\ channel = JDict (PyDict.set "_account_name" (slack_account_name a) d).

(** The channel name a composite id is built from: "channel_name", else
    "name". *)
Definition channel_name_of (d : list (string * json)) : option json :=
  match PyDict.get "channel_name" d with
  | Some v => Some v
  | None => PyDict.get "name" d
  end.

(** A Slack organisation with one account and one channel, for the
    examples. *)
Definition slack_org : Transport :=
  fun _ q =>
    if String.eqb (path q) "/api/v1/integration/slack/configuration/accounts"
    then Body (JList [JDict [("name", JStr "my-workspace")]])
    else if String.eqb (path q)
              "/api/v1/integration/slack/configuration/accounts/my-workspace/channels"
    then Body (JList [JDict [("name", JStr "#alerts")]])
    else Body (JDict [("name", JStr "#alerts")]).

(** The key under which [pre_apply_hook] files a destination object of a
    listing.  The webhooks adapter lists nothing: it files the answer to a
    fetch under the name it asked for. *)
Definition filed_under `{Py.Format} (a : adapter) : option (json -> result json) :=
  match a with
  | AWS => Some (fun r => let? k := AWSIntegration._get_resource_id r in Ok (JStr k))
  | Azure => Some (fun r => let? k := AzureIntegration._get_resource_id r in Ok (JStr k))
  | Fastly => Some (fun r => let? attributes := Py.index r "attributes" in
                             Py.index attributes "name")
  | GCP => Some GCPIntegration.client_email_of
  | PagerDuty => Some (fun r => Py.index r "service_name")
  | ServiceDef => Some ServiceDefinition._get_service_name
  | Slack => Some (fun r => let? k := SlackIntegrationChannels._get_composite_id r in
                            Ok (JStr k))
  | Webhooks => None
  end.

(** Every entry of the cache is filed under the key [ident] gives it. *)
Definition keyed_by (ident : json -> result json) (c : gmap dkey json) : Prop :=
  forall k v, c !! k = Some v -> exists j, ident v = Ok j /\ Py.as_key j = Ok k.

(** Every entry of the cache is one of the items [rs]. *)
Definition drawn_from (rs : list json) (c : gmap dkey json) : Prop :=
  forall k v, c !! k = Some v -> In v rs.

(** The adapters that clear the cache and then fill it entry by entry; the
    others build the new cache aside and assign it at the end. *)
Definition fills_in_place (a : adapter) : bool :=
  match a with
  | Fastly | Slack => true
  | _ => false
  end.

(** A destination whose Fastly listing holds an account and then an item
    without attributes. *)
Definition fastly_listing : Transport :=
  fun _ _ =>
    Body (JDict [("data",
                  JList [JDict [("id", JStr "dest-fastly-1");
                                ("attributes", JDict [("name", JStr "test-account")])];
                         JDict [("id", JStr "dest-fastly-2")]])]).

(** A world whose cache holds an entry of an earlier build. *)
Definition stale_world (resource_type : string) : world :=
  World (empty_state resource_type) {[ KStr "stale" := JDict [("id", JStr "old")] ]} [] [].

(** A pagination driver for the examples: the listing is empty. *)
Definition empty_pages (c : org) (p : string) (cfg : PaginationConfig) : M json :=
  ret (JList []).

(** A method that never reports success, and that raises [e] once it has
    sent a request. *)
Definition fails_once_sent {A} (e : exn) (m : M A) : Prop :=
  forall w, exists e' w',
    m w = (Raise e', w')
    /\ (sent w' = sent w \/ e' = e).

(** The destination accepts every request and answers with a mapping that
    has no [k]. *)
Definition answers_without `{Transport} (k : string) : Prop :=
  forall h q, exists resp, respond h q = Body resp /\ lacks_key k resp.

(** The adapters whose writes read the result off the "data" key of the
    response. *)
Definition enveloped (a : adapter) : bool :=
  match a with
  | Fastly | GCP | ServiceDef => true
  | _ => false
  end.

(** The instance's identity key is not in the destination cache. *)
Definition misses `{Py.Format} (a : adapter) (c : gmap dkey json)
    (_id : string) (resource : json) : Prop :=
  exists (v : json) (k : dkey),
    cache_key a _id resource = Ok v /\ Py.as_key v = Ok k /\ c !! k = None.

(** Where [create_resource] posts an instance that is not in the cache: the
    collection of the adapter; for Slack, the channels of the instance's
    account. *)
Definition post_path `{Py.Format} (a : adapter) (resource : json) : result string :=
  match a with
  | Slack =>
      let? account_name := Py.get resource "_account_name" (JStr "") in
      Ok (SlackIntegrationChannels.base_path +:+ "/" +:+ Py.str account_name +:+ "/channels")
  | _ => Ok (base_path a)
  end.

(** What it posts: the instance; for Fastly and GCP, the instance in a
    "data" envelope; for service definitions, its schema; for Slack, the
    instance without its tracking field. *)
Definition post_body (a : adapter) (resource : json) : result json :=
  match a with
  | Fastly | GCP => Ok (JDict [("data", resource)])
  | ServiceDef => ServiceDefinition._extract_schema_data resource
  | Slack => SlackIntegrationChannels._prepare_payload resource
  | _ => Ok resource
  end.

(** A GCP account, for the examples. *)
Definition gcp_account : json :=
  JDict [("type", JStr "gcp_service_account");
         ("attributes", JDict [("client_email", JStr "sa@project.iam.gserviceaccount.com")])].

(** The entries name no webhook beyond those of [found]: each is a mapping
    with no name, with a name that counts as false, or with a name that
    [found] has. *)
Definition all_found (found : gmap dkey json) (entries : list (string * json)) : Prop :=
  Forall (fun e =>
            exists d, snd e = JDict d /\
              match PyDict.get "name" d with
              | None => True
              | Some v =>
                  Py.truthy v = false
                  \/ exists k, Py.as_key v = Ok k /\ is_Some (found !! k)
              end) entries.

(** A webhook that only the source state records, for the examples. *)
Definition first_sync_world : world :=
  World (MkState [("webhooks_integration",
                   [("test-webhook", JDict [("name", JStr "test-webhook")])])]
                 [("webhooks_integration", [])])
        ∅ [] [].

(** [get_resources] of every adapter; the service definition adapter lists
    through the pagination driver it is given. *)
Definition get_resources `{Py.Format} `{Transport}
    (paginated_get : org -> string -> PaginationConfig -> M json)
    (a : adapter) (c : org) : M json :=
  match a with
  | AWS => AWSIntegration.get_resources c
  | Azure => AzureIntegration.get_resources c
  | Fastly => FastlyIntegration.get_resources c
  | GCP => GCPIntegration.get_resources c
  | PagerDuty => PagerDutyIntegration.get_resources c
  | ServiceDef => ServiceDefinition.get_resources paginated_get c
  | Slack => SlackIntegrationChannels.get_resources c
  | Webhooks => WebhooksIntegration.get_resources c
  end.

(** [client.paginated_request(client.get)] with the driver of the
    specification, from the first page on; [items_of] reads the items off a
    page and [fuel] bounds the page requests. *)
Definition paginated_client_get `{Transport} (items_of : json -> result (list json))
    (fuel : nat) (c : org) (p : string) (cfg : PaginationConfig) : M json :=
  r <- Pagination.paginated_request items_of fuel c p cfg 0 0 [] ;;
  match r with
  | Some items => ret (JList items)
  | None => lift (Raise Unmodelled)
  end.

(** The envelope key under which an adapter finds its listing. *)
Definition envelope_key (a : adapter) : option string :=
  match a with
  | AWS => Some "accounts"
  | Fastly | GCP => Some "data"
  | PagerDuty => Some "services"
  | _ => None
  end.

(** The specification's statement that a listing whose body has no envelope
    key is an empty sequence, whatever the body is. *)
Definition listing_degrades : Prop :=
  forall (F : Py.Format) (T : Transport) (a : adapter) (k : string)
         (c : org) (w : world) (resp : json),
    envelope_key a = Some k ->
    answers c (base_path a) w resp ->
    (forall d, resp = JDict d -> PyDict.get k d = None) ->
    fst (get_resources empty_pages a c w) = Ok (JList []).

(** A destination that answers with a bare, empty list. *)
Definition bare_list : Transport := fun _ _ => Body (JList []).




(** A source that answers with a webhook, for the examples. *)
Definition webhook_source : Transport :=
  fun _ _ =>
    Body (JDict [("name", JStr "test-webhook"); ("url", JStr "https://example.com/hook")]).

(** * Properties *)

(** ** Dictionaries *)

Section DictFacts.
Context {A : Type}.
Implicit Types (d : list (string * A)) (k : string) (v : A).

Lemma dict_get_set_eq k v d : PyDict.get k (PyDict.set k v d) = Some v.
Proof.
  induction d as [|[k' v'] d IH]; simpl.
  - by rewrite String.eqb_refl.
  - destruct (String.eqb k k') eqn:E; simpl; rewrite ?String.eqb_refl ?E //.
Qed.

Lemma dict_get_set_ne k k' v d :
  k <> k' -> PyDict.get k' (PyDict.set k v d) = PyDict.get k' d.
Proof.
  intros Hne. induction d as [|[k0 v0] d IH]; simpl.
  - destruct (String.eqb k' k) eqn:E; [|done].
    apply String.eqb_eq in E. congruence.
  - destruct (String.eqb k k0) eqn:E; simpl.
    + apply String.eqb_eq in E. subst k0.
      destruct (String.eqb k' k) eqn:E'; [|done].
      apply String.eqb_eq in E'. congruence.
    + by rewrite IH.
Qed.

Lemma dict_get_pop_eq k d : PyDict.get k (PyDict.pop k d) = None.
Proof.
  induction d as [|[k' v'] d IH]; simpl; [done|].
  destruct (String.eqb k k') eqn:E; simpl; rewrite ?E //.
Qed.

Lemma dict_get_pop_ne k k' d :
  k <> k' -> PyDict.get k' (PyDict.pop k d) = PyDict.get k' d.
Proof.
  intros Hne. induction d as [|[k0 v0] d IH]; simpl; [done|].
  destruct (String.eqb k k0) eqn:E; simpl.
  - apply String.eqb_eq in E. subst k0.
    destruct (String.eqb k' k) eqn:E'; [|done].
    apply String.eqb_eq in E'. congruence.
  - by rewrite IH.
Qed.

End DictFacts.

(** ** Composite identifiers (Slack) *)

Lemma split_once_first_colon (account rest : string) :
  colon_free account = true ->
  Py.split_once ":" (account +:+ ":" +:+ rest) = [account; rest].
Proof.
  induction account as [|c account IH]; simpl; [done|].
  intros [Hc Hfree]%andb_prop.
  apply negb_true_iff in Hc. rewrite Hc. by rewrite (IH Hfree).
Qed.

Lemma parse_composite_id_compose (account channel : string) :
  colon_free account = true ->
  SlackIntegrationChannels._parse_composite_id (account +:+ ":" +:+ channel)
  = (account, channel).
Proof.
  intros Hfree. unfold SlackIntegrationChannels._parse_composite_id.
  by rewrite split_once_first_colon.
Qed.

(** C6. Parsing a Slack composite id splits on the first colon only:
    "workspace:#channel:with:colons" parses to the account "workspace" and
    the channel "#channel:with:colons"; and for every account name without
    a colon and every channel name, the id composed from a channel of that
    account is [account:channel] and parses back to exactly that pair. *)
Theorem slack_composite_id_roundtrip `{Py.Format} :
  SlackIntegrationChannels._parse_composite_id "workspace:#channel:with:colons"
  = ("workspace", "#channel:with:colons")
  /\ forall (account channel : string) (d : list (string * json)),
      colon_free account = true ->
      PyDict.get "_account_name" d = Some (JStr account) ->
      PyDict.get "channel_name" d = Some (JStr channel) ->
      SlackIntegrationChannels._get_composite_id (JDict d)
      = Ok (account +:+ ":" +:+ channel)
      /\ SlackIntegrationChannels._parse_composite_id (account +:+ ":" +:+ channel)
         = (account, channel).
Proof.
  split; [reflexivity|].
  intros account channel d Hfree Ha Hc. split.
  - unfold SlackIntegrationChannels._get_composite_id. simpl.
    by rewrite Ha Hc.
  - by apply parse_composite_id_compose.
Qed.

Lemma slack_composite_id_roundtrip_witness :
  colon_free "my-workspace" = true /\
  SlackIntegrationChannels._parse_composite_id ("my-workspace" +:+ ":" +:+ "#alerts:p1")
  = ("my-workspace", "#alerts:p1").
Proof.
  split; [reflexivity|].
  apply (proj2 (@slack_composite_id_roundtrip plain_format) "my-workspace" "#alerts:p1"
           [("_account_name", JStr "my-workspace"); ("channel_name", JStr "#alerts:p1")]);
    reflexivity.
Defined.

(** ** Pagination (service definitions) *)

Lemma issued_app (w w' : world) (qs : list request) :
  sent w' = (sent w ++ qs)%list -> issued w w' = qs.
Proof.
  intros E. unfold issued. rewrite E. by rewrite drop_app_length.
Qed.

Lemma remaining_func_counts (idx : Z) (resp : json) (t page_size page_number : Z) :
  counts resp t ->
  ServiceDefinition._remaining_func idx resp page_size page_number
  = Ok (Z.max 0 (t - page_size * (page_number + 1))).
Proof.
  intros (d & m & p & -> & Hm & Hp & Ht).
  unfold ServiceDefinition._remaining_func. simpl.
  rewrite Hm. simpl. rewrite Hp. simpl. by rewrite Ht.
Qed.

Lemma remaining_func_no_count (idx : Z) (resp : json) (page_size page_number : Z) :
  no_count resp ->
  ServiceDefinition._remaining_func idx resp page_size page_number
  = Ok (Z.max 0 (0 - page_size * (page_number + 1))).
Proof.
  intros (d & -> & Hcases).
  unfold ServiceDefinition._remaining_func. simpl.
  destruct Hcases as [Hm | (m & Hm & [Hp | (p & Hp & Ht)])]; rewrite Hm; simpl.
  - done.
  - by rewrite Hp.
  - rewrite Hp. simpl. by rewrite Ht.
Qed.

Section DriverFacts.
Context `{Transport}.
Variable items_of : json -> result (list json).

Lemma paginated_request_step (t : Z) (fuel : nat) (c : org) (p : string)
    (idx page_number : Z) (acc : list json) (w : world) :
  serves items_of t ->
  let cfg := ServiceDefinition.pagination_config in
  let q := Pagination.page_request c p 100 page_number in
  exists items,
    Pagination.paginated_request items_of (S fuel) c p cfg idx page_number acc w
    = if Z.eqb (Z.max 0 (t - 100 * (page_number + 1))) 0
      then (Ok (Some (acc ++ items)%list),
            World (state w) (cache w) (sent w ++ [q]) (logged w))
      else Pagination.paginated_request items_of fuel c p cfg (idx + 1)
             (page_number + 1) (acc ++ items)%list
             (World (state w) (cache w) (sent w ++ [q]) (logged w)).
Proof.
  intros Hserves cfg q.
  destruct (Hserves (sent w) q) as (resp & item & items & Hresp & Hcount & Hitems).
  exists (item :: items).
  cbn [Pagination.paginated_request]. unfold bind, call, lift.
  fold q. cbn [page_size cfg ServiceDefinition.pagination_config].
  rewrite Hresp Hitems.
  change (remaining_func cfg) with ServiceDefinition._remaining_func.
  rewrite (remaining_func_counts _ _ t) //.
  rewrite orb_false_r. by destruct (Z.eqb _ 0).
Qed.

Lemma paginated_request_three_fetches (fuel : nat) (c : org) (p : string) (w : world) :
  serves items_of 250 ->
  (3 <= fuel)%nat ->
  exists items w',
    Pagination.paginated_request items_of fuel c p
      ServiceDefinition.pagination_config 0 0 [] w = (Ok (Some items), w')
    /\ length (issued w w') = 3%nat.
Proof.
  intros Hserves Hfuel.
  destruct fuel as [|[|[|fuel]]]; try lia.
  destruct (paginated_request_step 250 (S (S fuel)) c p 0 0 [] w Hserves) as [i0 E0].
  rewrite E0. cbn [Z.eqb Z.max Z.add Z.mul Z.sub Z.compare]. simpl Z.eqb. cbv iota.
  set (w1 := World _ _ _ _).
  destruct (paginated_request_step 250 (S fuel) c p 1 1 ([] ++ i0) w1 Hserves)
    as [i1 E1].
  change (0 + 1) with 1. rewrite E1. simpl Z.eqb. cbv iota.
  set (w2 := World _ _ _ _).
  destruct (paginated_request_step 250 fuel c p 2 2 (([] ++ i0) ++ i1) w2 Hserves)
    as [i2 E2].
  change (1 + 1) with 2. rewrite E2. simpl Z.eqb. cbv iota.
  eexists _, _. split; [reflexivity|].
  rewrite (issued_app w _ [Pagination.page_request c p 100 0;
                           Pagination.page_request c p 100 1;
                           Pagination.page_request c p 100 2]) //.
  subst w2 w1. simpl. by rewrite -!app_assoc.
Qed.

End DriverFacts.

(** C5. The remaining function of the service-definition pagination returns
    [max(0, total_count - page_size * (page_number + 1))], the total count
    being read from [resp.meta.page.total_count]: with a total of 250 and
    pages of 100 it is positive at page numbers 0 and 1 and 0 at page 2, so
    the driver stops after exactly three page requests; and for an envelope
    without count metadata it returns 0 on the first page rather than
    raising. *)
Theorem remaining_func_terminates_pagination :
  (forall idx resp t page_size page_number,
      counts resp t ->
      ServiceDefinition._remaining_func idx resp page_size page_number
      = Ok (Z.max 0 (t - page_size * (page_number + 1))))
  /\ (forall idx resp,
        counts resp 250 ->
        ServiceDefinition._remaining_func idx resp 100 0 = Ok 150
        /\ ServiceDefinition._remaining_func idx resp 100 1 = Ok 50
        /\ ServiceDefinition._remaining_func idx resp 100 2 = Ok 0)
  /\ (forall idx resp page_size,
        no_count resp ->
        0 <= page_size ->
        ServiceDefinition._remaining_func idx resp page_size 0 = Ok 0)
  /\ (forall (T : Transport) items_of fuel c p w,
        serves items_of 250 ->
        (3 <= fuel)%nat ->
        exists items w',
          Pagination.paginated_request items_of fuel c p
            ServiceDefinition.pagination_config 0 0 [] w = (Ok (Some items), w')
          /\ length (issued w w') = 3%nat).
Proof.
  split; [|split; [|split]].
  - intros. by apply remaining_func_counts.
  - intros idx resp Hc. by rewrite !(remaining_func_counts _ _ 250).
  - intros idx resp page_size Hn Hsize.
    rewrite remaining_func_no_count //. f_equal. lia.
  - intros. by apply paginated_request_three_fetches.
Qed.

Lemma remaining_func_terminates_pagination_witness :
  counts page_of_250 250
  /\ ServiceDefinition._remaining_func 2 page_of_250 100 2 = Ok 0
  /\ no_count (JDict [])
  /\ ServiceDefinition._remaining_func 0 (JDict []) 100 0 = Ok 0
  /\ exists items w',
       Pagination.paginated_request (H := catalogue) data_items 5 DestinationOrg
         ServiceDefinition.base_path ServiceDefinition.pagination_config 0 0 []
         (fresh_world ServiceDefinition.resource_type) = (Ok (Some items), w')
       /\ length (issued (fresh_world ServiceDefinition.resource_type) w') = 3%nat.
Proof.
  assert (Hc : counts page_of_250 250).
  { eexists _, _, _. repeat split; reflexivity. }
  assert (Hn : no_count (JDict [])).
  { exists []. split; [reflexivity | by left]. }
  destruct remaining_func_terminates_pagination as (_ & H250 & Hnone & Hdriver).
  split; [exact Hc|]. split; [apply (H250 2 page_of_250 Hc)|].
  split; [exact Hn|]. split; [apply (Hnone 0 (JDict []) 100 Hn); lia|].
  apply (Hdriver catalogue data_items 5%nat); [|lia].
  intros h q. exists page_of_250, (JDict [("id", JStr "svc")]), [].
  split; [reflexivity|]. split; [exact Hc | reflexivity].
Defined.

(** ** Listings without their envelope *)

Section ListingFacts.
Context `{Py.Format} `{Transport}.
Implicit Types (c : org) (w : world) (resp : json).

Lemma keyed_listing_empty c w resp (p k : string) :
  answers c p w resp ->
  lacks_key k resp ->
  fst ((r <- client_get c p ;; lift (Py.get r k (JList []))) w) = Ok (JList []).
Proof.
  intros Hresp (d & -> & Hk).
  unfold bind, client_get, call, lift. rewrite Hresp. simpl. by rewrite Hk.
Qed.

Lemma azure_listing_empty c w resp :
  answers c AzureIntegration.base_path w resp ->
  Py.is_list resp = false ->
  fst (AzureIntegration.get_resources c w) = Ok (JList []).
Proof.
  intros Hresp Hl.
  unfold AzureIntegration.get_resources, bind, client_get, call.
  rewrite Hresp. by rewrite Hl.
Qed.

Lemma slack_listing_empty c w resp :
  answers c SlackIntegrationChannels.base_path w resp ->
  Py.is_list resp = false ->
  fst (SlackIntegrationChannels.get_resources c w) = Ok (JList []).
Proof.
  intros Hresp Hl.
  unfold SlackIntegrationChannels.get_resources, bind, client_get, call.
  rewrite Hresp. by destruct resp.
Qed.

Lemma keyed_listing_raises c w resp (p k : string) :
  answers c p w resp ->
  Py.is_dict resp = false ->
  fst ((r <- client_get c p ;; lift (Py.get r k (JList []))) w) = Raise AttributeError.
Proof.
  intros Hresp Hd.
  unfold bind, client_get, call, lift. rewrite Hresp. simpl. by destruct resp.
Qed.

Lemma data_items_empty resp : lacks_key "data" resp -> data_items resp = Ok [].
Proof. intros (d & -> & Hk). unfold data_items. simpl. by rewrite Hk. Qed.

(** A first page without items ends the pagination. *)
Lemma paginated_first_page_empty (items_of : json -> result (list json)) (fuel : nat)
    (p : string) (cfg : PaginationConfig) (n : Z) c w resp :
  (1 <= fuel)%nat ->
  respond (sent w) (Pagination.page_request c p (page_size cfg) 0) = Body resp ->
  items_of resp = Ok [] ->
  remaining_func cfg 0 resp (page_size cfg) 0 = Ok n ->
  fst (paginated_client_get items_of fuel c p cfg w) = Ok (JList []).
Proof.
  intros Hfuel Hresp Hitems Hn. destruct fuel as [|fuel]; [lia|].
  unfold paginated_client_get. cbn [Pagination.paginated_request].
  unfold bind, call, lift. rewrite Hresp Hitems Hn. by rewrite orb_true_r.
Qed.

End ListingFacts.

(** C7, as the code has it. For a response body that is a mapping without
    the envelope key, [get_resources] of the adapters that read a key
    ("accounts" for AWS, "data" for Fastly and GCP, "services" for PagerDuty)
    returns an empty sequence; for a body that is not a mapping (a list,
    [None]) it raises [AttributeError].  The Azure and Slack adapters expect
    a bare list and return an empty sequence for any other body.  The
    service definition adapter lists through the pagination driver: with
    the driver of the specification a first page without items (a mapping
    without "data", when the items are read from there) whose count the
    remaining function can read ends the listing with an empty sequence. *)
Theorem listing_without_envelope_is_empty `{Py.Format} `{Transport}
    (c : org) (w : world) (resp : json) :
  (answers c AWSIntegration.base_path w resp -> lacks_key "accounts" resp ->
   fst (AWSIntegration.get_resources c w) = Ok (JList []))
  /\ (answers c FastlyIntegration.base_path w resp -> lacks_key "data" resp ->
      fst (FastlyIntegration.get_resources c w) = Ok (JList []))
  /\ (answers c GCPIntegration.base_path w resp -> lacks_key "data" resp ->
      fst (GCPIntegration.get_resources c w) = Ok (JList []))
  /\ (answers c PagerDutyIntegration.base_path w resp -> lacks_key "services" resp ->
      fst (PagerDutyIntegration.get_resources c w) = Ok (JList []))
  /\ (answers c AzureIntegration.base_path w resp -> Py.is_list resp = false ->
      fst (AzureIntegration.get_resources c w) = Ok (JList []))
  /\ (answers c SlackIntegrationChannels.base_path w resp -> Py.is_list resp = false ->
      fst (SlackIntegrationChannels.get_resources c w) = Ok (JList []))
  /\ (Py.is_dict resp = false ->
      (answers c AWSIntegration.base_path w resp ->
       fst (AWSIntegration.get_resources c w) = Raise AttributeError)
      /\ (answers c FastlyIntegration.base_path w resp ->
          fst (FastlyIntegration.get_resources c w) = Raise AttributeError)
      /\ (answers c GCPIntegration.base_path w resp ->
          fst (GCPIntegration.get_resources c w) = Raise AttributeError)
      /\ (answers c PagerDutyIntegration.base_path w resp ->
          fst (PagerDutyIntegration.get_resources c w) = Raise AttributeError))
  /\ (forall items_of fuel n,
        (1 <= fuel)%nat ->
        respond (sent w) (Pagination.page_request c ServiceDefinition.base_path 100 0)
        = Body resp ->
        items_of resp = Ok [] ->
        ServiceDefinition._remaining_func 0 resp 100 0 = Ok n ->
        fst (ServiceDefinition.get_resources (paginated_client_get items_of fuel) c w)
        = Ok (JList []))
  /\ (forall fuel,
        (1 <= fuel)%nat ->
        respond (sent w) (Pagination.page_request c ServiceDefinition.base_path 100 0)
        = Body resp ->
        lacks_key "data" resp ->
        no_count resp \/ (exists t, counts resp t) ->
        fst (ServiceDefinition.get_resources (paginated_client_get data_items fuel) c w)
        = Ok (JList [])).
Proof.
  split; [apply keyed_listing_empty|]. split; [apply keyed_listing_empty|].
  split; [apply keyed_listing_empty|]. split; [apply keyed_listing_empty|].
  split; [apply azure_listing_empty|]. split; [apply slack_listing_empty|].
  split; [|split].
  - intros Hd. repeat split; intros Hresp; by apply (keyed_listing_raises c w resp).
  - intros items_of fuel n Hfuel Hresp Hitems Hn.
    by apply (paginated_first_page_empty items_of fuel _ _ n c w resp).
  - intros fuel Hfuel Hresp Hdata Hcount.
    assert (Hn : exists n, ServiceDefinition._remaining_func 0 resp 100 0 = Ok n).
    { destruct Hcount as [Hnone | [t Ht]]; eexists.
      - by apply remaining_func_no_count.
      - by apply remaining_func_counts. }
    destruct Hn as [n Hn].
    apply (paginated_first_page_empty data_items fuel _ _ n c w resp); try done.
    by apply data_items_empty.
Qed.

Lemma listing_without_envelope_is_empty_witness :
  lacks_key "accounts" (JDict [])
  /\ fst (AWSIntegration.get_resources (H0 := accepting) DestinationOrg
            (fresh_world AWSIntegration.resource_type)) = Ok (JList [])
  /\ fst (AzureIntegration.get_resources (H0 := accepting) DestinationOrg
            (fresh_world AzureIntegration.resource_type)) = Ok (JList [])
  /\ lacks_key "data" (JDict [])
  /\ no_count (JDict [])
  /\ fst (ServiceDefinition.get_resources (paginated_client_get (H := accepting) data_items 1)
            DestinationOrg (fresh_world ServiceDefinition.resource_type))
     = Ok (JList []).
Proof.
  assert (Hk : lacks_key "accounts" (JDict [])) by (by exists []).
  assert (Hd : lacks_key "data" (JDict [])) by (by exists []).
  assert (Hn : no_count (JDict [])) by (exists []; split; [reflexivity | by left]).
  pose proof (@listing_without_envelope_is_empty plain_format accepting DestinationOrg
                (fresh_world AWSIntegration.resource_type) (JDict [])) as (Haws & _).
  pose proof (@listing_without_envelope_is_empty plain_format accepting DestinationOrg
                (fresh_world AzureIntegration.resource_type) (JDict []))
    as (_ & _ & _ & _ & Hazure & _).
  pose proof (@listing_without_envelope_is_empty plain_format accepting DestinationOrg
                (fresh_world ServiceDefinition.resource_type) (JDict []))
    as (_ & _ & _ & _ & _ & _ & _ & _ & Hservice).
  split; [exact Hk|]. split; [by apply Haws|]. split; [by apply Hazure|].
  split; [exact Hd|]. split; [exact Hn|].
  apply (Hservice 1%nat); [lia | reflexivity | exact Hd | by left].
Defined.

(** C7 as the specification states it does not hold: a body that is a list
    has no "accounts" key, and the AWS listing raises [AttributeError]
    instead of returning an empty sequence. *)
Lemma listing_of_a_list_raises :
  fst (AWSIntegration.get_resources (H0 := bare_list) DestinationOrg
         (fresh_world "aws_integration"))
  = Raise AttributeError
  /\ ~ listing_degrades.
Proof.
  split; [reflexivity|].
  intros Hstated.
  specialize (Hstated plain_format bare_list AWS "accounts" DestinationOrg
                (fresh_world "aws_integration") (JList []) eq_refl eq_refl).
  discriminate Hstated. by intros d.
Qed.

(** ** Payloads of the Slack adapter *)

Lemma issued_nil (w w' : world) : sent w' = sent w -> issued w w' = [].
Proof. intros E. apply issued_app. by rewrite app_nil_r. Qed.

Lemma store_destination_sent (rt _id : string) (v : json) (w : world) :
  sent (snd (store_destination rt _id v w)) = sent w.
Proof.
  unfold store_destination, destination_of, bind, get_state, set_state, lift, ret.
  simpl. by destruct (PyDict.get rt (destination (state w))).
Qed.

Lemma store_destination_cache (rt _id : string) (v : json) (w : world) :
  cache (snd (store_destination rt _id v w)) = cache w.
Proof.
  unfold store_destination, destination_of, bind, get_state, set_state, lift, ret.
  simpl. by destruct (PyDict.get rt (destination (state w))).
Qed.

Section SlackFacts.
Context `{Py.Format} `{Transport}.

Lemma prepare_payload_dict (d : list (string * json)) :
  SlackIntegrationChannels._prepare_payload (JDict d)
  = Ok (JDict (PyDict.pop "_account_name" d)).
Proof. reflexivity. Qed.

Lemma prepare_payload_untracked (resource payload : json) :
  SlackIntegrationChannels._prepare_payload resource = Ok payload ->
  exists p, payload = JDict p /\ PyDict.get "_account_name" p = None.
Proof.
  unfold SlackIntegrationChannels._prepare_payload.
  destruct (SlackIntegrationChannels.dict_of resource) as [d|e]; simpl; [|done].
  intros [= <-]. eexists. split; [done|]. apply dict_get_pop_eq.
Qed.

Lemma slack_update_requests (_id : string) (resource : json) (w : world) :
  exists qs,
    sent (snd (SlackIntegrationChannels.update_resource _id resource w))
    = (sent w ++ qs)%list
    /\ Forall untracked qs.
Proof.
  unfold SlackIntegrationChannels.update_resource.
  destruct (SlackIntegrationChannels._parse_composite_id _id) as [account channel].
  unfold bind, lift.
  destruct (SlackIntegrationChannels._prepare_payload resource) as [payload|e] eqn:E.
  - destruct (prepare_payload_untracked _ _ E) as (p & -> & Hp).
    unfold client_patch, call.
    eexists [_]. split.
    + by destruct (respond _ _) as [resp|status]; simpl;
        [destruct (Py.setitem resp _ _)|].
    + constructor; [|done]. by exists p.
  - exists []. by rewrite app_nil_r.
Qed.

End SlackFacts.

Section SlackCreate.
Context `{Py.Format} `{Transport}.

Lemma slack_create_requests (_id : string) (resource : json) (w : world) :
  exists qs,
    sent (snd (SlackIntegrationChannels.create_resource _id resource w))
    = (sent w ++ qs)%list
    /\ Forall untracked qs.
Proof.
  unfold SlackIntegrationChannels.create_resource, bind, get_cache. simpl.
  destruct (bool_decide _).
  - unfold cached, bind, get_cache, lift, ret. simpl.
    destruct (cache w !! KStr _id) as [existing|]; simpl;
      [|exists []; by rewrite app_nil_r].
    pose proof (store_destination_sent SlackIntegrationChannels.resource_type
                  _id existing w) as Hs.
    destruct (store_destination _ _ _ w) as [[[]|e] w1]; simpl in Hs.
    + rewrite -Hs. apply slack_update_requests.
    + exists []. by rewrite app_nil_r.
  - unfold lift.
    destruct (Py.get resource _ _) as [account_name|e]; simpl;
      [|exists []; by rewrite app_nil_r].
    destruct (SlackIntegrationChannels._prepare_payload resource) as [payload|e] eqn:E;
      [|exists []; by rewrite app_nil_r].
    destruct (prepare_payload_untracked _ _ E) as (p & -> & Hp).
    unfold client_post, call. eexists [_]. split.
    + by destruct (respond _ _) as [resp|status]; simpl;
        [destruct (Py.setitem resp _ _)|].
    + constructor; [|done]. by exists p.
Qed.

End SlackCreate.

Lemma prepare_payload_fresh_object (h : Objects.heap) (resource : nat)
    (d : list (string * json)) :
  Objects.well_formed h ->
  Objects.objects h !! resource = Some d ->
  exists payload h',
    Objects._prepare_payload resource h = Some (payload, h')
    /\ payload <> resource
    /\ Objects.objects h' !! resource = Some d
    /\ Objects.objects h' !! payload = Some (PyDict.pop "_account_name" d)
    /\ (forall r, r <> payload -> Objects.objects h' !! r = Objects.objects h !! r)
    /\ Objects.well_formed h'.
Proof.
  intros Hwf Hd.
  assert (Hlt : (resource < Objects.next h)%nat).
  { destruct (decide (resource < Objects.next h)%nat) as [|Hge]; [done|].
    rewrite Hwf in Hd; [lia | done]. }
  unfold Objects._prepare_payload, Objects.new_dict. rewrite Hd.
  eexists _, _. split; [reflexivity|]. simpl.
  split; [lia|]. split; [|split; [|split]].
  - rewrite lookup_alter_ne; [lia|]. rewrite lookup_insert_ne; [lia|]. done.
  - rewrite lookup_alter_eq lookup_insert_eq. done.
  - intros r Hr. rewrite lookup_alter_ne; [done|]. by rewrite lookup_insert_ne.
  - intros r Hr. simpl in *.
    rewrite lookup_alter_ne; [lia|]. rewrite lookup_insert_ne; [lia|].
    apply Hwf. lia.
Qed.

(** C10. Every request body the Slack adapter sends from [create_resource]
    and [update_resource] leaves out the internal "_account_name" field; and
    [_prepare_payload] does not change its argument: the payload is a new
    object, the argument holds the same items after the call, and every
    field other than "_account_name" has the same value in the payload. *)
Theorem slack_payload_excludes_account_name `{Py.Format} `{Transport} :
  (forall _id resource w,
      Forall untracked
        (issued w (snd (SlackIntegrationChannels.create_resource _id resource w))))
  /\ (forall _id resource w,
        Forall untracked
          (issued w (snd (SlackIntegrationChannels.update_resource _id resource w))))
  /\ (forall d k,
        SlackIntegrationChannels._prepare_payload (JDict d)
        = Ok (JDict (PyDict.pop "_account_name" d))
        /\ PyDict.get "_account_name" (PyDict.pop "_account_name" d) = None
        /\ (k <> "_account_name" ->
            PyDict.get k (PyDict.pop "_account_name" d) = PyDict.get k d))
  /\ (forall h resource d,
        Objects.well_formed h ->
        Objects.objects h !! resource = Some d ->
        exists payload h',
          Objects._prepare_payload resource h = Some (payload, h')
          /\ payload <> resource
          /\ Objects.objects h' !! resource = Some d
          /\ Objects.objects h' !! payload = Some (PyDict.pop "_account_name" d)).
Proof.
  split; [|split; [|split]].
  - intros _id resource w.
    destruct (slack_create_requests _id resource w) as (qs & Hs & Hqs).
    by rewrite (issued_app _ _ _ Hs).
  - intros _id resource w.
    destruct (slack_update_requests _id resource w) as (qs & Hs & Hqs).
    by rewrite (issued_app _ _ _ Hs).
  - intros d k. split; [reflexivity|]. split.
    + apply dict_get_pop_eq.
    + intros Hk. apply dict_get_pop_ne. congruence.
  - intros h resource d Hwf Hd.
    destruct (prepare_payload_fresh_object h resource d Hwf Hd)
      as (payload & h' & E & Hne & Hr & Hp & _).
    by exists payload, h'.
Qed.

Lemma slack_payload_excludes_account_name_witness :
  Objects.well_formed alerts_heap
  /\ Objects.objects alerts_heap !! 0%nat = Some alerts_channel
  /\ exists payload h',
       Objects._prepare_payload 0 alerts_heap = Some (payload, h')
       /\ payload <> 0%nat
       /\ Objects.objects h' !! 0%nat = Some alerts_channel
       /\ Objects.objects h' !! payload
          = Some (PyDict.pop "_account_name" alerts_channel).
Proof.
  assert (Hwf : Objects.well_formed alerts_heap).
  { intros r Hr. simpl in *. apply lookup_singleton_ne. lia. }
  split; [exact Hwf|]. split; [reflexivity|].
  apply (proj2 (proj2 (proj2
    (@slack_payload_excludes_account_name plain_format accepting)))); [exact Hwf|].
  reflexivity.
Defined.

(** ** Identity resolution during import *)

Section ImportFacts.
Context `{Py.Format} `{Transport}.
Implicit Types (d : list (string * json)) (w : world).

Lemma aws_resource_id_total d :
  exists key, AWSIntegration._get_resource_id (JDict d) = Ok key.
Proof.
  unfold AWSIntegration._get_resource_id. simpl.
  destruct (Py.truthy _); eauto.
Qed.

Lemma import_composite_total (a : adapter) d w :
  composite_key a = true ->
  exists key, import_resource a None (JDict d) w = (Ok (JStr key, JDict d), w).
Proof.
  destruct a; try discriminate; intros _; simpl.
  - destruct (aws_resource_id_total d) as [key Hk].
    exists key.
    unfold with_key, AWSIntegration.import_resource, bind, lift, ret. simpl.
    by rewrite Hk.
  - eexists. reflexivity.
  - eexists. reflexivity.
Qed.

Lemma import_composite_degenerate (a : adapter) d w :
  composite_key a = true ->
  Forall (fun f => PyDict.get f d = None) (composing_fields a) ->
  import_resource a None (JDict d) w = (Ok (JStr ":", JDict d), w).
Proof.
  destruct a; try discriminate; intros _; simpl.
  - intros (Ha & (Hr & (Hk & _)%Forall_cons)%Forall_cons)%Forall_cons.
    unfold with_key, AWSIntegration.import_resource, AWSIntegration._get_resource_id.
    unfold bind, lift, ret. simpl. by rewrite Ha Hr Hk.
  - intros (Ht & (Hc & _)%Forall_cons)%Forall_cons.
    unfold with_key, AzureIntegration.import_resource, AzureIntegration._get_resource_id.
    unfold bind, lift, ret. simpl. by rewrite Ht Hc.
  - intros (Ha & (Hn & (Hc & _)%Forall_cons)%Forall_cons)%Forall_cons.
    unfold with_key, SlackIntegrationChannels.import_resource,
      SlackIntegrationChannels._get_composite_id.
    unfold bind, lift, ret. simpl. by rewrite Ha Hn Hc.
Qed.

Lemma import_composite_leading (a : adapter) (f : string) (fs : list string) d w :
  composite_key a = true ->
  composing_fields a = f :: fs ->
  exists rest,
    import_resource a None (JDict d) w
    = (Ok (JStr (segment f d +:+ ":" +:+ rest), JDict d), w).
Proof.
  destruct a; try discriminate; intros _ [= <- <-]; simpl; unfold segment.
  - unfold with_key, AWSIntegration.import_resource, AWSIntegration._get_resource_id.
    unfold bind, lift, ret. simpl.
    destruct (PyDict.get "account_id" d); simpl; destruct (Py.truthy _); by eexists.
  - unfold with_key, AzureIntegration.import_resource, AzureIntegration._get_resource_id.
    unfold bind, lift, ret. simpl. destruct (PyDict.get "tenant_name" d); by eexists.
  - unfold with_key, SlackIntegrationChannels.import_resource,
      SlackIntegrationChannels._get_composite_id.
    unfold bind, lift, ret. simpl. destruct (PyDict.get "_account_name" d); by eexists.
Qed.

Lemma import_key_field (a : adapter) (f : string) d w :
  key_field a = Some f ->
  import_resource a None (JDict d) w
  = (match PyDict.get f d with
     | Some v => Ok (v, JDict d)
     | None => Raise (KeyError f)
     end, w).
Proof.
  destruct a; try discriminate; intros [= <-]; simpl;
    unfold FastlyIntegration.import_resource, GCPIntegration.import_resource,
      PagerDutyIntegration.import_resource, WebhooksIntegration.import_resource,
      bind, lift, ret; simpl; by destruct (PyDict.get _ d).
Qed.

Lemma import_service_definition_fallback d w :
  PyDict.get "attributes" d = None ->
  PyDict.get "dd-service" d = None ->
  PyDict.get "name" d = None ->
  import_resource ServiceDef None (JDict d) w
  = (Ok (match PyDict.get "id" d with Some v => v | None => JStr "" end, JDict d), w).
Proof.
  intros Ha Hd Hn. simpl.
  unfold ServiceDefinition.import_resource, bind, lift, ret. simpl.
  unfold ServiceDefinition._get_service_name. simpl.
  unfold PyDict.mem. by rewrite Ha Hd Hn.
Qed.

End ImportFacts.

(** C3, as the code has it. Identity resolution during import never fails
    for the adapters with a composite key (AWS, Azure, Slack): for any
    string-keyed mapping [import_resource] returns a key string, which starts
    with the text of the leading field (empty when the mapping lacks it)
    followed by a colon, and which is the degenerate ":" for every mapping
    that has none of the composing fields, whatever else it holds.  The
    service definition adapter falls back to the "id" field and to the empty
    string.  The adapters keyed by one field (Fastly and GCP by "id",
    PagerDuty by "service_name", webhooks by "name") return that field as it
    is, and raise [KeyError] when the instance lacks it. *)
Theorem import_identity_resolution `{Py.Format} `{Transport}
    (a : adapter) (d : list (string * json)) (w : world) :
  (composite_key a = true ->
   (exists key, import_resource a None (JDict d) w = (Ok (JStr key, JDict d), w))
   /\ (forall f fs, composing_fields a = f :: fs ->
       exists rest,
         import_resource a None (JDict d) w
         = (Ok (JStr (segment f d +:+ ":" +:+ rest), JDict d), w))
   /\ (Forall (fun f => PyDict.get f d = None) (composing_fields a) ->
       import_resource a None (JDict d) w = (Ok (JStr ":", JDict d), w)))
  /\ (a = ServiceDef ->
      PyDict.get "attributes" d = None ->
      PyDict.get "dd-service" d = None ->
      PyDict.get "name" d = None ->
      import_resource a None (JDict d) w
      = (Ok (match PyDict.get "id" d with Some v => v | None => JStr "" end,
             JDict d), w))
  /\ (forall f, key_field a = Some f ->
      import_resource a None (JDict d) w
      = (match PyDict.get f d with
         | Some v => Ok (v, JDict d)
         | None => Raise (KeyError f)
         end, w)).
Proof.
  split; [|split].
  - intros Hc. split; [|split].
    + by apply import_composite_total.
    + intros f fs Hf. by apply (import_composite_leading a f fs).
    + by apply import_composite_degenerate.
  - intros ->. apply import_service_definition_fallback.
  - intros f Hf. by apply import_key_field.
Qed.

Lemma import_identity_resolution_witness :
  composite_key AWS = true
  /\ key_field Fastly = Some "id"
  /\ Forall (fun f => PyDict.get f [("host_tags", JList [JStr "env:staging"])] = None)
       (composing_fields AWS)
  /\ import_resource (H := plain_format) (H0 := accepting) AWS None
       (JDict [("host_tags", JList [JStr "env:staging"])])
       (fresh_world "aws_integration")
     = (Ok (JStr ":", JDict [("host_tags", JList [JStr "env:staging"])]),
        fresh_world "aws_integration")
  /\ import_resource (H := plain_format) (H0 := accepting) Fastly None (JDict [])
       (fresh_world "fastly_integration")
     = (Raise (KeyError "id"), fresh_world "fastly_integration").
Proof.
  assert (Hnone : Forall (fun f => PyDict.get f [("host_tags", JList [JStr "env:staging"])]
                                   = None) (composing_fields AWS))
    by (by repeat constructor).
  split; [reflexivity|]. split; [reflexivity|]. split; [exact Hnone|]. split.
  - apply (proj2 (proj2 (proj1 (@import_identity_resolution plain_format accepting AWS
                                  [("host_tags", JList [JStr "env:staging"])]
                                  (fresh_world "aws_integration")) eq_refl))).
    exact Hnone.
  - apply (proj2 (proj2 (@import_identity_resolution plain_format accepting Fastly []
                    (fresh_world "fastly_integration"))) "id"). reflexivity.
Defined.

(** C3 as the specification states it does not hold: importing a Fastly
    account that has no "id" raises [KeyError]. *)
Lemma import_without_id_raises :
  fst (import_resource (H := plain_format) (H0 := accepting) Fastly None (JDict [])
         (fresh_world "fastly_integration"))
  = Raise (KeyError "id")
  /\ ~ identity_resolution_total.
Proof.
  split; [reflexivity|].
  intros Htotal.
  destruct (Htotal plain_format accepting Fastly [] (fresh_world "fastly_integration"))
    as [key Hkey].
  discriminate Hkey.
Qed.

(** ** What a method depends on *)

Section Frames.
Context `{Transport}.

Lemma ignores_state_ret {A} (a : A) : ignores_state (ret a).
Proof. done. Qed.

Lemma ignores_state_lift {A} (r : result A) : ignores_state (lift r).
Proof. done. Qed.

Lemma ignores_state_call (q : request) : ignores_state (call q).
Proof. intros w s. unfold call. simpl. by destruct (respond _ _). Qed.

Lemma ignores_state_bind {A B} (m : M A) (k : A -> M B) :
  ignores_state m -> (forall a, ignores_state (k a)) -> ignores_state (bind m k).
Proof.
  intros Hm Hk w s. unfold bind. rewrite Hm.
  destruct (m w) as [[a|e] w1]; simpl; [apply Hk | done].
Qed.

Lemma ignores_cache_ret {A} (a : A) : ignores_cache (ret a).
Proof. done. Qed.

Lemma ignores_cache_lift {A} (r : result A) : ignores_cache (lift r).
Proof. done. Qed.

Lemma ignores_cache_call (q : request) : ignores_cache (call q).
Proof. intros w c. unfold call. simpl. by destruct (respond _ _). Qed.

Lemma ignores_cache_bind {A B} (m : M A) (k : A -> M B) :
  ignores_cache m -> (forall a, ignores_cache (k a)) -> ignores_cache (bind m k).
Proof.
  intros Hm Hk w c. unfold bind. rewrite Hm.
  destruct (m w) as [[a|e] w1]; simpl; [apply Hk | done].
Qed.

Lemma ignores_cache_get_state : ignores_cache get_state.
Proof. done. Qed.

Lemma ignores_cache_destination_of (rt : string) : ignores_cache (destination_of rt).
Proof.
  intros w c. unfold destination_of, bind, get_state. simpl.
  by destruct (PyDict.get rt _).
Qed.

Lemma ignores_cache_destination_entry (rt _id : string) :
  ignores_cache (destination_entry rt _id).
Proof.
  apply ignores_cache_bind; [apply ignores_cache_destination_of|].
  intros t. by destruct (PyDict.get _id t).
Qed.

Lemma ignores_cache_destination_entry_or_empty (rt _id : string) :
  ignores_cache (destination_entry_or_empty rt _id).
Proof.
  apply ignores_cache_bind; [apply ignores_cache_destination_of|]. done.
Qed.

End Frames.

Create HintDb frame.

#[local] Hint Resolve ignores_state_ret ignores_state_lift ignores_state_call
  ignores_cache_ret ignores_cache_lift ignores_cache_call ignores_cache_get_state
  ignores_cache_destination_of ignores_cache_destination_entry
  ignores_cache_destination_entry_or_empty : frame.

(** Walks through a method, one statement at a time. *)
Ltac frame :=
  repeat first
    [ progress eauto with frame
    | apply ignores_state_bind
    | apply ignores_cache_bind
    | progress intros
    | match goal with
      | |- context [if ?b then _ else _] => destruct b
      | |- context [match ?x with _ => _ end] => destruct x
      end ].

Section AdapterFrames.
Context `{Py.Format} `{Transport}.

Lemma update_ignores_cache (a : adapter) (_id : string) (resource : json) :
  ignores_cache (update_resource a _id resource).
Proof.
  destruct a; simpl;
    unfold AWSIntegration.update_resource, AzureIntegration.update_resource,
      FastlyIntegration.update_resource, GCPIntegration.update_resource,
      PagerDutyIntegration.update_resource, ServiceDefinition.update_resource,
      SlackIntegrationChannels.update_resource, WebhooksIntegration.update_resource,
      client_put, client_patch, client_post;
    frame.
Qed.

Lemma delete_ignores_cache (a : adapter) (_id : string) :
  ignores_cache (delete_resource a _id).
Proof.
  destruct a; simpl;
    unfold AWSIntegration.delete_resource, AzureIntegration.delete_resource,
      FastlyIntegration.delete_resource, GCPIntegration.delete_resource,
      PagerDutyIntegration.delete_resource, ServiceDefinition.delete_resource,
      SlackIntegrationChannels.delete_resource, WebhooksIntegration.delete_resource,
      client_delete;
    frame.
Qed.

Lemma azure_update_ignores_state (_id : string) (resource : json) :
  ignores_state (AzureIntegration.update_resource _id resource).
Proof. unfold AzureIntegration.update_resource, client_put. frame. Qed.

Lemma slack_update_ignores_state (_id : string) (resource : json) :
  ignores_state (SlackIntegrationChannels.update_resource _id resource).
Proof. unfold SlackIntegrationChannels.update_resource, client_patch. frame. Qed.

Lemma slack_delete_ignores_state (_id : string) :
  ignores_state (SlackIntegrationChannels.delete_resource _id).
Proof. unfold SlackIntegrationChannels.delete_resource, client_delete. frame. Qed.

Lemma service_definition_update_ignores_state (_id : string) (resource : json) :
  ignores_state (ServiceDefinition.update_resource _id resource).
Proof. unfold ServiceDefinition.update_resource, client_post. frame. Qed.

Lemma service_definition_delete_ignores_state (_id : string) :
  ignores_state (ServiceDefinition.delete_resource _id).
Proof. unfold ServiceDefinition.delete_resource, client_delete. frame. Qed.

End AdapterFrames.

(** ** Update and delete without a state-store entry *)

(** Unfolds the plumbing of a method down to the answers of the transport. *)
Ltac unfold_m :=
  cbv beta delta [bind ret lift call client_get client_post client_put client_patch
                  client_delete get_cache set_cache get_state set_state log].

Section MissingEntry.
Context `{Py.Format} `{Transport}.
Implicit Types (w : world) (_id : string) (resource : json).

Lemma destination_entry_missing (rt _id : string) w :
  has_table rt w ->
  entry_of rt _id w = None ->
  destination_entry rt _id w = (Raise (KeyError _id), w).
Proof.
  intros [t Ht]. unfold entry_of, destination_entry, destination_of, bind, get_state.
  simpl. rewrite Ht. simpl. by intros ->.
Qed.

Lemma destination_entry_or_empty_missing (rt _id : string) w :
  has_table rt w ->
  entry_of rt _id w = None ->
  destination_entry_or_empty rt _id w = (Ok (JDict []), w).
Proof.
  intros [t Ht].
  unfold entry_of, destination_entry_or_empty, destination_of, bind, get_state.
  simpl. rewrite Ht. simpl. by intros ->.
Qed.

Lemma keyed_update_missing_entry (a : adapter) (f : string) _id resource w :
  key_field a = Some f ->
  has_table (resource_type a) w ->
  entry_of (resource_type a) _id w = None ->
  update_resource a _id resource w = (Raise (KeyError _id), w).
Proof.
  intros Hf Ht He.
  destruct a; try discriminate; simpl in *;
    unfold FastlyIntegration.update_resource, GCPIntegration.update_resource,
      PagerDutyIntegration.update_resource, WebhooksIntegration.update_resource;
    unfold bind at 1; by rewrite destination_entry_missing.
Qed.

Lemma keyed_delete_missing_entry (a : adapter) (f : string) _id w :
  key_field a = Some f ->
  has_table (resource_type a) w ->
  entry_of (resource_type a) _id w = None ->
  delete_resource a _id w = (Raise (KeyError _id), w).
Proof.
  intros Hf Ht He.
  destruct a; try discriminate; simpl in *;
    unfold FastlyIntegration.delete_resource, GCPIntegration.delete_resource,
      PagerDutyIntegration.delete_resource, WebhooksIntegration.delete_resource;
    unfold bind at 1; by rewrite destination_entry_missing.
Qed.

Lemma aws_delete_missing_entry _id w :
  has_table AWSIntegration.resource_type w ->
  entry_of AWSIntegration.resource_type _id w = None ->
  issued w (snd (AWSIntegration.delete_resource _id w))
  = [Request DestinationOrg DELETE AWSIntegration.base_path
       (Some (JDict [("account_id", JNull)])) None].
Proof.
  intros Ht He. apply issued_app.
  unfold AWSIntegration.delete_resource. unfold bind at 1.
  rewrite destination_entry_or_empty_missing //.
  unfold_m. simpl.
  by destruct (respond _ _).
Qed.

Lemma aws_update_missing_entry _id (d : list (string * json)) w :
  has_table AWSIntegration.resource_type w ->
  entry_of AWSIntegration.resource_type _id w = None ->
  exists ps,
    issued w (snd (AWSIntegration.update_resource _id (JDict d) w))
    = [Request DestinationOrg PUT AWSIntegration.base_path (Some (JDict d))
         (Some (JDict ps))].
Proof.
  intros Ht He.
  unfold AWSIntegration.update_resource. unfold bind at 1.
  rewrite destination_entry_or_empty_missing //.
  unfold_m. simpl.
  destruct (Py.truthy (match PyDict.get "role_name" d with
                       | Some v => v | None => JNull end)); simpl.
  - eexists. apply issued_app. simpl.
    destruct (respond _ _) as [resp|status]; simpl; [|done].
    by destruct resp.
  - destruct (Py.truthy (match PyDict.get "access_key_id" d with
                         | Some v => v | None => JNull end)); simpl.
    + eexists. apply issued_app. simpl.
      destruct (respond _ _) as [resp|status]; simpl; [|done].
      by destruct resp.
    + eexists. apply issued_app. simpl.
      destruct (respond _ _) as [resp|status]; simpl; [|done].
      by destruct resp.
Qed.

Lemma azure_delete_missing_entry _id w :
  has_table AzureIntegration.resource_type w ->
  entry_of AzureIntegration.resource_type _id w = None ->
  issued w (snd (AzureIntegration.delete_resource _id w))
  = [Request DestinationOrg DELETE AzureIntegration.base_path
       (Some (JDict [("tenant_name", JNull); ("client_id", JNull)])) None].
Proof.
  intros Ht He. apply issued_app.
  unfold AzureIntegration.delete_resource. unfold bind at 1.
  rewrite destination_entry_or_empty_missing //.
  unfold_m. simpl.
  by destruct (respond _ _).
Qed.

Lemma azure_update_request _id resource w :
  issued w (snd (AzureIntegration.update_resource _id resource w))
  = [Request DestinationOrg PUT AzureIntegration.base_path (Some resource) None].
Proof.
  apply issued_app.
  unfold AzureIntegration.update_resource. unfold_m.
  by destruct (respond _ _).
Qed.

End MissingEntry.

(** C4, as the code has it. When [state.destination[resource_type]] has no
    entry for [_id], the adapters that subscript the entry (Fastly, GCP,
    PagerDuty, webhooks) raise [KeyError] from [update_resource] and
    [delete_resource] before any request is sent.  The AWS adapter (update
    and delete) and the Azure adapter (delete) read the entry with an empty
    default and still send the request, AWS delete with a null "account_id"
    and Azure delete with null "tenant_name" and "client_id".  Azure update
    and the Slack and service definition adapters do not consult the state
    store. *)
Theorem missing_entry_behaviour `{Py.Format} `{Transport}
    (a : adapter) (_id : string) (resource : json) (w : world) :
  has_table (resource_type a) w ->
  entry_of (resource_type a) _id w = None ->
  (forall f, key_field a = Some f ->
     update_resource a _id resource w = (Raise (KeyError _id), w)
     /\ delete_resource a _id w = (Raise (KeyError _id), w))
  /\ (a = AWS ->
      issued w (snd (delete_resource a _id w))
      = [Request DestinationOrg DELETE AWSIntegration.base_path
           (Some (JDict [("account_id", JNull)])) None]
      /\ forall d, resource = JDict d ->
         exists ps,
           issued w (snd (update_resource a _id resource w))
           = [Request DestinationOrg PUT AWSIntegration.base_path (Some resource)
                (Some (JDict ps))])
  /\ (a = Azure ->
      issued w (snd (delete_resource a _id w))
      = [Request DestinationOrg DELETE AzureIntegration.base_path
           (Some (JDict [("tenant_name", JNull); ("client_id", JNull)])) None]
      /\ issued w (snd (update_resource a _id resource w))
         = [Request DestinationOrg PUT AzureIntegration.base_path (Some resource) None])
  /\ (a = Azure -> ignores_state (update_resource a _id resource))
  /\ (a = Slack \/ a = ServiceDef ->
      ignores_state (update_resource a _id resource)
      /\ ignores_state (delete_resource a _id)).
Proof.
  intros Ht He. split; [|split; [|split; [|split]]].
  - intros f Hf. split.
    + by apply (keyed_update_missing_entry a f).
    + by apply (keyed_delete_missing_entry a f).
  - intros ->. split.
    + by apply aws_delete_missing_entry.
    + intros d ->. by apply aws_update_missing_entry.
  - intros ->. split.
    + by apply azure_delete_missing_entry.
    + apply azure_update_request.
  - intros ->. apply azure_update_ignores_state.
  - intros [-> | ->]; split.
    + apply slack_update_ignores_state.
    + apply slack_delete_ignores_state.
    + apply service_definition_update_ignores_state.
    + apply service_definition_delete_ignores_state.
Qed.

Lemma missing_entry_behaviour_witness :
  has_table (resource_type Fastly) (fresh_world "fastly_integration")
  /\ entry_of (resource_type Fastly) "abc" (fresh_world "fastly_integration") = None
  /\ update_resource (H := plain_format) (H0 := accepting) Fastly "abc" (JDict [])
       (fresh_world "fastly_integration")
     = (Raise (KeyError "abc"), fresh_world "fastly_integration")
  /\ delete_resource (H := plain_format) (H0 := accepting) Fastly "abc"
       (fresh_world "fastly_integration")
     = (Raise (KeyError "abc"), fresh_world "fastly_integration").
Proof.
  assert (Ht : has_table (resource_type Fastly) (fresh_world "fastly_integration"))
    by (by eexists).
  split; [exact Ht|]. split; [reflexivity|].
  apply (proj1 (@missing_entry_behaviour plain_format accepting Fastly "abc" (JDict [])
                  (fresh_world "fastly_integration") Ht eq_refl) "id").
  reflexivity.
Defined.

(** C4 as the specification states it does not hold: deleting an AWS
    integration that has no state-store entry succeeds, after a DELETE whose
    body names a null account. *)
Lemma aws_delete_without_entry_proceeds :
  entry_of "aws_integration" "123456789012:DatadogIntegrationRole"
    (fresh_world "aws_integration") = None
  /\ AWSIntegration.delete_resource (H0 := accepting)
       "123456789012:DatadogIntegrationRole" (fresh_world "aws_integration")
     = (Ok tt,
        World (empty_state "aws_integration") ∅
          [Request DestinationOrg DELETE "/api/v1/integration/aws"
             (Some (JDict [("account_id", JNull)])) None] [])
  /\ ~ missing_entry_fatal.
Proof.
  split; [reflexivity|]. split; [reflexivity|].
  intros Hfatal.
  destruct (Hfatal plain_format accepting AWS "123456789012:DatadogIntegrationRole"
              (JDict []) (fresh_world "aws_integration")) as [_ [e He]].
  - by eexists.
  - reflexivity.
  - discriminate He.
Qed.

(** ** The upsert path of [create_resource] *)

Lemma with_cache_same (w : world) : with_cache (cache w) w = w.
Proof. by destruct w. Qed.

Lemma ignores_cache_keeps {A} (m : M A) (w : world) :
  ignores_cache m -> cache (snd (m w)) = cache w.
Proof.
  intros Hm. specialize (Hm w (cache w)). rewrite with_cache_same in Hm.
  rewrite Hm. done.
Qed.

Lemma store_destination_stored (rt _id : string) (v : json) (w : world) :
  has_table rt w ->
  store_destination rt _id v w = (Ok tt, stored rt _id v w).
Proof.
  intros [t Ht]. unfold store_destination, stored, destination_of. unfold_m.
  simpl. by rewrite !Ht.
Qed.

Lemma entry_of_stored (rt _id : string) (v : json) (w : world) :
  has_table rt w ->
  entry_of rt _id (stored rt _id v w) = Some v.
Proof.
  intros [t Ht]. unfold entry_of, stored. rewrite Ht. simpl.
  rewrite dict_get_set_eq. apply dict_get_set_eq.
Qed.

Lemma destination_entry_found (rt _id : string) (v : json) (w : world) :
  entry_of rt _id w = Some v ->
  destination_entry rt _id w = (Ok v, w)
  /\ destination_entry_or_empty rt _id w = (Ok v, w).
Proof.
  unfold entry_of, destination_entry, destination_entry_or_empty, destination_of.
  unfold_m. simpl. destruct (PyDict.get rt _) as [t|]; [|done]. simpl.
  by intros ->.
Qed.

Section Upsert.
Context `{Py.Format} `{Transport}.
Implicit Types (a : adapter) (_id : string) (resource existing : json) (w : world).

Lemma cached_found (k : dkey) existing w :
  cache w !! k = Some existing -> cached k w = (Ok existing, w).
Proof. intros Hc. unfold cached. unfold_m. simpl. by rewrite Hc. Qed.

Lemma create_hit_delegates a _id resource existing w :
  hits a (cache w) _id resource existing ->
  create_resource a _id resource w
  = (store_destination (resource_type a) _id existing ;;;
     update_resource a _id resource) w.
Proof.
  intros (v & k & Hkey & Hk & Hc & Hgcp).
  assert (Hdec : bool_decide (is_Some (cache w !! k)) = true).
  { apply bool_decide_eq_true. by rewrite Hc. }
  assert (Hin : Py.in_cache v (cache w) = Ok true).
  { unfold Py.in_cache. rewrite Hk. simpl. by rewrite Hdec. }
  destruct a; simpl in Hkey, Hgcp |- *.
  - unfold AWSIntegration.create_resource.
    destruct (AWSIntegration._get_resource_id resource) as [k0|e]; [|done].
    injection Hkey as <-. injection Hk as <-.
    unfold bind at 1 2. unfold lift, get_cache. rewrite Hdec.
    unfold bind at 1. by rewrite (cached_found _ _ _ Hc).
  - unfold AzureIntegration.create_resource.
    destruct (AzureIntegration._get_resource_id resource) as [k0|e]; [|done].
    injection Hkey as <-. injection Hk as <-.
    unfold bind at 1 2. unfold lift, get_cache. rewrite Hdec.
    unfold bind at 1. by rewrite (cached_found _ _ _ Hc).
  - unfold FastlyIntegration.create_resource.
    destruct (Py.index resource "attributes") as [attributes|e]; [|done].
    simpl in Hkey. unfold bind at 1 2 3. unfold lift. rewrite Hkey.
    unfold key_in_cache, cached_at. unfold_m. simpl.
    rewrite Hin Hk. simpl. by rewrite (cached_found _ _ _ Hc).
  - unfold GCPIntegration.create_resource.
    unfold bind at 1 2. unfold lift. rewrite Hkey.
    rewrite (Hgcp eq_refl). unfold key_in_cache, cached_at. unfold_m. simpl.
    rewrite Hin Hk. simpl. by rewrite (cached_found _ _ _ Hc).
  - unfold PagerDutyIntegration.create_resource.
    unfold bind at 1 2. unfold lift. rewrite Hkey.
    unfold key_in_cache, cached_at. unfold_m. simpl.
    rewrite Hin Hk. simpl. by rewrite (cached_found _ _ _ Hc).
  - injection Hkey as <-. injection Hk as <-.
    unfold ServiceDefinition.create_resource.
    unfold bind at 1. unfold get_cache. rewrite Hdec.
    unfold bind at 1. by rewrite (cached_found _ _ _ Hc).
  - injection Hkey as <-. injection Hk as <-.
    unfold SlackIntegrationChannels.create_resource.
    unfold bind at 1. unfold get_cache. rewrite Hdec.
    unfold bind at 1. by rewrite (cached_found _ _ _ Hc).
  - unfold WebhooksIntegration.create_resource.
    unfold bind at 1 2. unfold lift. rewrite Hkey.
    unfold key_in_cache, cached_at. unfold_m. simpl. rewrite Hin. simpl.
    rewrite Hk. simpl. by rewrite (cached_found _ _ _ Hc).
Qed.

End Upsert.

Section KeepsState.
Context `{Transport}.

Lemma keeps_state_ret {A} (a : A) : keeps_state (ret a).
Proof. done. Qed.

Lemma keeps_state_lift {A} (r : result A) : keeps_state (lift r).
Proof. done. Qed.

Lemma keeps_state_call (q : request) : keeps_state (call q).
Proof. intros w. unfold call. by destruct (respond _ _). Qed.

Lemma keeps_state_bind {A B} (m : M A) (k : A -> M B) :
  keeps_state m -> (forall a, keeps_state (k a)) -> keeps_state (bind m k).
Proof.
  intros Hm Hk w. unfold bind. specialize (Hm w).
  destruct (m w) as [[a|e] w1]; simpl in *; [|done].
  by rewrite Hk.
Qed.

Lemma keeps_state_destination_of (rt : string) : keeps_state (destination_of rt).
Proof.
  intros w. unfold destination_of. unfold_m. simpl.
  by destruct (PyDict.get rt _).
Qed.

Lemma keeps_state_destination_entry (rt _id : string) :
  keeps_state (destination_entry rt _id).
Proof.
  apply keeps_state_bind; [apply keeps_state_destination_of|].
  intros t. by destruct (PyDict.get _id t).
Qed.

Lemma keeps_state_destination_entry_or_empty (rt _id : string) :
  keeps_state (destination_entry_or_empty rt _id).
Proof. apply keeps_state_bind; [apply keeps_state_destination_of|]. done. Qed.

End KeepsState.

#[local] Hint Resolve keeps_state_ret keeps_state_lift keeps_state_call
  keeps_state_destination_of keeps_state_destination_entry
  keeps_state_destination_entry_or_empty : frame.

Ltac keeps :=
  repeat first
    [ progress eauto with frame
    | apply keeps_state_bind
    | progress intros
    | match goal with
      | |- context [if ?b then _ else _] => destruct b
      | |- context [match ?x with _ => _ end] => destruct x
      end ].

Lemma update_keeps_state `{Py.Format} `{Transport}
    (a : adapter) (_id : string) (resource : json) :
  keeps_state (update_resource a _id resource).
Proof.
  destruct a; simpl;
    unfold AWSIntegration.update_resource, AzureIntegration.update_resource,
      FastlyIntegration.update_resource, GCPIntegration.update_resource,
      PagerDutyIntegration.update_resource, ServiceDefinition.update_resource,
      SlackIntegrationChannels.update_resource, WebhooksIntegration.update_resource,
      client_put, client_patch, client_post;
    keeps.
Qed.

(** C9. Whenever [create_resource] finds the instance's identity in the
    destination cache, it first stores the cached destination instance in
    [state.destination[resource_type][_id]] and only then calls
    [update_resource]: the update runs in the world that holds the entry, no
    request has been sent before it, the entry it reads for [_id] exists and
    is the cached instance, and it is still there when the update is over,
    for a later [delete_resource] to read. *)
Theorem create_stores_before_update `{Py.Format} `{Transport}
    (a : adapter) (_id : string) (resource existing : json) (w : world) :
  hits a (cache w) _id resource existing ->
  has_table (resource_type a) w ->
  let w1 := stored (resource_type a) _id existing w in
  create_resource a _id resource w = update_resource a _id resource w1
  /\ entry_of (resource_type a) _id w1 = Some existing
  /\ destination_entry (resource_type a) _id w1 = (Ok existing, w1)
  /\ destination_entry_or_empty (resource_type a) _id w1 = (Ok existing, w1)
  /\ sent w1 = sent w
  /\ cache w1 = cache w
  /\ entry_of (resource_type a) _id (snd (create_resource a _id resource w))
     = Some existing.
Proof.
  intros Hhit Ht w1.
  assert (Hcreate : create_resource a _id resource w = update_resource a _id resource w1).
  { rewrite (create_hit_delegates _ _ _ _ _ Hhit).
    unfold bind. by rewrite store_destination_stored. }
  assert (Hentry : entry_of (resource_type a) _id w1 = Some existing)
    by (by apply entry_of_stored).
  destruct (destination_entry_found _ _ _ _ Hentry) as [Hd Hd'].
  repeat split; try done.
  - subst w1. unfold stored. destruct Ht as [t ->]. done.
  - subst w1. unfold stored. destruct Ht as [t ->]. done.
  - rewrite Hcreate. unfold entry_of.
    rewrite (update_keeps_state a _id resource w1). exact Hentry.
Qed.

Lemma create_stores_before_update_witness :
  hits (H := plain_format) AWS (cache aws_world) "123456789012:DatadogIntegrationRole"
    aws_resource aws_existing
  /\ has_table (resource_type AWS) aws_world
  /\ entry_of (resource_type AWS) "123456789012:DatadogIntegrationRole"
       (snd (create_resource (H := plain_format) (H0 := accepting) AWS
               "123456789012:DatadogIntegrationRole" aws_resource aws_world))
     = Some aws_existing.
Proof.
  assert (Hhit : hits (H := plain_format) AWS (cache aws_world)
                   "123456789012:DatadogIntegrationRole" aws_resource aws_existing).
  { exists (JStr "123456789012:DatadogIntegrationRole"),
      (KStr "123456789012:DatadogIntegrationRole").
    split; [reflexivity|]. split; [reflexivity|]. split; [|discriminate]. by vm_compute. }
  assert (Ht : has_table (resource_type AWS) aws_world) by (by eexists).
  split; [exact Hhit|]. split; [exact Ht|].
  apply (@create_stores_before_update plain_format accepting AWS _ _ _ _ Hhit Ht).
Defined.

(** ** Requests issued on the upsert path *)

Section Emits.
Context `{Transport}.
Variable P : request -> Prop.

Lemma emits_nothing {A} (m : M A) :
  (forall w, sent (snd (m w)) = sent w) -> emits P m.
Proof. intros Hm w. exists []. by rewrite Hm app_nil_r. Qed.

Lemma emits_ret {A} (a : A) : emits P (ret a).
Proof. by apply emits_nothing. Qed.

Lemma emits_lift {A} (r : result A) : emits P (lift r).
Proof. by apply emits_nothing. Qed.

Lemma emits_get_cache : emits P get_cache.
Proof. by apply emits_nothing. Qed.

Lemma emits_call (q : request) : P q -> emits P (call q).
Proof.
  intros Hq w. exists [q]. split; [|by constructor].
  unfold call. by destruct (respond _ _).
Qed.

Lemma emits_bind {A B} (m : M A) (k : A -> M B) :
  emits P m -> (forall a, emits P (k a)) -> emits P (bind m k).
Proof.
  intros Hm Hk w. unfold bind.
  destruct (Hm w) as (qs & Hs & Hqs).
  destruct (m w) as [[a|e] w1]; simpl in *.
  - destruct (Hk a w1) as (qs' & Hs' & Hqs').
    exists (qs ++ qs')%list. split.
    + by rewrite Hs' Hs app_assoc.
    + by apply Forall_app.
  - by exists qs.
Qed.

Lemma emits_attempt {A} (m : M A) : emits P m -> emits P (attempt m).
Proof.
  intros Hm w. destruct (Hm w) as (qs & Hs & Hqs). exists qs.
  unfold attempt. by destruct (m w).
Qed.

Lemma emits_store_destination (rt _id : string) (v : json) :
  emits P (store_destination rt _id v).
Proof. apply emits_nothing. apply store_destination_sent. Qed.

Lemma emits_destination_entry (rt _id : string) : emits P (destination_entry rt _id).
Proof.
  apply emits_nothing. intros w.
  unfold destination_entry, destination_of. unfold_m. simpl.
  destruct (PyDict.get rt _) as [t|]; [|done]. simpl.
  by destruct (PyDict.get _id t).
Qed.

Lemma emits_destination_entry_or_empty (rt _id : string) :
  emits P (destination_entry_or_empty rt _id).
Proof.
  apply emits_nothing. intros w.
  unfold destination_entry_or_empty, destination_of. unfold_m. simpl.
  by destruct (PyDict.get rt _) as [t|].
Qed.

End Emits.

#[local] Hint Resolve emits_ret emits_lift emits_get_cache emits_store_destination
  emits_destination_entry emits_destination_entry_or_empty : frame.

Ltac emit :=
  repeat first
    [ progress eauto with frame
    | apply emits_bind
    | apply emits_call; discriminate
    | progress intros
    | match goal with
      | |- context [if ?b then _ else _] => destruct b
      | |- context [match ?x with _ => _ end] => destruct x
      end ].

Lemma count_verb_not_post (qs : list request) :
  Forall not_post qs -> count_verb POST qs = 0%nat.
Proof.
  unfold count_verb. induction 1 as [|q qs Hq _ IH]; [done|].
  rewrite filter_cons. destruct (decide _) as [Hp|]; [|done].
  unfold not_post in Hq. by destruct (verb q).
Qed.

Section UpsertRequests.
Context `{Py.Format} `{Transport}.
Implicit Types (a : adapter) (_id : string) (resource existing : json) (w : world).

Lemma update_emits_no_post a _id resource :
  a <> ServiceDef -> emits not_post (update_resource a _id resource).
Proof.
  intros Ha. destruct a; try done; simpl;
    unfold AWSIntegration.update_resource, AzureIntegration.update_resource,
      FastlyIntegration.update_resource, GCPIntegration.update_resource,
      PagerDutyIntegration.update_resource,
      SlackIntegrationChannels.update_resource, WebhooksIntegration.update_resource,
      client_put, client_patch, not_post;
    emit.
Qed.

Lemma create_hit_emits_no_post a _id resource existing w :
  a <> ServiceDef ->
  hits a (cache w) _id resource existing ->
  exists qs,
    sent (snd (create_resource a _id resource w)) = (sent w ++ qs)%list
    /\ Forall not_post qs.
Proof.
  intros Ha Hhit. rewrite (create_hit_delegates _ _ _ _ _ Hhit).
  apply emits_bind; [apply emits_store_destination|].
  intros _. by apply update_emits_no_post.
Qed.

Lemma create_hit_keeps_cache a _id resource existing w :
  hits a (cache w) _id resource existing ->
  cache (snd (create_resource a _id resource w)) = cache w.
Proof.
  intros Hhit. rewrite (create_hit_delegates _ _ _ _ _ Hhit).
  unfold bind.
  pose proof (store_destination_cache (resource_type a) _id existing w) as Hc.
  destruct (store_destination _ _ _ w) as [[[]|e] w1]; simpl in *; [|done].
  rewrite -Hc. apply ignores_cache_keeps, update_ignores_cache.
Qed.

Lemma create_all_emits_no_post a (instances : list (string * json)) w :
  a <> ServiceDef ->
  Forall (fun i => exists existing, hits a (cache w) (fst i) (snd i) existing) instances ->
  exists qs,
    sent (snd (create_all a instances w)) = (sent w ++ qs)%list
    /\ Forall not_post qs.
Proof.
  intros Ha. revert w.
  induction instances as [|[_id resource] rest IH]; intros w Hall.
  - exists []. by rewrite app_nil_r.
  - apply Forall_cons in Hall as [[existing Hhit] Hrest]. simpl in Hhit.
    destruct (create_hit_emits_no_post _ _ _ _ _ Ha Hhit) as (qs & Hs & Hqs).
    pose proof (create_hit_keeps_cache _ _ _ _ _ Hhit) as Hc.
    simpl. unfold bind, attempt.
    destruct (create_resource a _id resource w) as [r w1]; simpl in *.
    rewrite -Hc in Hrest.
    destruct (IH w1 Hrest) as (qs' & Hs' & Hqs').
    exists (qs ++ qs')%list. split.
    + by rewrite Hs' Hs app_assoc.
    + by apply Forall_app.
Qed.

End UpsertRequests.

Lemma stored_sent (rt _id : string) (v : json) (w : world) :
  sent (stored rt _id v w) = sent w.
Proof. unfold stored. by destruct (PyDict.get rt _). Qed.

Section UpsertExamples.
Context `{Py.Format} `{Transport}.
Implicit Types (_id : string) (resource existing : json) (w : world).

Lemma aws_resource_id_dict resource (key : string) :
  AWSIntegration._get_resource_id resource = Ok key -> Py.is_dict resource = true.
Proof. by destruct resource. Qed.

Lemma aws_update_with_entry _id (d e : list (string * json)) w :
  entry_of AWSIntegration.resource_type _id w = Some (JDict e) ->
  exists ps,
    issued w (snd (AWSIntegration.update_resource _id (JDict d) w))
    = [Request DestinationOrg PUT AWSIntegration.base_path (Some (JDict d))
         (Some (JDict ps))].
Proof.
  intros He. destruct (destination_entry_found _ _ _ _ He) as [_ Hd].
  unfold AWSIntegration.update_resource. unfold bind at 1. rewrite Hd.
  unfold_m. simpl.
  repeat (destruct (Py.truthy _); simpl);
    (eexists; apply issued_app; simpl;
     destruct (respond _ _) as [resp|status]; simpl; [by destruct resp | done]).
Qed.

Lemma aws_create_hit_one_put _id resource existing w :
  hits AWS (cache w) _id resource existing ->
  has_table AWSIntegration.resource_type w ->
  Py.is_dict existing = true ->
  exists ps,
    issued w (snd (create_resource AWS _id resource w))
    = [Request DestinationOrg PUT AWSIntegration.base_path (Some resource)
         (Some (JDict ps))].
Proof.
  intros Hhit Ht Hdict.
  rewrite (create_hit_delegates _ _ _ _ _ Hhit). unfold bind.
  rewrite store_destination_stored //.
  destruct Hhit as (v & k0 & Hkey & _). simpl in Hkey.
  destruct (AWSIntegration._get_resource_id resource) as [k|] eqn:Hk; [|done].
  apply aws_resource_id_dict in Hk.
  destruct resource as [| | | | |d]; try done.
  destruct existing as [| | | | |e]; try done.
  set (w1 := stored _ _ _ w).
  destruct (aws_update_with_entry _id d e w1) as [ps Hps].
  { by apply entry_of_stored. }
  exists ps. rewrite -Hps. unfold issued.
  subst w1. by rewrite stored_sent.
Qed.

Lemma service_definition_create_hit_posts _id resource existing schema w :
  hits ServiceDef (cache w) _id resource existing ->
  has_table ServiceDefinition.resource_type w ->
  ServiceDefinition._extract_schema_data resource = Ok schema ->
  issued w (snd (create_resource ServiceDef _id resource w))
  = [Request DestinationOrg POST ServiceDefinition.base_path (Some schema) None].
Proof.
  intros Hhit Ht Hschema.
  rewrite (create_hit_delegates _ _ _ _ _ Hhit). unfold bind.
  rewrite store_destination_stored //. simpl.
  unfold ServiceDefinition.update_resource. unfold_m. rewrite Hschema.
  apply issued_app. simpl.
  rewrite stored_sent.
  destruct (respond _ _) as [resp|status]; simpl; [|done].
  by destruct (ServiceDefinition.first_data resp).
Qed.

(** The caches that [pre_apply_hook] builds. *)

Lemma index_by_sound (ident : json -> result string) (rs : list json)
    (acc c : gmap dkey json) :
  index_by ident rs acc = Ok c ->
  (forall k v, acc !! k = Some v -> exists s, k = KStr s /\ ident v = Ok s) ->
  forall k v, c !! k = Some v -> exists s, k = KStr s /\ ident v = Ok s.
Proof.
  revert acc. induction rs as [|r rs IH]; intros acc; simpl.
  - by intros [= ->].
  - destruct (ident r) as [rid|] eqn:Hr; [|done]. simpl.
    intros Hc Hacc. apply (IH _ Hc).
    intros k v. destruct (decide (KStr rid = k)) as [<-|Hne].
    + rewrite lookup_insert_eq. intros [= <-]. by exists rid.
    + rewrite lookup_insert_ne //. apply Hacc.
Qed.

Lemma aws_pre_apply_hook_caches_dicts w w' :
  AWSIntegration.pre_apply_hook w = (Ok tt, w') ->
  forall k v, cache w' !! k = Some v -> Py.is_dict v = true.
Proof.
  unfold AWSIntegration.pre_apply_hook, AWSIntegration._get_destination_integrations,
    AWSIntegration.get_resources.
  unfold_m.
  destruct (respond _ _) as [resp|]; simpl; [|done].
  destruct (Py.get resp _ _) as [resources|]; simpl; [|done].
  destruct (Py.iter resources) as [rs|]; simpl; [|done].
  destruct (index_by _ rs ∅) as [c|] eqn:Hc; simpl; [|done].
  intros [= <-] k v Hv. simpl in Hv.
  destruct (index_by_sound _ _ _ _ Hc) with (k := k) (v := v) as (s & _ & Hs);
    [|exact Hv|by eapply aws_resource_id_dict].
  intros k' v'. by rewrite lookup_empty.
Qed.

Lemma gcp_index_accounts_keys (rs : list json) (acc c : gmap dkey json) :
  GCPIntegration.index_accounts rs acc = Ok c ->
  acc !! KStr "" = None -> c !! KStr "" = None.
Proof.
  revert acc. induction rs as [|r rs IH]; intros acc; simpl.
  - by intros [= ->].
  - destruct (GCPIntegration.client_email_of r) as [email|]; [|done]. simpl.
    destruct (Py.truthy email) eqn:Ht; [|apply IH].
    destruct (Py.as_key email) as [k|] eqn:Hk; [|done]. simpl.
    intros Hc Hacc. apply (IH _ Hc).
    rewrite lookup_insert_ne //.
    intros ->. destruct email; try done. simpl in *. by injection Hk as ->.
Qed.

Lemma gcp_pre_apply_hook_no_empty_key w w' :
  GCPIntegration.pre_apply_hook w = (Ok tt, w') -> cache w' !! KStr "" = None.
Proof.
  unfold GCPIntegration.pre_apply_hook, GCPIntegration._get_destination_gcp_accounts,
    GCPIntegration.get_resources.
  unfold_m.
  destruct (respond _ _) as [resp|]; simpl; [|done].
  destruct (Py.get resp _ _) as [resources|]; simpl; [|done].
  destruct (Py.iter resources) as [rs|]; simpl; [|done].
  destruct (GCPIntegration.index_accounts rs ∅) as [c|] eqn:Hc; simpl; [|done].
  intros [= <-]. simpl. by apply (gcp_index_accounts_keys _ _ _ Hc).
Qed.

End UpsertExamples.

(** C1, as the code has it. For every adapter, when the instance's identity
    key is in the destination cache, [create_resource] stores the cached
    instance and delegates to [update_resource].  For every adapter but the
    service definition one this issues no POST, for one instance and for a
    whole pass over instances that are all in the cache; for AWS it issues
    exactly one PUT.  The service definition adapter delegates as well, but
    its [update_resource] itself POSTs the schema (the API has one call for
    create and update), so there the delegated update is one POST.  The
    caches that [pre_apply_hook] builds meet what is assumed of them: AWS
    caches mappings only, GCP never caches an empty key. *)
Theorem upsert_delegates_to_update `{Py.Format} `{Transport}
    (a : adapter) (_id : string) (resource existing : json) (w : world) :
  hits a (cache w) _id resource existing ->
  create_resource a _id resource w
  = (store_destination (resource_type a) _id existing ;;;
     update_resource a _id resource) w
  /\ (a <> ServiceDef ->
      count_verb POST (issued w (snd (create_resource a _id resource w))) = 0%nat)
  /\ (a = AWS ->
      has_table (resource_type a) w ->
      Py.is_dict existing = true ->
      exists ps,
        issued w (snd (create_resource a _id resource w))
        = [Request DestinationOrg PUT AWSIntegration.base_path (Some resource)
             (Some (JDict ps))])
  /\ (a = ServiceDef ->
      has_table (resource_type a) w ->
      forall schema,
        ServiceDefinition._extract_schema_data resource = Ok schema ->
        issued w (snd (create_resource a _id resource w))
        = [Request DestinationOrg POST ServiceDefinition.base_path (Some schema) None])
  /\ (a <> ServiceDef ->
      forall instances,
        Forall (fun i => exists e, hits a (cache w) (fst i) (snd i) e) instances ->
        count_verb POST (issued w (snd (create_all a instances w))) = 0%nat)
  /\ (forall w0 w',
        AWSIntegration.pre_apply_hook w0 = (Ok tt, w') ->
        forall k v, cache w' !! k = Some v -> Py.is_dict v = true)
  /\ (forall w0 w',
        GCPIntegration.pre_apply_hook w0 = (Ok tt, w') -> cache w' !! KStr "" = None).
Proof.
  intros Hhit. split; [|split; [|split; [|split; [|split; [|split]]]]].
  - by apply create_hit_delegates.
  - intros Ha.
    destruct (create_hit_emits_no_post _ _ _ _ _ Ha Hhit) as (qs & Hs & Hqs).
    rewrite (issued_app _ _ _ Hs). by apply count_verb_not_post.
  - intros -> Ht Hd. by apply aws_create_hit_one_put with existing.
  - intros -> Ht schema Hs. by apply service_definition_create_hit_posts with existing.
  - intros Ha instances Hall.
    destruct (create_all_emits_no_post _ _ _ Ha Hall) as (qs & Hs & Hqs).
    rewrite (issued_app _ _ _ Hs). by apply count_verb_not_post.
  - apply aws_pre_apply_hook_caches_dicts.
  - apply gcp_pre_apply_hook_no_empty_key.
Qed.

Lemma upsert_delegates_to_update_witness :
  hits (H := plain_format) AWS (cache aws_world) "123456789012:DatadogIntegrationRole"
    aws_resource aws_existing
  /\ count_verb POST
       (issued aws_world
          (snd (create_resource (H := plain_format) (H0 := accepting) AWS
                  "123456789012:DatadogIntegrationRole" aws_resource aws_world)))
     = 0%nat
  /\ exists ps,
       issued aws_world
         (snd (create_resource (H := plain_format) (H0 := accepting) AWS
                 "123456789012:DatadogIntegrationRole" aws_resource aws_world))
       = [Request DestinationOrg PUT AWSIntegration.base_path (Some aws_resource)
            (Some (JDict ps))].
Proof.
  assert (Hhit : hits (H := plain_format) AWS (cache aws_world)
                   "123456789012:DatadogIntegrationRole" aws_resource aws_existing).
  { exists (JStr "123456789012:DatadogIntegrationRole"),
      (KStr "123456789012:DatadogIntegrationRole").
    split; [reflexivity|]. split; [reflexivity|]. split; [|discriminate]. by vm_compute. }
  destruct (@upsert_delegates_to_update plain_format accepting AWS _ _ _ _ Hhit)
    as (_ & Hpost & Hput & _).
  split; [exact Hhit|]. split.
  - by apply Hpost.
  - apply Hput; [reflexivity | by eexists | reflexivity].
Defined.

(** C1 as the specification states it does not hold for service
    definitions: with "existing-service" in the destination cache,
    [create_resource] delegates to [update_resource], which sends a POST. *)
Lemma service_definition_upsert_posts :
  hits (H := plain_format) ServiceDef (cache service_world) "existing-service"
    service_resource existing_service
  /\ issued service_world
       (snd (create_resource (H := plain_format) (H0 := accepting) ServiceDef
               "existing-service" service_resource service_world))
     = [Request DestinationOrg POST "/api/v2/services/definitions"
          (Some (JDict [("dd-service", JStr "existing-service");
                        ("team", JStr "new-team")])) None]
  /\ ~ upsert_never_posts.
Proof.
  assert (Hhit : hits (H := plain_format) ServiceDef (cache service_world)
                   "existing-service" service_resource existing_service).
  { exists (JStr "existing-service"), (KStr "existing-service").
    split; [reflexivity|]. split; [reflexivity|]. split; [|discriminate]. by vm_compute. }
  split; [exact Hhit|]. split; [by vm_compute|].
  intros Hnever.
  specialize (Hnever plain_format accepting ServiceDef "existing-service"
                service_resource existing_service service_world Hhit).
  by vm_compute in Hnever.
Qed.

(** ** Where update and delete take their target from *)

Lemma issued_one_target (w w' : world) (q : request) (t : string * option json) :
  sent w' = (sent w ++ [q])%list -> target q = t ->
  map target (issued w w') = [t].
Proof. intros Hs <-. by rewrite (issued_app _ _ _ Hs). Qed.

Section Targets.
Context `{Py.Format} `{Transport}.
Implicit Types (a : adapter) (_id : string) (resource entry : json) (w : world).

Lemma keyed_update_target a (f : string) _id resource entry (v : json) w :
  key_field a = Some f ->
  entry_of (resource_type a) _id w = Some entry ->
  Py.index entry f = Ok v ->
  map target (issued w (snd (update_resource a _id resource w)))
  = [(base_path a +:+ "/" +:+ Py.str v, None)].
Proof.
  intros Hf He Hv. destruct (destination_entry_found _ _ _ _ He) as [Hd _].
  destruct a; try discriminate; injection Hf as <-; simpl in *;
    unfold FastlyIntegration.update_resource, GCPIntegration.update_resource,
      PagerDutyIntegration.update_resource, WebhooksIntegration.update_resource;
    unfold bind at 1; rewrite Hd; unfold_m; rewrite Hv;
    (eapply issued_one_target;
       [simpl; destruct (respond _ _) as [resp|status]; simpl; try done;
        by destruct (Py.index resp "data")
       |reflexivity]).
Qed.

Lemma keyed_delete_target a (f : string) _id entry (v : json) w :
  key_field a = Some f ->
  entry_of (resource_type a) _id w = Some entry ->
  Py.index entry f = Ok v ->
  map target (issued w (snd (delete_resource a _id w)))
  = [(base_path a +:+ "/" +:+ Py.str v, None)].
Proof.
  intros Hf He Hv. destruct (destination_entry_found _ _ _ _ He) as [Hd _].
  destruct a; try discriminate; injection Hf as <-; simpl in *;
    unfold FastlyIntegration.delete_resource, GCPIntegration.delete_resource,
      PagerDutyIntegration.delete_resource, WebhooksIntegration.delete_resource;
    unfold bind at 1; rewrite Hd; unfold_m; rewrite Hv;
    (eapply issued_one_target;
       [simpl; by destruct (respond _ _) as [resp|status] | reflexivity]).
Qed.

Lemma destination_entry_or_empty_value (rt _id : string) w :
  has_table rt w ->
  destination_entry_or_empty rt _id w
  = (Ok (match entry_of rt _id w with Some v => v | None => JDict [] end), w).
Proof.
  intros [t Ht]. unfold destination_entry_or_empty, destination_of, entry_of.
  unfold_m. simpl. by rewrite Ht.
Qed.

End Targets.

(** Case analysis on the pure steps of a method. *)
Ltac pure_cases :=
  repeat match goal with
         | |- context [match ?r with Ok _ => _ | Raise _ => _ end] => destruct r; simpl
         | |- context [if ?b then _ else _] => destruct b; simpl
         end.

Lemma issued_same (w : world) : issued w w = [].
Proof. by apply issued_nil. Qed.

Lemma issued_snoc (w : world) (q : request) (s : State) (c : gmap dkey json)
    (l : list (level * string)) :
  issued w (World s c (sent w ++ [q]) l) = [q].
Proof. by apply issued_app. Qed.

(** Closes a goal that compares the requests of two runs, once their pure
    steps agree: both sent the same request, or neither sent any. *)
Ltac same_requests :=
  unfold_m; simpl; pure_cases;
  repeat match goal with
         | |- context [respond ?h ?q] => destruct (respond h q); simpl
         end;
  pure_cases;
  rewrite ?issued_same ?issued_snoc; reflexivity.

Lemma bind_run {A B} (m : M A) (k : A -> M B) (w w' : world) (a : A) :
  m w = (Ok a, w') -> bind m k w = k a w'.
Proof. intros Hm. unfold bind. by rewrite Hm. Qed.

Section EntryTargets.
Context `{Py.Format} `{Transport}.
Implicit Types (_id : string) (resource : json) (w : world).

Lemma aws_delete_by_entry (id1 id2 : string) (w1 w2 : world) :
  has_table AWSIntegration.resource_type w1 ->
  has_table AWSIntegration.resource_type w2 ->
  entry_of AWSIntegration.resource_type id1 w1
  = entry_of AWSIntegration.resource_type id2 w2 ->
  issued w1 (snd (AWSIntegration.delete_resource id1 w1))
  = issued w2 (snd (AWSIntegration.delete_resource id2 w2)).
Proof.
  intros Ht1 Ht2 He.
  unfold AWSIntegration.delete_resource.
  rewrite (bind_run _ _ w1 _ _ (destination_entry_or_empty_value _ id1 _ Ht1)).
  rewrite (bind_run _ _ w2 _ _ (destination_entry_or_empty_value _ id2 _ Ht2)).
  rewrite He.
  set (D := match entry_of _ id2 w2 with Some v => v | None => JDict [] end).
  same_requests.
Qed.

Lemma azure_delete_by_entry (id1 id2 : string) (w1 w2 : world) :
  has_table AzureIntegration.resource_type w1 ->
  has_table AzureIntegration.resource_type w2 ->
  entry_of AzureIntegration.resource_type id1 w1
  = entry_of AzureIntegration.resource_type id2 w2 ->
  issued w1 (snd (AzureIntegration.delete_resource id1 w1))
  = issued w2 (snd (AzureIntegration.delete_resource id2 w2)).
Proof.
  intros Ht1 Ht2 He.
  unfold AzureIntegration.delete_resource.
  rewrite (bind_run _ _ w1 _ _ (destination_entry_or_empty_value _ id1 _ Ht1)).
  rewrite (bind_run _ _ w2 _ _ (destination_entry_or_empty_value _ id2 _ Ht2)).
  rewrite He.
  set (D := match entry_of _ id2 w2 with Some v => v | None => JDict [] end).
  same_requests.
Qed.

Lemma aws_update_by_entry (id1 id2 : string) resource (w1 w2 : world) :
  has_table AWSIntegration.resource_type w1 ->
  has_table AWSIntegration.resource_type w2 ->
  entry_of AWSIntegration.resource_type id1 w1
  = entry_of AWSIntegration.resource_type id2 w2 ->
  issued w1 (snd (AWSIntegration.update_resource id1 resource w1))
  = issued w2 (snd (AWSIntegration.update_resource id2 resource w2)).
Proof.
  intros Ht1 Ht2 He.
  unfold AWSIntegration.update_resource.
  rewrite (bind_run _ _ w1 _ _ (destination_entry_or_empty_value _ id1 _ Ht1)).
  rewrite (bind_run _ _ w2 _ _ (destination_entry_or_empty_value _ id2 _ Ht2)).
  rewrite He.
  set (D := match entry_of _ id2 w2 with Some v => v | None => JDict [] end).
  same_requests.
Qed.

End EntryTargets.

Section EntryFields.
Context `{Py.Format} `{Transport}.
Implicit Types (_id : string) (e r : list (string * json)) (w : world).

Lemma fields_of_pairs (b e : list (string * json)) :
  Forall (fun kv => snd kv = field (fst kv) e) b ->
  forall f v, PyDict.get f b = Some v -> v = field f e.
Proof.
  induction 1 as [|[k x] b Hx _ IH]; intros f v; simpl; [done|].
  destruct (String.eqb f k) eqn:E; [|apply IH].
  apply String.eqb_eq in E as ->. by intros [= <-].
Qed.

Lemma fields_of_pairs_or (ps e r : list (string * json)) :
  Forall (fun kv => snd kv = field_or (fst kv) e r) ps ->
  forall f v, PyDict.get f ps = Some v -> v = field_or f e r.
Proof.
  induction 1 as [|[k x] ps Hx _ IH]; intros f v; simpl; [done|].
  destruct (String.eqb f k) eqn:E; [|apply IH].
  apply String.eqb_eq in E as ->. by intros [= <-].
Qed.

Lemma azure_delete_from_entry _id e w :
  entry_of AzureIntegration.resource_type _id w = Some (JDict e) ->
  issued w (snd (AzureIntegration.delete_resource _id w))
  = [Request DestinationOrg DELETE AzureIntegration.base_path
       (Some (JDict [("tenant_name", field "tenant_name" e);
                     ("client_id", field "client_id" e)])) None].
Proof.
  intros He. destruct (destination_entry_found _ _ _ _ He) as [_ Hd].
  unfold AzureIntegration.delete_resource.
  rewrite (bind_run _ _ w _ _ Hd). unfold_m. simpl.
  apply issued_app. simpl. by destruct (respond _ _).
Qed.

Lemma aws_delete_from_entry _id e w :
  entry_of AWSIntegration.resource_type _id w = Some (JDict e) ->
  exists b,
    issued w (snd (AWSIntegration.delete_resource _id w))
    = [Request DestinationOrg DELETE AWSIntegration.base_path (Some (JDict b)) None]
    /\ (forall f v, PyDict.get f b = Some v -> v = field f e)
    /\ PyDict.get "account_id" b = Some (field "account_id" e)
    /\ PyDict.mem "role_name" b = Py.truthy (field "role_name" e)
    /\ PyDict.mem "access_key_id" b
       = negb (Py.truthy (field "role_name" e)) && Py.truthy (field "access_key_id" e).
Proof.
  intros He. destruct (destination_entry_found _ _ _ _ He) as [_ Hd].
  unfold AWSIntegration.delete_resource.
  rewrite (bind_run _ _ w _ _ Hd). unfold_m. simpl.
  fold (field "account_id" e) (field "role_name" e).
  destruct (Py.truthy (field "role_name" e)) eqn:Hrole; simpl.
  - eexists. split; [apply issued_app; simpl; by destruct (respond _ _)|].
    split; [|done]. apply fields_of_pairs. by repeat constructor.
  - fold (field "access_key_id" e).
    destruct (Py.truthy (field "access_key_id" e)) eqn:Hkey; simpl.
    + eexists. split; [apply issued_app; simpl; by destruct (respond _ _)|].
      split; [|done]. apply fields_of_pairs. by repeat constructor.
    + eexists. split; [apply issued_app; simpl; by destruct (respond _ _)|].
      split; [|done]. apply fields_of_pairs. by repeat constructor.
Qed.

Lemma aws_update_from_entry _id e r w :
  entry_of AWSIntegration.resource_type _id w = Some (JDict e) ->
  exists ps,
    issued w (snd (AWSIntegration.update_resource _id (JDict r) w))
    = [Request DestinationOrg PUT AWSIntegration.base_path (Some (JDict r))
         (Some (JDict ps))]
    /\ (forall f v, PyDict.get f ps = Some v -> v = field_or f e r)
    /\ PyDict.get "account_id" ps = Some (field_or "account_id" e r)
    /\ PyDict.mem "role_name" ps
       = Py.truthy (field "role_name" e) || Py.truthy (field "role_name" r)
    /\ PyDict.mem "access_key_id" ps
       = negb (Py.truthy (field "role_name" e) || Py.truthy (field "role_name" r))
         && (Py.truthy (field "access_key_id" e) || Py.truthy (field "access_key_id" r)).
Proof.
  intros He. destruct (destination_entry_found _ _ _ _ He) as [_ Hd].
  unfold AWSIntegration.update_resource.
  rewrite (bind_run _ _ w _ _ Hd). unfold_m. simpl.
  fold (field "account_id" r) (field "role_name" r) (field "access_key_id" r).
  fold (field "role_name" e) (field "access_key_id" e).
  fold (field_or "account_id" e r) (field_or "role_name" e r)
    (field_or "access_key_id" e r).
  assert (Hsent : forall ps,
            issued w
              (snd ((resp <- client_put AWSIntegration.base_path (JDict r) (Some (JDict ps)) ;;
                     updated_resource <~ Py.copy (JDict r) ;;
                     updated_resource <~ (if Py.is_dict resp
                                          then Py.update updated_resource resp
                                          else Ok updated_resource) ;;
                     ret (_id, updated_resource)) w))
            = [Request DestinationOrg PUT AWSIntegration.base_path (Some (JDict r))
                 (Some (JDict ps))]).
  { intros ps. unfold_m. simpl. apply issued_app. simpl.
    destruct (respond _ _) as [resp|]; simpl; [|done]. by destruct resp. }
  destruct (Py.truthy (field "role_name" e)) eqn:Hrole; simpl.
  - rewrite Hrole. simpl.
    eexists. split; [apply Hsent|].
    split; [|done]. apply fields_of_pairs_or. by repeat constructor.
  - destruct (Py.truthy (field "role_name" r)) eqn:Hrole'; simpl.
    + eexists. split; [apply Hsent|].
      split; [|done]. apply fields_of_pairs_or. by repeat constructor.
    + destruct (Py.truthy (field "access_key_id" e)) eqn:Hkey; simpl.
      * rewrite Hkey. simpl. eexists. split; [apply Hsent|].
        split; [|done]. apply fields_of_pairs_or. by repeat constructor.
      * destruct (Py.truthy (field "access_key_id" r)) eqn:Hkey'; simpl.
        -- eexists. split; [apply Hsent|].
           split; [|done]. apply fields_of_pairs_or. by repeat constructor.
        -- eexists. split; [apply Hsent|].
           split; [|done]. apply fields_of_pairs_or. by repeat constructor.
Qed.

End EntryFields.

Section IdTargets.
Context `{Py.Format} `{Transport}.

Lemma slack_update_target (_id : string) (d : list (string * json)) (w : world) :
  map target (issued w (snd (SlackIntegrationChannels.update_resource _id (JDict d) w)))
  = [(SlackIntegrationChannels.base_path +:+ "/"
      +:+ fst (SlackIntegrationChannels._parse_composite_id _id) +:+ "/channels/"
      +:+ snd (SlackIntegrationChannels._parse_composite_id _id), None)].
Proof.
  unfold SlackIntegrationChannels.update_resource.
  destruct (SlackIntegrationChannels._parse_composite_id _id) as [account channel].
  unfold_m. simpl.
  eapply issued_one_target;
    [simpl; destruct (respond _ _) as [resp|status]; simpl; [|done];
     by destruct (Py.setitem resp _ _)
    |reflexivity].
Qed.

Lemma slack_delete_target (_id : string) (w : world) :
  map target (issued w (snd (SlackIntegrationChannels.delete_resource _id w)))
  = [(SlackIntegrationChannels.base_path +:+ "/"
      +:+ fst (SlackIntegrationChannels._parse_composite_id _id) +:+ "/channels/"
      +:+ snd (SlackIntegrationChannels._parse_composite_id _id), None)].
Proof.
  unfold SlackIntegrationChannels.delete_resource.
  destruct (SlackIntegrationChannels._parse_composite_id _id) as [account channel].
  unfold_m. simpl.
  eapply issued_one_target; [simpl; by destruct (respond _ _) | reflexivity].
Qed.

Lemma service_definition_delete_target (_id : string) (w : world) :
  map target (issued w (snd (ServiceDefinition.delete_resource _id w)))
  = [(ServiceDefinition.base_path +:+ "/" +:+ _id, None)].
Proof.
  unfold ServiceDefinition.delete_resource. unfold_m.
  eapply issued_one_target; [simpl; by destruct (respond _ _) | reflexivity].
Qed.

End IdTargets.

(** C2, as the code has it. No adapter's [update_resource] or
    [delete_resource] reads the destination cache.  The Fastly, GCP,
    PagerDuty and webhooks adapters take the path segment of the write from
    the entry [state.destination[resource_type][_id]].  The AWS and Azure
    adapters build the body of a delete from that entry: every field of the
    body is the entry's field of that name, Azure sends "tenant_name" and
    "client_id", AWS sends "account_id" and then "role_name" when the entry
    has one that counts as true, else "access_key_id" when it has one.  AWS
    builds the query parameters of an update the same way, each from the
    entry's field and, when the entry lacks it, from the resource's.  Azure
    sends an update to the base path with the resource as body, and the
    Slack and service definition adapters address the object by [_id]
    itself: these do not consult the state store. *)
Theorem write_target_resolution `{Py.Format} `{Transport} (a : adapter) :
  (forall _id resource, ignores_cache (update_resource a _id resource))
  /\ (forall _id, ignores_cache (delete_resource a _id))
  /\ (forall f _id resource entry v w,
        key_field a = Some f ->
        entry_of (resource_type a) _id w = Some entry ->
        Py.index entry f = Ok v ->
        map target (issued w (snd (update_resource a _id resource w)))
        = [(base_path a +:+ "/" +:+ Py.str v, None)]
        /\ map target (issued w (snd (delete_resource a _id w)))
           = [(base_path a +:+ "/" +:+ Py.str v, None)])
  /\ (a = AWS \/ a = Azure ->
      forall id1 id2 w1 w2,
        has_table (resource_type a) w1 ->
        has_table (resource_type a) w2 ->
        entry_of (resource_type a) id1 w1 = entry_of (resource_type a) id2 w2 ->
        issued w1 (snd (delete_resource a id1 w1))
        = issued w2 (snd (delete_resource a id2 w2)))
  /\ (a = AWS ->
      forall id1 id2 resource w1 w2,
        has_table (resource_type a) w1 ->
        has_table (resource_type a) w2 ->
        entry_of (resource_type a) id1 w1 = entry_of (resource_type a) id2 w2 ->
        issued w1 (snd (update_resource a id1 resource w1))
        = issued w2 (snd (update_resource a id2 resource w2)))
  /\ (a = Azure ->
      forall _id e w,
        entry_of (resource_type a) _id w = Some (JDict e) ->
        issued w (snd (delete_resource a _id w))
        = [Request DestinationOrg DELETE AzureIntegration.base_path
             (Some (JDict [("tenant_name", field "tenant_name" e);
                           ("client_id", field "client_id" e)])) None])
  /\ (a = AWS ->
      forall _id e w,
        entry_of (resource_type a) _id w = Some (JDict e) ->
        exists b,
          issued w (snd (delete_resource a _id w))
          = [Request DestinationOrg DELETE AWSIntegration.base_path (Some (JDict b)) None]
          /\ (forall f v, PyDict.get f b = Some v -> v = field f e)
          /\ PyDict.get "account_id" b = Some (field "account_id" e)
          /\ PyDict.mem "role_name" b = Py.truthy (field "role_name" e)
          /\ PyDict.mem "access_key_id" b
             = negb (Py.truthy (field "role_name" e))
               && Py.truthy (field "access_key_id" e))
  /\ (a = AWS ->
      forall _id e r w,
        entry_of (resource_type a) _id w = Some (JDict e) ->
        exists ps,
          issued w (snd (update_resource a _id (JDict r) w))
          = [Request DestinationOrg PUT AWSIntegration.base_path (Some (JDict r))
               (Some (JDict ps))]
          /\ (forall f v, PyDict.get f ps = Some v -> v = field_or f e r)
          /\ PyDict.get "account_id" ps = Some (field_or "account_id" e r)
          /\ PyDict.mem "role_name" ps
             = Py.truthy (field "role_name" e) || Py.truthy (field "role_name" r)
          /\ PyDict.mem "access_key_id" ps
             = negb (Py.truthy (field "role_name" e) || Py.truthy (field "role_name" r))
               && (Py.truthy (field "access_key_id" e)
                   || Py.truthy (field "access_key_id" r)))
  /\ (a = Azure ->
      forall _id resource,
        ignores_state (update_resource a _id resource)
        /\ forall w,
             issued w (snd (update_resource a _id resource w))
             = [Request DestinationOrg PUT AzureIntegration.base_path (Some resource) None])
  /\ (a = Slack ->
      forall _id d,
        ignores_state (update_resource a _id (JDict d))
        /\ ignores_state (delete_resource a _id)
        /\ forall w,
             let to := (SlackIntegrationChannels.base_path +:+ "/"
                        +:+ fst (SlackIntegrationChannels._parse_composite_id _id)
                        +:+ "/channels/"
                        +:+ snd (SlackIntegrationChannels._parse_composite_id _id), None) in
             map target (issued w (snd (update_resource a _id (JDict d) w))) = [to]
             /\ map target (issued w (snd (delete_resource a _id w))) = [to])
  /\ (a = ServiceDef ->
      forall _id resource,
        ignores_state (update_resource a _id resource)
        /\ ignores_state (delete_resource a _id)
        /\ forall w,
             map target (issued w (snd (delete_resource a _id w)))
             = [(ServiceDefinition.base_path +:+ "/" +:+ _id, None)]).
Proof.
  split; [|split; [|split; [|split; [|split; [|split; [|split; [|split; [|split;
    [|split]]]]]]]]].
  - intros. apply update_ignores_cache.
  - intros. apply delete_ignores_cache.
  - intros f _id resource entry v w Hf He Hv. split.
    + by apply (keyed_update_target a f _id resource entry).
    + by apply (keyed_delete_target a f _id entry).
  - intros [-> | ->] id1 id2 w1 w2 Ht1 Ht2 He.
    + by apply aws_delete_by_entry.
    + by apply azure_delete_by_entry.
  - intros -> id1 id2 resource w1 w2 Ht1 Ht2 He. by apply aws_update_by_entry.
  - intros -> _id e w He. by apply azure_delete_from_entry.
  - intros -> _id e w He. by apply aws_delete_from_entry.
  - intros -> _id e r w He. by apply aws_update_from_entry.
  - intros -> _id resource. split.
    + apply azure_update_ignores_state.
    + intros w. apply azure_update_request.
  - intros -> _id d. split; [|split].
    + apply slack_update_ignores_state.
    + apply slack_delete_ignores_state.
    + intros w to. split.
      * apply slack_update_target.
      * apply slack_delete_target.
  - intros -> _id resource. split; [|split].
    + apply service_definition_update_ignores_state.
    + apply service_definition_delete_ignores_state.
    + intros w. apply service_definition_delete_target.
Qed.

Lemma write_target_resolution_witness :
  key_field Fastly = Some "id"
  /\ entry_of (resource_type Fastly) "src-1" fastly_world
     = Some (JDict [("id", JStr "dest-1")])
  /\ map target
       (issued fastly_world
          (snd (update_resource (H := plain_format) (H0 := accepting) Fastly "src-1"
                  (JDict []) fastly_world)))
     = [("/api/v2/integrations/fastly/accounts/dest-1", None)]
  /\ entry_of (resource_type AWS) "src-aws" aws_recorded_world = Some aws_existing
  /\ exists b,
       issued aws_recorded_world
         (snd (delete_resource (H := plain_format) (H0 := accepting) AWS "src-aws"
                 aws_recorded_world))
       = [Request DestinationOrg DELETE "/api/v1/integration/aws" (Some (JDict b)) None]
       /\ PyDict.get "account_id" b = Some (JStr "123456789012")
       /\ PyDict.mem "role_name" b = true
       /\ PyDict.mem "access_key_id" b = false.
Proof.
  split; [reflexivity|]. split; [reflexivity|]. split; [|split; [reflexivity|]].
  - apply (proj1 (proj1 (proj2 (proj2
      (@write_target_resolution plain_format accepting Fastly)))
        "id" "src-1" (JDict []) (JDict [("id", JStr "dest-1")]) (JStr "dest-1")
        fastly_world eq_refl eq_refl eq_refl)).
  - destruct (proj1 (proj2 (proj2 (proj2 (proj2 (proj2 (proj2
                (@write_target_resolution plain_format accepting AWS)))))))
                eq_refl "src-aws"
                [("account_id", JStr "123456789012");
                 ("role_name", JStr "DatadogIntegrationRole")]
                aws_recorded_world eq_refl)
      as (b & Hsent & _ & Haccount & Hrole & Hkey).
    exists b. split; [exact Hsent|]. split; [exact Haccount|].
    split; [exact Hrole | exact Hkey].
Defined.

(** C2 as the specification states it does not hold: the Slack adapter aims
    an update at the account and channel named in [_id], whatever the
    state-store entry says; the same entry recorded under two identities
    leads to two different targets. *)
Lemma slack_update_target_ignores_entry :
  entry_of "slack_integration_channels" "ws:#src" (slack_world "ws:#src")
  = Some dest_channel
  /\ entry_of "slack_integration_channels" "dest-ws:#dest" (slack_world "dest-ws:#dest")
     = Some dest_channel
  /\ map target
       (issued (slack_world "ws:#src")
          (snd (update_resource (H := plain_format) (H0 := accepting) Slack "ws:#src"
                  (JDict []) (slack_world "ws:#src"))))
     = [("/api/v1/integration/slack/configuration/accounts/ws/channels/#src", None)]
  /\ map target
       (issued (slack_world "dest-ws:#dest")
          (snd (update_resource (H := plain_format) (H0 := accepting) Slack
                  "dest-ws:#dest" (JDict []) (slack_world "dest-ws:#dest"))))
     = [("/api/v1/integration/slack/configuration/accounts/dest-ws/channels/#dest", None)]
  /\ ~ target_from_state_entry.
Proof.
  split; [reflexivity|]. split; [reflexivity|].
  split; [reflexivity|]. split; [reflexivity|].
  intros Hstated.
  destruct (Hstated plain_format accepting Slack "ws:#src" "dest-ws:#dest" (JDict [])
              (slack_world "ws:#src") (slack_world "dest-ws:#dest")) as [Hupd _].
  - by eexists.
  - by eexists.
  - reflexivity.
  - discriminate Hupd.
Qed.

(** ** Building the webhooks cache *)

Section WebhooksCache.
Context `{Py.Format} `{Transport}.
Implicit Types (acc : gmap dkey json) (w : world) (entries : list (string * json))
  (name : json) (k : dkey).

Lemma fetch_webhook_step name k (on_404 : M unit) acc w :
  Py.as_key name = Ok k ->
  WebhooksIntegration.fetch_webhook name on_404 acc w
  = match respond (sent w) (webhook_get (Py.str name)) with
    | Body resp =>
        (Ok (<[k := resp]> acc),
         World (state w) (cache w) (sent w ++ [webhook_get (Py.str name)])%list (logged w))
    | HTTPFail status =>
        ((if Z.eqb status 404 then on_404
          else log LWarning (fetch_error_message (Py.str name) status)) ;;;
         ret acc)
          (World (state w) (cache w) (sent w ++ [webhook_get (Py.str name)])%list
                 (logged w))
    end.
Proof.
  intros Hk. unfold WebhooksIntegration.fetch_webhook, try_except. unfold_m. simpl.
  fold (webhook_get (Py.str name)). rewrite Hk.
  by destruct (respond _ _) as [resp|status].
Qed.


Lemma fetch_source_step name k acc w :
  Py.as_key name = Ok k ->
  WebhooksIntegration.fetch_webhook name (ret tt) acc w
  = match respond (sent w) (webhook_get (Py.str name)) with
    | Body resp =>
        (Ok (<[k := resp]> acc),
         World (state w) (cache w) (sent w ++ [webhook_get (Py.str name)])%list (logged w))
    | HTTPFail status =>
        (Ok acc,
         World (state w) (cache w) (sent w ++ [webhook_get (Py.str name)])%list
               (if Z.eqb status 404 then logged w
                else (logged w
                      ++ [(LWarning, fetch_error_message (Py.str name) status)])%list))
    end.
Proof.
  intros Hk. rewrite (fetch_webhook_step _ _ _ _ _ Hk).
  destruct (respond _ _) as [resp|status]; [done|].
  unfold_m. simpl. by destruct (Z.eqb status 404).
Qed.



(** A name that counts as true and is not a container is a key. *)
Lemma well_named_key (d : list (string * json)) name :
  well_named (JDict d) = true ->
  PyDict.get "name" d = Some name ->
  Py.truthy name = true ->
  exists k, Py.as_key name = Ok k.
Proof.
  simpl. intros Hw Hn Ht. rewrite Hn in Hw.
  destruct name as [|b|z|s|[|x l]|[|x l]]; simpl in *; try done; by eexists.
Qed.



Lemma check_source_cons (_id : string) (d : list (string * json)) entries acc w :
  WebhooksIntegration.check_source ((_id, JDict d) :: entries) acc w
  = match PyDict.get "name" d with
    | Some name =>
        if Py.truthy name then
          match Py.in_cache name acc with
          | Ok true => WebhooksIntegration.check_source entries acc w
          | Ok false =>
              (found <- WebhooksIntegration.fetch_webhook name (ret tt) acc ;;
               WebhooksIntegration.check_source entries found) w
          | Raise e => (Raise e, w)
          end
        else WebhooksIntegration.check_source entries acc w
    | None => WebhooksIntegration.check_source entries acc w
    end.
Proof.
  simpl. unfold bind at 1. unfold lift at 1. simpl.
  destruct (PyDict.get "name" d) as [name|]; simpl; [|done].
  destruct (Py.truthy name); [|by unfold bind, ret].
  unfold bind at 1. unfold bind at 1. unfold lift at 1.
  destruct (Py.in_cache name acc) as [[|]|e]; [|done..].
  by unfold bind, ret.
Qed.

Lemma in_cache_key name k acc :
  Py.as_key name = Ok k ->
  Py.in_cache name acc = Ok (bool_decide (is_Some (acc !! k))).
Proof. intros Hk. unfold Py.in_cache. by rewrite Hk. Qed.







(** No HTTP error leaves the cache build, whatever the state store holds:
    the two loops catch every one of them. *)











End WebhooksCache.



(** * Further properties of the adapters *)

(** ** What the methods send, and where *)

Section Quiet.
Context `{Transport}.

Lemma quiet_ret {A} (a : A) : quiet (ret a).
Proof. done. Qed.

Lemma quiet_lift {A} (r : result A) : quiet (lift r).
Proof. done. Qed.

Lemma quiet_get_cache : quiet get_cache.
Proof. done. Qed.

Lemma quiet_set_cache (c : gmap dkey json) : quiet (set_cache c).
Proof. done. Qed.

Lemma quiet_get_state : quiet get_state.
Proof. done. Qed.

Lemma quiet_log (l : level) (msg : string) : quiet (log l msg).
Proof. done. Qed.

Lemma quiet_bind {A B} (m : M A) (k : A -> M B) :
  quiet m -> (forall a, quiet (k a)) -> quiet (bind m k).
Proof.
  intros Hm Hk w. unfold bind. specialize (Hm w).
  destruct (m w) as [[a|e] w1]; simpl in *; [|done].
  by rewrite Hk.
Qed.

Lemma quiet_store_destination (rt _id : string) (v : json) :
  quiet (store_destination rt _id v).
Proof. intros w. apply store_destination_sent. Qed.

Lemma quiet_destination_of (rt : string) : quiet (destination_of rt).
Proof.
  apply quiet_bind; [apply quiet_get_state|].
  intros s. by destruct (PyDict.get rt _).
Qed.

Lemma quiet_destination_entry (rt _id : string) : quiet (destination_entry rt _id).
Proof.
  apply quiet_bind; [apply quiet_destination_of|].
  intros t. by destruct (PyDict.get _id t).
Qed.

Lemma quiet_destination_entry_or_empty (rt _id : string) :
  quiet (destination_entry_or_empty rt _id).
Proof. apply quiet_bind; [apply quiet_destination_of|]. done. Qed.

Lemma quiet_cached (key : dkey) : quiet (cached key).
Proof.
  apply quiet_bind; [apply quiet_get_cache|].
  intros c. by destruct (c !! key).
Qed.

Lemma quiet_key_in_cache (v : json) : quiet (key_in_cache v).
Proof. apply quiet_bind; [apply quiet_get_cache|]. intros c. apply quiet_lift. Qed.

Lemma quiet_cached_at (v : json) : quiet (cached_at v).
Proof.
  apply quiet_bind; [apply quiet_lift|]. intros k. apply quiet_cached.
Qed.

Lemma quiet_cache_insert (v r : json) : quiet (cache_insert v r).
Proof.
  apply quiet_bind; [apply quiet_lift|]. intros k.
  apply quiet_bind; [apply quiet_get_cache|]. intros c. apply quiet_set_cache.
Qed.

End Quiet.

Create HintDb quiet.

#[local] Hint Resolve quiet_ret quiet_lift quiet_get_cache quiet_set_cache
  quiet_get_state quiet_log quiet_store_destination quiet_destination_of
  quiet_destination_entry quiet_destination_entry_or_empty quiet_cached
  quiet_key_in_cache quiet_cached_at quiet_cache_insert : quiet.

Ltac quiet_steps :=
  repeat first
    [ progress eauto with quiet
    | apply quiet_bind
    | progress intros
    | match goal with
      | |- context [if ?b then _ else _] => destruct b
      | |- context [match ?x with _ => _ end] => destruct x
      end ].

Section AtMostOne.
Context `{Transport}.
Variable P : request -> Prop.

Lemma quiet_sends_nothing {A} (m : M A) : quiet m -> sends_at_most_one P m.
Proof.
  intros Hm w. exists []. rewrite Hm app_nil_r. repeat split; [simpl; lia | done].
Qed.

Lemma one_call_then {A} (q : request) (k : json -> M A) :
  P q -> (forall j, quiet (k j)) -> sends_at_most_one P (bind (call q) k).
Proof.
  intros Hq Hk w. exists [q]. split; [|split; [done | by constructor]].
  unfold bind, call. destruct (respond _ _) as [j|status]; simpl; [|done].
  by rewrite Hk.
Qed.

Lemma one_call (q : request) : P q -> sends_at_most_one P (call q).
Proof.
  intros Hq w. exists [q]. split; [|split; [done | by constructor]].
  unfold call. by destruct (respond _ _).
Qed.

Lemma at_most_one_after_quiet {A B} (m : M A) (k : A -> M B) :
  quiet m -> (forall a, sends_at_most_one P (k a)) -> sends_at_most_one P (bind m k).
Proof.
  intros Hm Hk w. unfold bind. specialize (Hm w).
  destruct (m w) as [[a|e] w1]; simpl in *.
  - rewrite -Hm. apply Hk.
  - exists []. rewrite Hm app_nil_r. repeat split; [simpl; lia | done].
Qed.

Lemma at_most_one_then_quiet {A B} (m : M A) (k : A -> M B) :
  sends_at_most_one P m -> (forall a, quiet (k a)) -> sends_at_most_one P (bind m k).
Proof.
  intros Hm Hk w. unfold bind. destruct (Hm w) as (qs & Hs & Hlen & Hqs).
  exists qs. split; [|done].
  destruct (m w) as [[a|e] w1]; simpl in *; [|done].
  by rewrite Hk.
Qed.

End AtMostOne.

(** Walks through a method that does its pure steps, then one call of the
    client, then pure steps again; [tac] shows that the request is as
    wanted. *)
Ltac one_request tac :=
  repeat first
    [ apply one_call_then; [tac | quiet_steps]
    | apply one_call; tac
    | apply at_most_one_after_quiet; [solve [quiet_steps] |]
    | apply quiet_sends_nothing; solve [quiet_steps]
    | apply at_most_one_then_quiet; [| solve [quiet_steps]]
    | progress intros
    | match goal with
      | |- context [if ?b then _ else _] => destruct b
      | |- context [match ?x with _ => _ end] => destruct x
      end ].

Ltac unfold_adapters :=
  unfold AWSIntegration.create_resource, AzureIntegration.create_resource,
    FastlyIntegration.create_resource, GCPIntegration.create_resource,
    PagerDutyIntegration.create_resource, ServiceDefinition.create_resource,
    SlackIntegrationChannels.create_resource, WebhooksIntegration.create_resource,
    AWSIntegration.update_resource, AzureIntegration.update_resource,
    FastlyIntegration.update_resource, GCPIntegration.update_resource,
    PagerDutyIntegration.update_resource, ServiceDefinition.update_resource,
    SlackIntegrationChannels.update_resource, WebhooksIntegration.update_resource,
    AWSIntegration.delete_resource, AzureIntegration.delete_resource,
    FastlyIntegration.delete_resource, GCPIntegration.delete_resource,
    PagerDutyIntegration.delete_resource, ServiceDefinition.delete_resource,
    SlackIntegrationChannels.delete_resource, WebhooksIntegration.delete_resource,
    AWSIntegration.import_resource, AzureIntegration.import_resource,
    FastlyIntegration.import_resource, GCPIntegration.import_resource,
    PagerDutyIntegration.import_resource, ServiceDefinition.import_resource,
    SlackIntegrationChannels.import_resource, WebhooksIntegration.import_resource,
    AWSIntegration.get_resources, AzureIntegration.get_resources,
    with_key, client_get, client_put, client_patch, client_post, client_delete.

Section OneRequest.
Context `{Py.Format} `{Transport}.
Implicit Types (a : adapter) (_id : string) (resource : json).

Lemma update_sends_one_to_destination a _id resource :
  sends_at_most_one to_destination (update_resource a _id resource).
Proof. destruct a; simpl; unfold_adapters; one_request ltac:(reflexivity). Qed.

Lemma delete_sends_one_delete a _id :
  sends_at_most_one (fun q => to_destination q /\ verb q = DELETE)
    (delete_resource a _id).
Proof. destruct a; simpl; unfold_adapters; one_request ltac:(by split). Qed.

Lemma create_sends_one_to_destination a _id resource :
  sends_at_most_one to_destination (create_resource a _id resource).
Proof. destruct a; simpl; unfold_adapters; one_request ltac:(reflexivity). Qed.

Lemma import_sends_one_get_to_source a (_id : option string) resource :
  sends_at_most_one reads_source (import_resource a _id resource).
Proof. destruct a; simpl; unfold_adapters; one_request ltac:(by split). Qed.

Lemma import_of_resource_is_quiet a (_id : option string) resource :
  given _id = None -> quiet (import_resource a _id resource).
Proof.
  intros Hid. destruct a; simpl; unfold_adapters; rewrite Hid; quiet_steps.
Qed.

End OneRequest.

(** X1. Each of [create_resource], [update_resource] and [delete_resource],
    of every adapter, sends at most one request, and sends it to the
    destination organisation; the request of [delete_resource] is a DELETE. *)
Theorem writes_send_one_request_to_destination `{Py.Format} `{Transport}
    (a : adapter) (_id : string) (resource : json) :
  sends_at_most_one to_destination (create_resource a _id resource)
  /\ sends_at_most_one to_destination (update_resource a _id resource)
  /\ sends_at_most_one (fun q => to_destination q /\ verb q = DELETE)
       (delete_resource a _id).
Proof.
  split; [|split].
  - apply create_sends_one_to_destination.
  - apply update_sends_one_to_destination.
  - apply delete_sends_one_delete.
Qed.

(** X2. [import_resource] of every adapter only reads: it sends at most one
    request, a GET to the source organisation; and it sends nothing when it
    is handed the resource instead of an id (no id, or an empty one). *)
Theorem import_reads_source_only `{Py.Format} `{Transport}
    (a : adapter) (_id : option string) (resource : json) :
  sends_at_most_one reads_source (import_resource a _id resource)
  /\ (given _id = None -> quiet (import_resource a _id resource)).
Proof.
  split.
  - apply import_sends_one_get_to_source.
  - apply import_of_resource_is_quiet.
Qed.

Lemma import_reads_source_only_witness :
  given (Some "") = None
  /\ sent (snd (import_resource (H := plain_format) (H0 := accepting) Fastly (Some "")
                 (JDict [("id", JStr "abc")]) (fresh_world "fastly_integration")))
     = [].
Proof.
  split; [reflexivity|].
  apply (proj2 (@import_reads_source_only plain_format accepting Fastly (Some "")
                  (JDict [("id", JStr "abc")])) eq_refl (fresh_world "fastly_integration")).
Defined.

(** ** What [pre_apply_hook] touches *)

Section HookEmits.
Context `{Py.Format} `{Transport}.
Variable P : request -> Prop.

Lemma emits_try_except {A} (m : M A) (catches : exn -> bool) (h : exn -> M A) :
  emits P m -> (forall e, emits P (h e)) -> emits P (try_except m catches h).
Proof.
  intros Hm Hh w. unfold try_except.
  destruct (Hm w) as (qs & Hs & Hqs).
  destruct (m w) as [[a|e] w1]; simpl in *; [by exists qs|].
  destruct (catches e); [|by exists qs].
  destruct (Hh e w1) as (qs' & Hs' & Hqs').
  exists (qs ++ qs')%list. split; [by rewrite Hs' Hs app_assoc | by apply Forall_app].
Qed.

Lemma emits_for_each {A} (l : list A) (body : A -> M unit) :
  (forall x, emits P (body x)) -> emits P (for_each l body).
Proof.
  intros Hbody. induction l as [|x l IH]; simpl.
  - apply emits_ret.
  - apply emits_bind; [apply Hbody | done].
Qed.

End HookEmits.

Ltac emits_steps tac :=
  repeat first
    [ apply emits_call; tac
    | apply emits_nothing; solve [quiet_steps]
    | apply emits_bind
    | apply emits_attempt
    | apply emits_try_except
    | apply emits_for_each
    | progress intros
    | match goal with
      | |- context [if ?b then _ else _] => destruct b
      | |- context [match ?x with _ => _ end] => destruct x
      end ].

Lemma quiet_for_each {A} (l : list A) (body : A -> M unit) :
  (forall x, quiet (body x)) -> quiet (for_each l body).
Proof.
  intros Hbody. induction l as [|x l IH]; simpl; [done|].
  apply quiet_bind; [apply Hbody | done].
Qed.

Section HookReads.
Context `{Py.Format} `{Transport}.

Lemma slack_collect_emits (c : org) (accounts all_channels : list json) :
  emits (fun q => client q = c /\ verb q = GET)
    (SlackIntegrationChannels.collect c accounts all_channels).
Proof.
  revert all_channels. induction accounts as [|account rest IH]; intros all_channels.
  - apply emits_ret.
  - simpl. unfold SlackIntegrationChannels.warn_fetch, client_get.
    repeat first
      [ apply IH
      | apply emits_call; by split
      | apply emits_nothing; solve [quiet_steps]
      | apply emits_bind
      | apply emits_attempt
      | progress intros
      | match goal with
        | |- context [if ?b then _ else _] => destruct b
        | |- context [match ?x with _ => _ end] => destruct x
        end ].
Qed.

Lemma slack_get_resources_emits (c : org) :
  emits (fun q => client q = c /\ verb q = GET) (SlackIntegrationChannels.get_resources c).
Proof.
  unfold SlackIntegrationChannels.get_resources, client_get.
  apply emits_bind; [apply emits_call; by split|]. intros accounts_resp.
  apply emits_bind; [apply slack_collect_emits|]. intros. apply emits_ret.
Qed.

Lemma webhooks_fetch_emits (name : json) (on_404 : M unit) (acc : gmap dkey json) :
  quiet on_404 ->
  emits reads_destination (WebhooksIntegration.fetch_webhook name on_404 acc).
Proof.
  intros Hq. unfold WebhooksIntegration.fetch_webhook, client_get.
  emits_steps ltac:(by split).
Qed.

Lemma webhooks_check_destination_emits (entries : list (string * json))
    (acc : gmap dkey json) :
  emits reads_destination (WebhooksIntegration.check_destination entries acc).
Proof.
  revert acc. induction entries as [|[_id webhook_data] rest IH]; intros acc.
  - apply emits_ret.
  - simpl. apply emits_bind; [apply emits_lift|]. intros webhook_name.
    apply emits_bind; [|done].
    destruct (Py.truthy webhook_name); [|apply emits_ret].
    apply webhooks_fetch_emits, quiet_log.
Qed.

Lemma webhooks_check_source_emits (entries : list (string * json))
    (acc : gmap dkey json) :
  emits reads_destination (WebhooksIntegration.check_source entries acc).
Proof.
  revert acc. induction entries as [|[_id webhook_data] rest IH]; intros acc.
  - apply emits_ret.
  - simpl. apply emits_bind; [apply emits_lift|]. intros webhook_name.
    apply emits_bind; [|done].
    destruct (Py.truthy webhook_name); [|apply emits_ret].
    apply emits_bind; [apply emits_lift|]. intros [|]; [apply emits_ret|].
    apply webhooks_fetch_emits, quiet_ret.
Qed.

Lemma pre_apply_hook_emits
    (paginated_get : org -> string -> PaginationConfig -> M json) (a : adapter) :
  (forall p cfg, emits reads_destination (paginated_get DestinationOrg p cfg)) ->
  emits reads_destination (pre_apply_hook paginated_get a).
Proof.
  intros Hpg. destruct a; simpl.
  - unfold AWSIntegration.pre_apply_hook, AWSIntegration._get_destination_integrations,
      AWSIntegration.get_resources, client_get.
    emits_steps ltac:(by split).
  - unfold AzureIntegration.pre_apply_hook, AzureIntegration._get_destination_integrations,
      AzureIntegration.get_resources, client_get.
    emits_steps ltac:(by split).
  - unfold FastlyIntegration.pre_apply_hook, FastlyIntegration.get_resources, client_get.
    emits_steps ltac:(by split).
  - unfold GCPIntegration.pre_apply_hook, GCPIntegration._get_destination_gcp_accounts,
      GCPIntegration.get_resources, client_get.
    emits_steps ltac:(by split).
  - unfold PagerDutyIntegration.pre_apply_hook,
      PagerDutyIntegration.get_destination_services,
      PagerDutyIntegration.get_resources, client_get.
    emits_steps ltac:(by split).
  - unfold ServiceDefinition.pre_apply_hook,
      ServiceDefinition._get_destination_service_definitions,
      ServiceDefinition.get_resources.
    apply emits_bind; [|intros; apply emits_nothing; quiet_steps].
    apply emits_bind; [apply Hpg|]. intros. apply emits_nothing. quiet_steps.
  - unfold SlackIntegrationChannels.pre_apply_hook.
    apply emits_bind; [apply slack_get_resources_emits|]. intros resp.
    apply emits_nothing.
    apply quiet_bind; [apply quiet_set_cache|]. intros _.
    apply quiet_bind; [apply quiet_lift|]. intros rs.
    apply quiet_for_each. intros channel. quiet_steps.
  - unfold WebhooksIntegration.pre_apply_hook, WebhooksIntegration.get_destination_webhooks.
    apply emits_bind; [|intros; apply emits_nothing; quiet_steps].
    apply emits_bind; [apply emits_nothing; quiet_steps|]. intros s.
    apply emits_bind; [apply webhooks_check_destination_emits|]. intros found.
    apply emits_bind; [apply emits_nothing; quiet_steps|]. intros s'.
    apply webhooks_check_source_emits.
Qed.

End HookReads.

Section HookKeepsState.
Context `{Py.Format} `{Transport}.

Lemma keeps_state_get_cache : keeps_state get_cache.
Proof. done. Qed.

Lemma keeps_state_set_cache (c : gmap dkey json) : keeps_state (set_cache c).
Proof. done. Qed.

Lemma keeps_state_get_state : keeps_state get_state.
Proof. done. Qed.

Lemma keeps_state_log (l : level) (msg : string) : keeps_state (log l msg).
Proof. done. Qed.

Lemma keeps_state_attempt {A} (m : M A) : keeps_state m -> keeps_state (attempt m).
Proof. intros Hm w. unfold attempt. specialize (Hm w). by destruct (m w). Qed.

Lemma keeps_state_try_except {A} (m : M A) (catches : exn -> bool) (h : exn -> M A) :
  keeps_state m -> (forall e, keeps_state (h e)) -> keeps_state (try_except m catches h).
Proof.
  intros Hm Hh w. unfold try_except. specialize (Hm w).
  destruct (m w) as [[a|e] w1]; simpl in *; [done|].
  destruct (catches e); [|done]. by rewrite Hh.
Qed.

Lemma keeps_state_for_each {A} (l : list A) (body : A -> M unit) :
  (forall x, keeps_state (body x)) -> keeps_state (for_each l body).
Proof.
  intros Hbody. induction l as [|x l IH]; simpl; [done|].
  apply keeps_state_bind; [apply Hbody | done].
Qed.

Lemma keeps_state_cache_insert (v r : json) : keeps_state (cache_insert v r).
Proof.
  apply keeps_state_bind; [apply keeps_state_lift|]. intros k.
  apply keeps_state_bind; [apply keeps_state_get_cache|]. intros c.
  apply keeps_state_set_cache.
Qed.

End HookKeepsState.

#[local] Hint Resolve keeps_state_get_cache keeps_state_set_cache keeps_state_get_state
  keeps_state_log keeps_state_cache_insert : frame.

Ltac keeps_steps :=
  repeat first
    [ progress eauto with frame
    | apply keeps_state_bind
    | apply keeps_state_attempt
    | apply keeps_state_try_except
    | apply keeps_state_for_each
    | progress intros
    | match goal with
      | |- context [if ?b then _ else _] => destruct b
      | |- context [match ?x with _ => _ end] => destruct x
      end ].

Section HookState.
Context `{Py.Format} `{Transport}.

Lemma slack_collect_keeps_state (c : org) (accounts all_channels : list json) :
  keeps_state (SlackIntegrationChannels.collect c accounts all_channels).
Proof.
  revert all_channels. induction accounts as [|account rest IH]; intros all_channels.
  - apply keeps_state_ret.
  - simpl. unfold SlackIntegrationChannels.warn_fetch, client_get.
    repeat first
      [ apply IH
      | progress eauto with frame
      | apply keeps_state_bind
      | apply keeps_state_attempt
      | progress intros
      | match goal with
        | |- context [if ?b then _ else _] => destruct b
        | |- context [match ?x with _ => _ end] => destruct x
        end ].
Qed.

Lemma webhooks_fetch_keeps_state (name : json) (on_404 : M unit) (acc : gmap dkey json) :
  keeps_state on_404 ->
  keeps_state (WebhooksIntegration.fetch_webhook name on_404 acc).
Proof.
  intros Hq. unfold WebhooksIntegration.fetch_webhook, client_get. keeps_steps.
Qed.

Lemma webhooks_check_destination_keeps_state (entries : list (string * json))
    (acc : gmap dkey json) :
  keeps_state (WebhooksIntegration.check_destination entries acc).
Proof.
  revert acc. induction entries as [|[_id webhook_data] rest IH]; intros acc.
  - apply keeps_state_ret.
  - simpl. apply keeps_state_bind; [apply keeps_state_lift|]. intros webhook_name.
    apply keeps_state_bind; [|done].
    destruct (Py.truthy webhook_name); [|apply keeps_state_ret].
    apply webhooks_fetch_keeps_state, keeps_state_log.
Qed.

Lemma webhooks_check_source_keeps_state (entries : list (string * json))
    (acc : gmap dkey json) :
  keeps_state (WebhooksIntegration.check_source entries acc).
Proof.
  revert acc. induction entries as [|[_id webhook_data] rest IH]; intros acc.
  - apply keeps_state_ret.
  - simpl. apply keeps_state_bind; [apply keeps_state_lift|]. intros webhook_name.
    apply keeps_state_bind; [|done].
    destruct (Py.truthy webhook_name); [|apply keeps_state_ret].
    apply keeps_state_bind; [apply keeps_state_lift|]. intros [|]; [apply keeps_state_ret|].
    apply webhooks_fetch_keeps_state, keeps_state_ret.
Qed.

Lemma pre_apply_hook_keeps_state
    (paginated_get : org -> string -> PaginationConfig -> M json) (a : adapter) :
  (forall p cfg, keeps_state (paginated_get DestinationOrg p cfg)) ->
  keeps_state (pre_apply_hook paginated_get a).
Proof.
  intros Hpg. destruct a; simpl.
  - unfold AWSIntegration.pre_apply_hook, AWSIntegration._get_destination_integrations,
      AWSIntegration.get_resources, client_get.
    keeps_steps.
  - unfold AzureIntegration.pre_apply_hook, AzureIntegration._get_destination_integrations,
      AzureIntegration.get_resources, client_get.
    keeps_steps.
  - unfold FastlyIntegration.pre_apply_hook, FastlyIntegration.get_resources, client_get.
    keeps_steps.
  - unfold GCPIntegration.pre_apply_hook, GCPIntegration._get_destination_gcp_accounts,
      GCPIntegration.get_resources, client_get.
    keeps_steps.
  - unfold PagerDutyIntegration.pre_apply_hook,
      PagerDutyIntegration.get_destination_services,
      PagerDutyIntegration.get_resources, client_get.
    keeps_steps.
  - unfold ServiceDefinition.pre_apply_hook,
      ServiceDefinition._get_destination_service_definitions,
      ServiceDefinition.get_resources.
    apply keeps_state_bind; [|keeps_steps].
    apply keeps_state_bind; [apply Hpg|]. keeps_steps.
  - unfold SlackIntegrationChannels.pre_apply_hook,
      SlackIntegrationChannels.get_resources, client_get.
    apply keeps_state_bind.
    + apply keeps_state_bind; [apply keeps_state_call|]. intros accounts_resp.
      apply keeps_state_bind; [apply slack_collect_keeps_state|]. keeps_steps.
    + keeps_steps.
  - unfold WebhooksIntegration.pre_apply_hook, WebhooksIntegration.get_destination_webhooks.
    apply keeps_state_bind; [|keeps_steps].
    apply keeps_state_bind; [apply keeps_state_get_state|]. intros s.
    apply keeps_state_bind; [apply webhooks_check_destination_keeps_state|]. intros found.
    apply keeps_state_bind; [apply keeps_state_get_state|]. intros s'.
    apply webhooks_check_source_keeps_state.
Qed.

End HookState.

(** X3. [pre_apply_hook] of every adapter only reads the destination: every
    request it sends is a GET to the destination organisation, and it leaves
    the state store as it found it.  For service definitions this is so as
    long as the pagination driver it lists through does the same. *)
Theorem pre_apply_hook_reads_destination_only `{Py.Format} `{Transport}
    (paginated_get : org -> string -> PaginationConfig -> M json) (a : adapter) :
  (forall p cfg, emits reads_destination (paginated_get DestinationOrg p cfg)) ->
  (forall p cfg, keeps_state (paginated_get DestinationOrg p cfg)) ->
  emits reads_destination (pre_apply_hook paginated_get a)
  /\ keeps_state (pre_apply_hook paginated_get a).
Proof.
  intros Hemits Hkeeps. split.
  - by apply pre_apply_hook_emits.
  - by apply pre_apply_hook_keeps_state.
Qed.

Lemma pre_apply_hook_reads_destination_only_witness :
  state (snd (pre_apply_hook (H := plain_format) (H0 := accepting)
                (fun _ _ _ => ret (JList [])) Webhooks webhook_world))
  = state webhook_world.
Proof.
  apply (proj2 (@pre_apply_hook_reads_destination_only plain_format accepting
                  (fun _ _ _ => ret (JList [])) Webhooks
                  (fun _ _ => emits_ret _ _) (fun _ _ => keeps_state_ret _))).
Defined.

(** ** Failures of the transport, and what a write leaves behind *)

Section Failing.
Context `{Transport}.
Variable status : Z.
Hypothesis Hdown : down status.

Lemma fails_call_then {A} (q : request) (k : json -> M A) :
  fails_with status (bind (call q) k).
Proof.
  intros w. unfold bind, call. rewrite Hdown. eexists _, _. split; [done|]. by right.
Qed.

Lemma fails_call (q : request) : fails_with status (call q).
Proof.
  intros w. unfold call. rewrite Hdown. eexists _, _. split; [done|]. by right.
Qed.

Lemma fails_after_quiet {A B} (m : M A) (k : A -> M B) :
  quiet m -> (forall a, fails_with status (k a)) -> fails_with status (bind m k).
Proof.
  intros Hm Hk w. unfold bind. specialize (Hm w).
  destruct (m w) as [[a|e] w1]; simpl in *.
  - destruct (Hk a w1) as (e & w' & -> & Hcase).
    exists e, w'. split; [done|]. destruct Hcase as [Hs|He]; [left; congruence | by right].
  - exists e, w1. split; [done|]. by left.
Qed.

End Failing.

Ltac failing_steps H :=
  repeat first
    [ apply (fails_call_then _ H)
    | apply (fails_call _ H)
    | apply (fails_after_quiet _); [solve [quiet_steps] |]
    | progress intros
    | match goal with
      | |- context [if ?b then _ else _] => destruct b
      | |- context [match ?x with _ => _ end] => destruct x
      end ].

Section WritesFail.
Context `{Py.Format} `{Transport}.
Implicit Types (a : adapter) (_id : string) (resource : json).

Lemma update_fails_when_down (status : Z) a _id resource :
  down status -> fails_with status (update_resource a _id resource).
Proof. intros Hd. destruct a; simpl; unfold_adapters; failing_steps Hd. Qed.

Lemma delete_fails_when_down (status : Z) a _id :
  down status -> fails_with status (delete_resource a _id).
Proof. intros Hd. destruct a; simpl; unfold_adapters; failing_steps Hd. Qed.

Lemma create_fails_when_down (status : Z) a _id resource :
  down status -> fails_with status (create_resource a _id resource).
Proof. intros Hd. destruct a; simpl; unfold_adapters; failing_steps Hd. Qed.

End WritesFail.

(** X4. When the transport is down, no write of any adapter reports success:
    [create_resource], [update_resource] and [delete_resource] raise, and
    once a request has been sent the exception is the HTTP error of the
    transport, with its status. *)
Theorem writes_fail_when_transport_is_down `{Py.Format} `{Transport}
    (status : Z) (a : adapter) (_id : string) (resource : json) :
  down status ->
  fails_with status (create_resource a _id resource)
  /\ fails_with status (update_resource a _id resource)
  /\ fails_with status (delete_resource a _id).
Proof.
  intros Hd. split; [|split].
  - by apply create_fails_when_down.
  - by apply update_fails_when_down.
  - by apply delete_fails_when_down.
Qed.

Lemma writes_fail_when_transport_is_down_witness :
  down (H := failing 503) 503
  /\ exists e w',
       create_resource (H := plain_format) (H0 := failing 503) AWS
         "123456789012:DatadogIntegrationRole" aws_resource (fresh_world "aws_integration")
       = (Raise e, w')
       /\ (sent w' = sent (fresh_world "aws_integration")
           \/ e = CustomClientHTTPError 503).
Proof.
  assert (Hd : down (H := failing 503) 503) by (intros h q; reflexivity).
  split; [exact Hd|].
  apply (proj1 (@writes_fail_when_transport_is_down plain_format (failing 503) 503 AWS
                  "123456789012:DatadogIntegrationRole" aws_resource Hd)).
Defined.

Section KeepsCache.
Context `{Transport}.

Lemma keeps_cache_ret {A} (a : A) : keeps_cache (ret a).
Proof. done. Qed.

Lemma keeps_cache_lift {A} (r : result A) : keeps_cache (lift r).
Proof. done. Qed.

Lemma keeps_cache_get_cache : keeps_cache get_cache.
Proof. done. Qed.

Lemma keeps_cache_call (q : request) : keeps_cache (call q).
Proof. intros w. unfold call. by destruct (respond _ _). Qed.

Lemma keeps_cache_bind {A B} (m : M A) (k : A -> M B) :
  keeps_cache m -> (forall a, keeps_cache (k a)) -> keeps_cache (bind m k).
Proof.
  intros Hm Hk w. unfold bind. specialize (Hm w).
  destruct (m w) as [[a|e] w1]; simpl in *; [|done].
  by rewrite Hk.
Qed.

Lemma keeps_cache_store_destination (rt _id : string) (v : json) :
  keeps_cache (store_destination rt _id v).
Proof. intros w. apply store_destination_cache. Qed.

Lemma keeps_cache_of_ignores {A} (m : M A) : ignores_cache m -> keeps_cache m.
Proof. intros Hm w. by apply ignores_cache_keeps. Qed.

Lemma keeps_cache_cached (key : dkey) : keeps_cache (cached key).
Proof.
  apply keeps_cache_bind; [apply keeps_cache_get_cache|].
  intros c. by destruct (c !! key).
Qed.

Lemma keeps_cache_key_in_cache (v : json) : keeps_cache (key_in_cache v).
Proof. apply keeps_cache_bind; [apply keeps_cache_get_cache|]. done. Qed.

Lemma keeps_cache_cached_at (v : json) : keeps_cache (cached_at v).
Proof.
  apply keeps_cache_bind; [apply keeps_cache_lift|]. intros k. apply keeps_cache_cached.
Qed.

End KeepsCache.

Create HintDb cache.

#[local] Hint Resolve keeps_cache_ret keeps_cache_lift keeps_cache_get_cache
  keeps_cache_call keeps_cache_store_destination keeps_cache_cached
  keeps_cache_key_in_cache keeps_cache_cached_at : cache.

Ltac cache_steps :=
  repeat first
    [ progress eauto with cache
    | apply keeps_cache_of_ignores; solve [frame]
    | apply keeps_cache_bind
    | progress intros
    | match goal with
      | |- context [if ?b then _ else _] => destruct b
      | |- context [match ?x with _ => _ end] => destruct x
      end ].

Section OnlyEntry.
Context `{Transport}.
Variables (rt _id : string).

Lemma writes_only_entry_of_keeps {A} (m : M A) :
  keeps_state m -> writes_only_entry rt _id m.
Proof. intros Hm w. unfold entry_of. by rewrite Hm. Qed.

Lemma writes_only_entry_bind {A B} (m : M A) (k : A -> M B) :
  writes_only_entry rt _id m -> (forall a, writes_only_entry rt _id (k a)) ->
  writes_only_entry rt _id (bind m k).
Proof.
  intros Hm Hk w. unfold bind. destruct (Hm w) as [Hsrc Hentries].
  destruct (m w) as [[a|e] w1]; simpl in *; [|done].
  destruct (Hk a w1) as [Hsrc' Hentries']. split; [congruence|].
  intros rt' id' Hne. rewrite Hentries' //. by apply Hentries.
Qed.

Lemma writes_only_entry_store (v : json) :
  writes_only_entry rt _id (store_destination rt _id v).
Proof.
  intros w. unfold store_destination, destination_of. unfold_m. simpl.
  destruct (PyDict.get rt (destination (state w))) as [t|] eqn:Ht; simpl; [|done].
  split; [done|]. intros rt' id' Hne. unfold entry_of. simpl.
  destruct (decide (rt = rt')) as [<-|Hrt].
  - rewrite dict_get_set_eq Ht. apply dict_get_set_ne. congruence.
  - by rewrite dict_get_set_ne.
Qed.

End OnlyEntry.

Ltac entry_steps :=
  repeat first
    [ apply writes_only_entry_store
    | apply writes_only_entry_of_keeps; solve [keeps_steps]
    | apply writes_only_entry_bind
    | progress intros
    | match goal with
      | |- context [if ?b then _ else _] => destruct b
      | |- context [match ?x with _ => _ end] => destruct x
      end ].

Section WriteFrames.
Context `{Py.Format} `{Transport}.
Implicit Types (a : adapter) (_id : string) (resource : json).

Lemma create_writes_only_entry a _id resource :
  writes_only_entry (resource_type a) _id (create_resource a _id resource).
Proof. destruct a; simpl; unfold_adapters; entry_steps. Qed.

Lemma create_keeps_cache a _id resource :
  keeps_cache (create_resource a _id resource).
Proof. destruct a; simpl; unfold_adapters; cache_steps. Qed.

Lemma delete_keeps_state a _id : keeps_state (delete_resource a _id).
Proof. destruct a; simpl; unfold_adapters; keeps_steps. Qed.

End WriteFrames.

(** X5. Of the engine's stores a write changes at most one entry:
    [create_resource] leaves the source store, every other identity and
    every other resource type of the destination store as they were, and
    never changes the destination cache; [update_resource] and
    [delete_resource] change neither the state store nor the cache (removing
    the entry of a deleted object is left to the caller). *)
Theorem writes_touch_only_their_entry `{Py.Format} `{Transport}
    (a : adapter) (_id : string) (resource : json) :
  writes_only_entry (resource_type a) _id (create_resource a _id resource)
  /\ keeps_cache (create_resource a _id resource)
  /\ keeps_state (update_resource a _id resource)
  /\ keeps_cache (update_resource a _id resource)
  /\ keeps_state (delete_resource a _id)
  /\ keeps_cache (delete_resource a _id).
Proof.
  split; [|split; [|split; [|split; [|split]]]].
  - apply create_writes_only_entry.
  - apply create_keeps_cache.
  - apply update_keeps_state.
  - apply keeps_cache_of_ignores, update_ignores_cache.
  - apply delete_keeps_state.
  - apply keeps_cache_of_ignores, delete_ignores_cache.
Qed.

(** ** Listing and matching (AWS, Azure) *)

Section Matching.
Variable ident : json -> result string.
Implicit Types (rs : list json) (i k : string).

Lemma first_match_skips i rs1 rs2 (resource : json) :
  Forall (fun x => exists k, ident x = Ok k /\ k <> i) rs1 ->
  first_match ident i (rs1 ++ rs2) resource = first_match ident i rs2 resource.
Proof.
  induction 1 as [|x rs1 (k & Hk & Hne) _ IH]; simpl; [done|].
  rewrite Hk. simpl.
  destruct (String.eqb k i) eqn:E; [|done].
  by apply String.eqb_eq in E.
Qed.

Lemma first_match_found i rs1 (r : json) rs2 (resource : json) :
  Forall (fun x => exists k, ident x = Ok k /\ k <> i) rs1 ->
  ident r = Ok i ->
  first_match ident i (rs1 ++ r :: rs2) resource = Ok r.
Proof.
  intros Hskip Hr. rewrite first_match_skips //. cbn [first_match].
  rewrite Hr. cbn [rbind]. by rewrite String.eqb_refl.
Qed.

Lemma first_match_none i rs (resource : json) :
  Forall (fun x => exists k, ident x = Ok k /\ k <> i) rs ->
  first_match ident i rs resource = Ok resource.
Proof.
  intros Hskip. rewrite -(app_nil_r rs). by rewrite first_match_skips.
Qed.

Lemma index_by_sound_in rs (acc c : gmap dkey json) :
  index_by ident rs acc = Ok c ->
  forall (k : dkey) v, c !! k = Some v ->
    acc !! k = Some v \/ (In v rs /\ exists s, k = KStr s /\ ident v = Ok s).
Proof.
  revert acc. induction rs as [|r rs IH]; intros acc; simpl.
  - intros [= ->]. by left.
  - destruct (ident r) as [rid|] eqn:Hr; [|done]. simpl.
    intros Hc k v Hv. destruct (IH _ Hc k v Hv) as [Hacc | [Hin Hid]].
    + destruct (decide (KStr rid = k)) as [<-|Hne].
      * rewrite lookup_insert_eq in Hacc. injection Hacc as <-. right.
        split; [by left|]. by exists rid.
      * rewrite lookup_insert_ne // in Hacc. by left.
    + right. by split; [right|].
Qed.

Lemma index_by_keeps rs (acc c : gmap dkey json) (k : string) (v : json) :
  index_by ident rs acc = Ok c ->
  acc !! KStr k = Some v ->
  Forall (fun x => ident x <> Ok k) rs ->
  c !! KStr k = Some v.
Proof.
  revert acc. induction rs as [|r rs IH]; intros acc; simpl.
  - by intros [= ->].
  - destruct (ident r) as [rid|] eqn:Hr; [|done]. simpl.
    intros Hc Hacc [Hne Hrest]%Forall_cons. apply (IH _ Hc); [|done].
    rewrite lookup_insert_ne //. congruence.
Qed.

Lemma index_by_last_wins rs1 (r : json) rs2 (acc c : gmap dkey json) (k : string) :
  index_by ident (rs1 ++ r :: rs2) acc = Ok c ->
  ident r = Ok k ->
  Forall (fun x => ident x <> Ok k) rs2 ->
  c !! KStr k = Some r.
Proof.
  revert acc. induction rs1 as [|x rs1 IH]; intros acc; simpl.
  - intros Hc Hr Hrest. rewrite Hr in Hc. simpl in Hc.
    apply (index_by_keeps _ _ _ _ _ Hc); [|done]. apply lookup_insert_eq.
  - destruct (ident x) as [xid|]; [|done]. simpl. apply IH.
Qed.

Lemma index_by_total rs (acc : gmap dkey json) :
  Forall (fun x => exists k, ident x = Ok k) rs ->
  exists c, index_by ident rs acc = Ok c.
Proof.
  intros Hall. revert acc. induction Hall as [|x rs [k Hk] _ IH]; intros acc; simpl.
  - by eexists.
  - rewrite Hk. simpl. apply IH.
Qed.

End Matching.

Section AWSRead.
Context `{Py.Format} `{Transport}.
Implicit Types (w : world) (rs : list json).

Lemma aws_import_listing (i : string) (resource resp : json) rs w :
  i <> "" ->
  answers SourceOrg AWSIntegration.base_path w resp ->
  Py.get resp "accounts" (JList []) = Ok (JList rs) ->
  AWSIntegration.import_resource (Some i) resource w
  = (let? found := first_match AWSIntegration._get_resource_id i rs resource in
     let? resource_id := AWSIntegration._get_resource_id found in
     Ok (resource_id, found),
     World (state w) (cache w)
           (sent w ++ [Request SourceOrg GET AWSIntegration.base_path None None])%list
           (logged w)).
Proof.
  intros Hi Hresp Hlist.
  unfold AWSIntegration.import_resource, AWSIntegration.get_resources, given.
  apply String.eqb_neq in Hi. rewrite Hi. unfold_m. rewrite Hresp. simpl.
  rewrite Hlist. simpl.
  destruct (first_match _ i rs resource) as [found|e]; simpl; [|done].
  by destruct (AWSIntegration._get_resource_id found).
Qed.

Lemma azure_import_listing (i : string) (resource : json) rs w :
  i <> "" ->
  answers SourceOrg AzureIntegration.base_path w (JList rs) ->
  AzureIntegration.import_resource (Some i) resource w
  = (let? found := first_match AzureIntegration._get_resource_id i rs resource in
     let? resource_id := AzureIntegration._get_resource_id found in
     Ok (resource_id, found),
     World (state w) (cache w)
           (sent w ++ [Request SourceOrg GET AzureIntegration.base_path None None])%list
           (logged w)).
Proof.
  intros Hi Hresp.
  unfold AzureIntegration.import_resource, AzureIntegration.get_resources, given.
  apply String.eqb_neq in Hi. rewrite Hi. unfold_m. rewrite Hresp. simpl.
  destruct (first_match _ i rs resource) as [found|e]; simpl; [|done].
  by destruct (AzureIntegration._get_resource_id found).
Qed.

End AWSRead.

(** X6. Importing an AWS or Azure integration by id lists the source and
    takes the first integration whose identity key is the id: the result is
    that integration under the id asked for.  When no listed integration has
    the id and no resource was passed along, the import raises
    [AttributeError]. *)
Theorem import_by_id_lists_and_matches `{Py.Format} `{Transport}
    (i : string) (resp : json) (rs rs1 rs2 : list json) (r : json) (w : world) :
  i <> "" ->
  (answers SourceOrg AWSIntegration.base_path w resp ->
   Py.get resp "accounts" (JList []) = Ok (JList rs) ->
   (rs = (rs1 ++ r :: rs2)%list ->
    Forall (fun x => exists k, AWSIntegration._get_resource_id x = Ok k /\ k <> i) rs1 ->
    AWSIntegration._get_resource_id r = Ok i ->
    fst (AWSIntegration.import_resource (Some i) JNull w) = Ok (i, r))
   /\ (Forall (fun x => exists k, AWSIntegration._get_resource_id x = Ok k /\ k <> i) rs ->
       fst (AWSIntegration.import_resource (Some i) JNull w) = Raise AttributeError))
  /\ (answers SourceOrg AzureIntegration.base_path w (JList rs) ->
      (rs = (rs1 ++ r :: rs2)%list ->
       Forall (fun x => exists k, AzureIntegration._get_resource_id x = Ok k /\ k <> i) rs1 ->
       AzureIntegration._get_resource_id r = Ok i ->
       fst (AzureIntegration.import_resource (Some i) JNull w) = Ok (i, r))
      /\ (Forall (fun x => exists k, AzureIntegration._get_resource_id x = Ok k /\ k <> i) rs ->
          fst (AzureIntegration.import_resource (Some i) JNull w) = Raise AttributeError)).
Proof.
  intros Hi. split.
  - intros Hresp Hlist. rewrite (aws_import_listing _ _ _ _ _ Hi Hresp Hlist). split.
    + intros -> Hskip Hr. simpl. rewrite first_match_found //. simpl. by rewrite Hr.
    + intros Hskip. simpl. by rewrite first_match_none.
  - intros Hresp. rewrite (azure_import_listing _ _ _ _ Hi Hresp). split.
    + intros -> Hskip Hr. simpl. rewrite first_match_found //. simpl. by rewrite Hr.
    + intros Hskip. simpl. by rewrite first_match_none.
Qed.

Lemma import_by_id_lists_and_matches_witness :
  answers (H := aws_listing) SourceOrg AWSIntegration.base_path
    (fresh_world "aws_integration") aws_accounts
  /\ fst (AWSIntegration.import_resource (H := plain_format) (H0 := aws_listing)
            (Some "123456789012:DatadogIntegrationRole") JNull
            (fresh_world "aws_integration"))
     = Ok ("123456789012:DatadogIntegrationRole", aws_existing).
Proof.
  split; [reflexivity|].
  apply (proj1 (proj1 (@import_by_id_lists_and_matches plain_format aws_listing
    "123456789012:DatadogIntegrationRole" aws_accounts [aws_other; aws_existing]
    [aws_other] [] aws_existing (fresh_world "aws_integration") ltac:(discriminate))
    eq_refl eq_refl)).
  - reflexivity.
  - constructor; [|constructor]. eexists. split; [reflexivity | discriminate].
  - reflexivity.
Defined.

(** ** The cache of listed integrations (AWS, Azure) *)

Section ListedCache.
Context `{Py.Format} `{Transport}.
Implicit Types (w : world) (rs : list json).

Lemma aws_pre_apply_hook_run (resp : json) rs w :
  answers DestinationOrg AWSIntegration.base_path w resp ->
  Py.get resp "accounts" (JList []) = Ok (JList rs) ->
  AWSIntegration.pre_apply_hook w
  = let w1 := World (state w) (cache w)
                (sent w ++ [Request DestinationOrg GET AWSIntegration.base_path None None])%list
                (logged w) in
    match index_by AWSIntegration._get_resource_id rs ∅ with
    | Ok c => (Ok tt, with_cache c w1)
    | Raise e => (Raise e, w1)
    end.
Proof.
  intros Hresp Hlist.
  unfold AWSIntegration.pre_apply_hook, AWSIntegration._get_destination_integrations,
    AWSIntegration.get_resources.
  unfold_m. rewrite Hresp. simpl. rewrite Hlist. simpl.
  by destruct (index_by _ rs ∅).
Qed.

Lemma aws_ids_of_dicts rs :
  Forall (fun x => Py.is_dict x = true) rs ->
  Forall (fun x => exists k, AWSIntegration._get_resource_id x = Ok k) rs.
Proof.
  intros Hd. eapply Forall_impl; [exact Hd|].
  intros [| | | | |d]; try done. intros _. apply aws_resource_id_total.
Qed.

Lemma index_by_stops (ident : json -> result string) (e : exn) rs1 (x : json) rs2
    (acc : gmap dkey json) :
  Forall (fun r => exists k, ident r = Ok k) rs1 ->
  ident x = Raise e ->
  index_by ident (rs1 ++ x :: rs2) acc = Raise e.
Proof.
  intros Hall Hx. revert acc.
  induction Hall as [|r rs1 [k Hk] _ IH]; intros acc; simpl.
  - by rewrite Hx.
  - rewrite Hk. simpl. apply IH.
Qed.

End ListedCache.

(** X7. The AWS [pre_apply_hook] replaces the destination cache by an index
    of the listed integrations: every cached integration is one of the
    listing, filed under its own identity key, and of two listed
    integrations with the same key the later one is kept.  When a listed
    item is not a mapping the hook raises [AttributeError] and the cache
    stays as it was. *)
Theorem aws_cache_indexes_the_listing `{Py.Format} `{Transport}
    (resp : json) (rs : list json) (w : world) :
  answers DestinationOrg AWSIntegration.base_path w resp ->
  Py.get resp "accounts" (JList []) = Ok (JList rs) ->
  (Forall (fun x => Py.is_dict x = true) rs ->
   exists w',
     AWSIntegration.pre_apply_hook w = (Ok tt, w')
     /\ state w' = state w
     /\ (forall k v, cache w' !! k = Some v ->
           In v rs /\ exists s, k = KStr s /\ AWSIntegration._get_resource_id v = Ok s)
     /\ (forall rs1 r rs2 k,
           rs = (rs1 ++ r :: rs2)%list ->
           AWSIntegration._get_resource_id r = Ok k ->
           Forall (fun x => AWSIntegration._get_resource_id x <> Ok k) rs2 ->
           cache w' !! KStr k = Some r))
  /\ (forall rs1 x rs2,
        rs = (rs1 ++ x :: rs2)%list ->
        Forall (fun x => Py.is_dict x = true) rs1 ->
        Py.is_dict x = false ->
        exists w',
          AWSIntegration.pre_apply_hook w = (Raise AttributeError, w')
          /\ cache w' = cache w).
Proof.
  intros Hresp Hlist. rewrite (aws_pre_apply_hook_run _ _ _ Hresp Hlist). split.
  - intros Hdicts.
    destruct (index_by_total _ rs ∅ (aws_ids_of_dicts _ Hdicts)) as [c Hc].
    simpl. rewrite Hc. eexists. split; [reflexivity|]. split; [done|]. split.
    + intros k v Hv. simpl in Hv.
      destruct (index_by_sound_in _ _ _ _ Hc k v Hv) as [Hempty|]; [|done].
      by rewrite lookup_empty in Hempty.
    + intros rs1 r rs2 k -> Hr Hrest. simpl.
      by apply (index_by_last_wins _ _ _ _ _ _ _ Hc).
  - intros rs1 x rs2 -> Hdicts Hx. simpl.
    rewrite (index_by_stops _ AttributeError); [by apply aws_ids_of_dicts | by destruct x |].
    by eexists.
Qed.

Lemma aws_cache_indexes_the_listing_witness :
  answers (H := aws_listing) DestinationOrg AWSIntegration.base_path
    (fresh_world "aws_integration") aws_accounts
  /\ exists w',
       AWSIntegration.pre_apply_hook (H := plain_format) (H0 := aws_listing)
         (fresh_world "aws_integration") = (Ok tt, w')
       /\ cache w' !! KStr "123456789012:DatadogIntegrationRole" = Some aws_existing.
Proof.
  split; [reflexivity|].
  destruct (proj1 (@aws_cache_indexes_the_listing plain_format aws_listing aws_accounts
              [aws_other; aws_existing] (fresh_world "aws_integration") eq_refl eq_refl))
    as (w' & E & _ & _ & Hlast).
  { by repeat constructor. }
  exists w'. split; [exact E|].
  apply (Hlast [aws_other] aws_existing []); [reflexivity | reflexivity | constructor].
Defined.

(** ** Creating and updating an AWS integration *)

Section DictUpdate.
Context {A : Type}.
Implicit Types (d e : list (string * A)) (k : string).

Lemma dict_update_absent k d e :
  PyDict.get k e = None -> PyDict.get k (PyDict.update d e) = PyDict.get k d.
Proof.
  unfold PyDict.update. revert d.
  induction e as [|[k' v'] e IH]; intros d; simpl; [done|].
  destruct (String.eqb k k') eqn:E; [done|]. intros He.
  rewrite IH //. apply dict_get_set_ne. intros ->. by rewrite String.eqb_refl in E.
Qed.

Lemma dict_update_present k d e (v : A) :
  NoDup (map fst e) ->
  PyDict.get k e = Some v -> PyDict.get k (PyDict.update d e) = Some v.
Proof.
  unfold PyDict.update. revert d.
  induction e as [|[k' v'] e IH]; intros d; simpl; [done|].
  intros [Hnotin Hnodup]%NoDup_cons.
  destruct (String.eqb k k') eqn:E.
  - apply String.eqb_eq in E as ->. intros [= ->].
    assert (Hnone : PyDict.get k' e = None).
    { clear -Hnotin. induction e as [|[k0 v0] e IH]; simpl; [done|].
      simpl in Hnotin. apply not_elem_of_cons in Hnotin as [Hne Hrest].
      destruct (String.eqb k' k0) eqn:E; [by apply String.eqb_eq in E|]. by apply IH. }
    change (PyDict.get k' (PyDict.update (PyDict.set k' v d) e) = Some v).
    rewrite dict_update_absent //. apply dict_get_set_eq.
  - by apply IH.
Qed.

End DictUpdate.

Section AWSWrite.
Context `{Py.Format} `{Transport}.
Implicit Types (w : world) (d r : list (string * json)) (_id key : string).

Lemma aws_create_miss_run _id d key w :
  AWSIntegration._get_resource_id (JDict d) = Ok key ->
  cache w !! KStr key = None ->
  let q := Request DestinationOrg POST AWSIntegration.base_path (Some (JDict d)) None in
  let w1 := World (state w) (cache w) (sent w ++ [q])%list (logged w) in
  AWSIntegration.create_resource _id (JDict d) w
  = match respond (sent w) q with
    | Body resp =>
        (match resp with
         | JDict r =>
             Ok (_id, JDict (match PyDict.get "external_id" r with
                             | Some e => PyDict.set "external_id" e d
                             | None => d
                             end))
         | JList l =>
             if existsb (fun x => match x with
                                  | JStr s => String.eqb "external_id" s
                                  | _ => false
                                  end) l
             then Raise TypeError else Ok (_id, JDict d)
         | JStr s =>
             if Py.is_substring "external_id" s then Raise TypeError else Ok (_id, JDict d)
         | _ => Raise TypeError
         end, w1)
    | HTTPFail status => (Raise (CustomClientHTTPError status), w1)
    end.
Proof.
  intros Hkey Hmiss q w1.
  unfold AWSIntegration.create_resource. rewrite Hkey.
  assert (Hdec : bool_decide (is_Some (cache w !! KStr key)) = false).
  { apply bool_decide_eq_false. rewrite Hmiss. by intros [? ?]. }
  unfold_m. simpl. rewrite Hdec. fold q.
  destruct (respond (sent w) q) as [resp|status]; [|done]. simpl.
  destruct resp as [|b|z|s|l|r]; simpl; try done.
  - by destruct (Py.is_substring _ s).
  - by destruct (existsb _ l).
  - unfold PyDict.mem. by destruct (PyDict.get "external_id" r).
Qed.

Lemma aws_update_result _id d (resp : json) w :
  has_table AWSIntegration.resource_type w ->
  match entry_of AWSIntegration.resource_type _id w with
  | Some v => Py.is_dict v = true
  | None => True
  end ->
  (forall h q, respond h q = Body resp) ->
  fst (AWSIntegration.update_resource _id (JDict d) w)
  = Ok (_id, JDict (match resp with JDict r => PyDict.update d r | _ => d end)).
Proof.
  intros Ht He Hresp.
  unfold AWSIntegration.update_resource.
  rewrite (bind_run _ _ w _ _ (destination_entry_or_empty_value _ _id _ Ht)).
  set (D := match entry_of _ _id w with Some v => v | None => JDict [] end).
  assert (HD : exists e, D = JDict e).
  { subst D. destruct (entry_of _ _id w) as [[| | | | |e]|]; try done; by eexists. }
  destruct HD as [e ->].
  unfold_m. simpl.
  repeat (destruct (Py.truthy _); simpl); rewrite Hresp; simpl; by destruct resp.
Qed.

Lemma aws_update_params_by_role _id d (a r k : string) w :
  has_table AWSIntegration.resource_type w ->
  entry_of AWSIntegration.resource_type _id w = None ->
  PyDict.get "account_id" d = Some (JStr a) ->
  PyDict.get "role_name" d = Some (JStr r) ->
  r <> "" ->
  issued w (snd (AWSIntegration.update_resource _id (JDict d) w))
  = [Request DestinationOrg PUT AWSIntegration.base_path (Some (JDict d))
       (Some (JDict [("account_id", JStr a); ("role_name", JStr r)]))].
Proof.
  intros Ht He Ha Hr Hne.
  unfold AWSIntegration.update_resource.
  rewrite (bind_run _ _ w _ _ (destination_entry_or_empty_missing _ _id _ Ht He)).
  unfold_m. simpl. rewrite Ha Hr. simpl.
  apply String.eqb_neq in Hne. rewrite Hne. simpl.
  apply issued_app. simpl.
  destruct (respond _ _) as [resp|status]; simpl; [by destruct resp | done].
Qed.

End AWSWrite.

(** X8. Creating an AWS integration that is not in the destination cache
    sends one POST with the resource and returns the resource with the
    "external_id" of the response merged in: that field is the response's,
    every other field is the resource's, and without an "external_id" in the
    response the resource comes back as it is.  A null response body makes
    the call raise [TypeError], after the POST has been sent. *)
Theorem aws_create_merges_external_id `{Py.Format} `{Transport}
    (_id key : string) (d : list (string * json)) (resp : json) (w : world) :
  AWSIntegration._get_resource_id (JDict d) = Ok key ->
  cache w !! KStr key = None ->
  respond (sent w)
    (Request DestinationOrg POST AWSIntegration.base_path (Some (JDict d)) None)
  = Body resp ->
  issued w (snd (AWSIntegration.create_resource _id (JDict d) w))
  = [Request DestinationOrg POST AWSIntegration.base_path (Some (JDict d)) None]
  /\ state (snd (AWSIntegration.create_resource _id (JDict d) w)) = state w
  /\ (forall r e,
        resp = JDict r -> PyDict.get "external_id" r = Some e ->
        exists created,
          fst (AWSIntegration.create_resource _id (JDict d) w) = Ok (_id, JDict created)
          /\ PyDict.get "external_id" created = Some e
          /\ forall k, k <> "external_id" -> PyDict.get k created = PyDict.get k d)
  /\ (forall r,
        resp = JDict r -> PyDict.get "external_id" r = None ->
        fst (AWSIntegration.create_resource _id (JDict d) w) = Ok (_id, JDict d))
  /\ (resp = JNull ->
      fst (AWSIntegration.create_resource _id (JDict d) w) = Raise TypeError).
Proof.
  intros Hkey Hmiss Hresp.
  rewrite (aws_create_miss_run _ _ _ _ Hkey Hmiss). cbv zeta. rewrite Hresp.
  split; [by apply issued_app|]. split; [done|]. split; [|split].
  - intros r e -> He. simpl. rewrite He. eexists. split; [reflexivity|]. split.
    + apply dict_get_set_eq.
    + intros k Hk. apply dict_get_set_ne. congruence.
  - intros r -> He. simpl. by rewrite He.
  - by intros ->.
Qed.

Lemma aws_create_merges_external_id_witness :
  cache (fresh_world "aws_integration") !! KStr "123456789012:DatadogIntegrationRole" = None
  /\ exists created,
       fst (AWSIntegration.create_resource (H := plain_format) (H0 := aws_creating)
              "123456789012:DatadogIntegrationRole" aws_resource
              (fresh_world "aws_integration"))
       = Ok ("123456789012:DatadogIntegrationRole", JDict created)
       /\ PyDict.get "external_id" created = Some (JStr "abc123def456").
Proof.
  split; [reflexivity|].
  destruct (proj1 (proj2 (proj2 (@aws_create_merges_external_id plain_format aws_creating
              "123456789012:DatadogIntegrationRole" "123456789012:DatadogIntegrationRole"
              [("account_id", JStr "123456789012");
               ("role_name", JStr "DatadogIntegrationRole");
               ("host_tags", JList [JStr "env:staging"])]
              (JDict [("external_id", JStr "abc123def456")])
              (fresh_world "aws_integration") eq_refl eq_refl eq_refl)))
            [("external_id", JStr "abc123def456")] (JStr "abc123def456") eq_refl eq_refl)
    as (created & E & He & _).
  exists created. by split.
Defined.

(** X9. Updating an AWS integration returns the resource overlaid with the
    response: a field of the response body wins over the resource's, a field
    the response lacks keeps the resource's value, and a response body that
    is not a mapping leaves the resource as it is. *)
Theorem aws_update_overlays_response `{Py.Format} `{Transport}
    (_id : string) (d : list (string * json)) (resp : json) (w : world) :
  has_table AWSIntegration.resource_type w ->
  match entry_of AWSIntegration.resource_type _id w with
  | Some v => Py.is_dict v = true
  | None => True
  end ->
  (forall h q, respond h q = Body resp) ->
  (forall r, resp = JDict r -> NoDup (map fst r) ->
     exists updated,
       fst (AWSIntegration.update_resource _id (JDict d) w) = Ok (_id, JDict updated)
       /\ forall k, PyDict.get k updated
                    = match PyDict.get k r with
                      | Some v => Some v
                      | None => PyDict.get k d
                      end)
  /\ (Py.is_dict resp = false ->
      fst (AWSIntegration.update_resource _id (JDict d) w) = Ok (_id, JDict d)).
Proof.
  intros Ht He Hresp. rewrite (aws_update_result _ _ _ _ Ht He Hresp). split.
  - intros r -> Hnodup. eexists. split; [reflexivity|]. intros k.
    destruct (PyDict.get k r) as [v|] eqn:Hk.
    + by apply dict_update_present.
    + by apply dict_update_absent.
  - by destruct resp.
Qed.

Lemma aws_update_overlays_response_witness :
  has_table AWSIntegration.resource_type (fresh_world "aws_integration")
  /\ exists updated,
       fst (AWSIntegration.update_resource (H0 := aws_creating)
              "123456789012:DatadogIntegrationRole" aws_resource
              (fresh_world "aws_integration"))
       = Ok ("123456789012:DatadogIntegrationRole", JDict updated)
       /\ PyDict.get "external_id" updated = Some (JStr "abc123def456")
       /\ PyDict.get "role_name" updated = Some (JStr "DatadogIntegrationRole").
Proof.
  assert (Ht : has_table AWSIntegration.resource_type (fresh_world "aws_integration"))
    by (by eexists).
  split; [exact Ht|].
  destruct (proj1 (@aws_update_overlays_response plain_format aws_creating
              "123456789012:DatadogIntegrationRole"
              [("account_id", JStr "123456789012");
               ("role_name", JStr "DatadogIntegrationRole");
               ("host_tags", JList [JStr "env:staging"])]
              (JDict [("external_id", JStr "abc123def456")])
              (fresh_world "aws_integration") Ht I (fun _ _ => eq_refl))
            [("external_id", JStr "abc123def456")] eq_refl
            (NoDup_singleton _)) as (updated & E & Hlook).
  exists updated. split; [exact E|]. split; rewrite Hlook; reflexivity.
Defined.

(** X10. The identity key of an AWS integration and the target of its update
    pick differently: for an integration that has both a role name and an
    access key, [_get_resource_id] builds the key from the access key, while
    [update_resource] (with no state-store entry to go by) addresses the
    integration by its role name and sends no access key. *)
Theorem aws_update_addresses_by_role_name `{Py.Format} `{Transport}
    (_id a r k : string) (d : list (string * json)) (w : world) :
  has_table AWSIntegration.resource_type w ->
  entry_of AWSIntegration.resource_type _id w = None ->
  PyDict.get "account_id" d = Some (JStr a) ->
  PyDict.get "role_name" d = Some (JStr r) ->
  PyDict.get "access_key_id" d = Some (JStr k) ->
  r <> "" -> k <> "" ->
  AWSIntegration._get_resource_id (JDict d) = Ok (a +:+ ":" +:+ k)
  /\ issued w (snd (AWSIntegration.update_resource _id (JDict d) w))
     = [Request DestinationOrg PUT AWSIntegration.base_path (Some (JDict d))
          (Some (JDict [("account_id", JStr a); ("role_name", JStr r)]))].
Proof.
  intros Ht He Ha Hr Hk Hrne Hkne. split.
  - unfold AWSIntegration._get_resource_id. simpl. rewrite Ha Hr Hk. simpl.
    apply String.eqb_neq in Hkne. by rewrite Hkne.
  - by apply aws_update_params_by_role.
Qed.

Lemma aws_update_addresses_by_role_name_witness :
  AWSIntegration._get_resource_id (H := plain_format)
    (JDict [("account_id", JStr "123456789012"); ("role_name", JStr "R");
            ("access_key_id", JStr "AKIA")])
  = Ok "123456789012:AKIA"
  /\ issued (fresh_world "aws_integration")
       (snd (AWSIntegration.update_resource (H0 := accepting)
               "123456789012:AKIA"
               (JDict [("account_id", JStr "123456789012"); ("role_name", JStr "R");
                       ("access_key_id", JStr "AKIA")])
               (fresh_world "aws_integration")))
     = [Request DestinationOrg PUT AWSIntegration.base_path
          (Some (JDict [("account_id", JStr "123456789012"); ("role_name", JStr "R");
                        ("access_key_id", JStr "AKIA")]))
          (Some (JDict [("account_id", JStr "123456789012"); ("role_name", JStr "R")]))].
Proof.
  apply (@aws_update_addresses_by_role_name plain_format accepting "123456789012:AKIA"
           "123456789012" "R" "AKIA"
           [("account_id", JStr "123456789012"); ("role_name", JStr "R");
            ("access_key_id", JStr "AKIA")]
           (fresh_world "aws_integration"));
    try reflexivity; try discriminate. by eexists.
Defined.

(** ** Composite identifiers, the other way round (Slack) *)

Lemma split_once_shape (s : string) :
  (colon_free s = true /\ Py.split_once ":" s = [s])
  \/ (exists account rest,
        colon_free account = true
        /\ s = account +:+ ":" +:+ rest
        /\ Py.split_once ":" s = [account; rest]).
Proof.
  induction s as [|c s IH]; simpl.
  - by left.
  - destruct (Ascii.eqb c ":") eqn:E; simpl.
    + right. exists "", s. apply Ascii.eqb_eq in E as ->. by repeat split.
    + destruct IH as [[Hfree ->] | (account & rest & Hfree & -> & ->)].
      * left. by split.
      * right. exists (String c account), rest. simpl. by rewrite E Hfree.
Qed.

(** X11. [_parse_composite_id] undoes the composition of an id: an id with a
    colon parses into an account without a colon and a channel which,
    joined by a colon, give the id back; an id without a colon parses into
    the empty account and the id as the channel. *)
Theorem slack_parse_then_compose (composite_id : string) :
  let '(account, channel) := SlackIntegrationChannels._parse_composite_id composite_id in
  (colon_free composite_id = false ->
   account +:+ ":" +:+ channel = composite_id /\ colon_free account = true)
  /\ (colon_free composite_id = true -> account = "" /\ channel = composite_id).
Proof.
  unfold SlackIntegrationChannels._parse_composite_id.
  destruct (split_once_shape composite_id)
    as [[Hfree ->] | (account & rest & Hfree & -> & ->)].
  - split; [by rewrite Hfree | done].
  - split; [done|]. intros Hall. exfalso. clear -Hall.
    induction account as [|c account IH]; simpl in *; [done|].
    apply andb_prop in Hall as [_ Hall]. by apply IH.
Qed.

Lemma slack_parse_then_compose_witness :
  colon_free "workspace:#channel:with:colons" = false
  /\ fst (SlackIntegrationChannels._parse_composite_id "workspace:#channel:with:colons")
     +:+ ":" +:+
     snd (SlackIntegrationChannels._parse_composite_id "workspace:#channel:with:colons")
     = "workspace:#channel:with:colons".
Proof.
  split; [reflexivity|].
  apply (proj1 (slack_parse_then_compose "workspace:#channel:with:colons") eq_refl).
Defined.



Section SlackChannels.
Context `{Py.Format} `{Transport}.
Implicit Types (w : world) (d r : list (string * json)) (account channel : string).

Lemma slack_import_by_id_run account channel d w :
  colon_free account = true ->
  answers SourceOrg
    (SlackIntegrationChannels.base_path +:+ "/" +:+ account +:+ "/channels/" +:+ channel)
    w (JDict d) ->
  fst (SlackIntegrationChannels.import_resource (Some (account +:+ ":" +:+ channel)) JNull w)
  = Ok (account +:+ ":"
        +:+ Py.str (match channel_name_of (PyDict.set "_account_name" (JStr account) d) with
                    | Some v => v
                    | None => JStr ""
                    end),
        JDict (PyDict.set "_account_name" (JStr account) d)).
Proof.
  intros Hfree Hresp.
  unfold SlackIntegrationChannels.import_resource, given.
  assert (Hne : String.eqb (account +:+ ":" +:+ channel) "" = false).
  { clear. induction account; [done|]. done. }
  rewrite Hne parse_composite_id_compose //.
  unfold_m. rewrite Hresp. simpl.
  unfold SlackIntegrationChannels._get_composite_id, channel_name_of. simpl.
  rewrite dict_get_set_eq. simpl.
  by destruct (PyDict.get "name" (PyDict.set "_account_name" (JStr account) d)),
       (PyDict.get "channel_name" (PyDict.set "_account_name" (JStr account) d)).
Qed.

Lemma augment_spec (name : json) (channels all_channels : list json) :
  exists added,
    fst (SlackIntegrationChannels.augment name channels all_channels)
    = (all_channels ++ added)%list
    /\ Forall (fun ch : json =>
                 exists d, In (JDict d) channels
                           /\ ch = JDict (PyDict.set "_account_name" name d)) added
    /\ (Forall (fun x => Py.is_dict x = true) channels ->
        snd (SlackIntegrationChannels.augment name channels all_channels) = None
        /\ forall d, In (JDict d) channels ->
                     In (JDict (PyDict.set "_account_name" name d)) added).
Proof.
  revert all_channels.
  induction channels as [|ch rest IH]; intros all_channels; simpl.
  { exists []. rewrite app_nil_r. by repeat split. }
  destruct ch as [| | | | |d]; simpl;
    try (exists []; rewrite app_nil_r; split; [done|]; split; [done|];
         by intros [[=] _]%Forall_cons).
  destruct (IH (all_channels ++ [JDict (PyDict.set "_account_name" name d)])%list)
    as (added & E & Hsound & Hall).
  exists (JDict (PyDict.set "_account_name" name d) :: added).
  split; [by rewrite E -app_assoc|]. split.
  - constructor; [exists d; split; [by left | done]|].
    eapply Forall_impl; [exact Hsound|].
    intros x (d' & Hin & ->). exists d'. split; [by right | done].
  - intros [_ Hrest]%Forall_cons. destruct (Hall Hrest) as [Hnone Hin].
    split; [exact Hnone|].
    intros d' [[= <-] | Hd']; [by left | right; by apply Hin].
Qed.

Lemma collect_cons (c : org) (a : list (string * json)) (rest all_channels : list json) w :
  SlackIntegrationChannels.collect c (JDict a :: rest) all_channels w
  = if Py.truthy (slack_account_name a) then
      let w1 := World (state w) (cache w)
                  (sent w ++ [channels_get c (slack_account_name a)])%list (logged w) in
      match respond (sent w) (channels_get c (slack_account_name a)) with
      | Body channels_resp =>
          match SlackIntegrationChannels.augment (slack_account_name a)
                  (match channels_resp with JList l => l | _ => [] end) all_channels with
          | (acc, None) => SlackIntegrationChannels.collect c rest acc w1
          | (acc, Some e) =>
              SlackIntegrationChannels.collect c rest acc
                (World (state w) (cache w)
                   (sent w ++ [channels_get c (slack_account_name a)])%list
                   (logged w ++ [channels_warning (slack_account_name a) e])%list)
          end
      | HTTPFail status =>
          SlackIntegrationChannels.collect c rest all_channels
            (World (state w) (cache w)
               (sent w ++ [channels_get c (slack_account_name a)])%list
               (logged w ++ [channels_warning (slack_account_name a)
                               (CustomClientHTTPError status)])%list)
      end
    else SlackIntegrationChannels.collect c rest all_channels w.
Proof.
  simpl. unfold_m. simpl. fold (slack_account_name a).
  destruct (Py.truthy (slack_account_name a)); simpl; [|done].
  unfold attempt, SlackIntegrationChannels.warn_fetch. unfold_m.
  fold (channels_get c (slack_account_name a)).
  destruct (respond _ _) as [channels_resp|status]; simpl; [|done].
  by destruct (SlackIntegrationChannels.augment _ _ _) as [acc [e|]].
Qed.

Lemma channel_of_cons (c : org) (x : json) (accounts : list json) (ch : json) :
  channel_of c accounts ch -> channel_of c (x :: accounts) ch.
Proof.
  intros (a & h & l & d & Hin & Hrest). exists a, h, l, d. split; [by right | done].
Qed.

Lemma channel_of_tagged (c : org) (accounts : list json) (ch : json) :
  channel_of c accounts ch -> tagged ch.
Proof.
  intros (a & h & l & d & _ & Hname & _ & _ & ->).
  exists (PyDict.set "_account_name" (slack_account_name a) d), (slack_account_name a).
  split; [done|]. split; [apply dict_get_set_eq | done].
Qed.

Lemma slack_collect_spec (c : org) (accounts all_channels : list json) w :
  Forall (fun x => Py.is_dict x = true) accounts ->
  exists channels w' l,
    SlackIntegrationChannels.collect c accounts all_channels w
    = (Ok (all_channels ++ channels)%list, w')
    /\ state w' = state w /\ cache w' = cache w
    /\ logged w' = (logged w ++ l)%list
    /\ Forall (channel_of c accounts) channels
    /\ (forall a chs d,
          In (JDict a) accounts ->
          Py.truthy (slack_account_name a) = true ->
          (forall h, respond h (channels_get c (slack_account_name a)) = Body (JList chs)) ->
          Forall (fun x => Py.is_dict x = true) chs ->
          In (JDict d) chs ->
          In (JDict (PyDict.set "_account_name" (slack_account_name a) d)) channels)
    /\ (forall a status,
          In (JDict a) accounts ->
          Py.truthy (slack_account_name a) = true ->
          (forall h, respond h (channels_get c (slack_account_name a)) = HTTPFail status) ->
          In (channels_warning (slack_account_name a) (CustomClientHTTPError status)) l).
Proof.
  intros Haccounts. revert all_channels w.
  induction Haccounts as [|account rest Hd _ IH]; intros all_channels w.
  { exists [], w, []. rewrite !app_nil_r.
    split; [done|]. split; [done|]. split; [done|]. split; [done|].
    split; [done|]. split; [by intros a chs d [] | by intros a status []]. }
  destruct account as [| | | | |a0]; try done. rewrite collect_cons.
  (* What the accounts after this one add, whatever this one left behind. *)
  assert (Hnext : forall (added : list json) (w1 : world) (l1 : list (level * string)),
    state w1 = state w -> cache w1 = cache w ->
    logged w1 = (logged w ++ l1)%list ->
    Forall (channel_of c (JDict a0 :: rest)) added ->
    (forall chs d,
        Py.truthy (slack_account_name a0) = true ->
        (forall h, respond h (channels_get c (slack_account_name a0)) = Body (JList chs)) ->
        Forall (fun x => Py.is_dict x = true) chs ->
        In (JDict d) chs ->
        In (JDict (PyDict.set "_account_name" (slack_account_name a0) d)) added) ->
    (forall status,
        Py.truthy (slack_account_name a0) = true ->
        (forall h, respond h (channels_get c (slack_account_name a0)) = HTTPFail status) ->
        In (channels_warning (slack_account_name a0) (CustomClientHTTPError status)) l1) ->
    exists channels w' l,
      SlackIntegrationChannels.collect c rest (all_channels ++ added)%list w1
      = (Ok (all_channels ++ channels)%list, w')
      /\ state w' = state w /\ cache w' = cache w
      /\ logged w' = (logged w ++ l)%list
      /\ Forall (channel_of c (JDict a0 :: rest)) channels
      /\ (forall a chs d,
            In (JDict a) (JDict a0 :: rest) ->
            Py.truthy (slack_account_name a) = true ->
            (forall h, respond h (channels_get c (slack_account_name a))
                       = Body (JList chs)) ->
            Forall (fun x => Py.is_dict x = true) chs ->
            In (JDict d) chs ->
            In (JDict (PyDict.set "_account_name" (slack_account_name a) d)) channels)
      /\ (forall a status,
            In (JDict a) (JDict a0 :: rest) ->
            Py.truthy (slack_account_name a) = true ->
            (forall h, respond h (channels_get c (slack_account_name a))
                       = HTTPFail status) ->
            In (channels_warning (slack_account_name a) (CustomClientHTTPError status))
               l)).
  { intros added w1 l1 Hs1 Hc1 Hl1 Hadded Hhere Hwarn.
    destruct (IH (all_channels ++ added)%list w1)
      as (channels & w' & l & E & Hs & Hc & Hl & Hsound & Hall & Hlog).
    exists (added ++ channels)%list, w', (l1 ++ l)%list.
    split; [by rewrite E app_assoc|]. split; [congruence|]. split; [congruence|].
    split; [by rewrite Hl Hl1 app_assoc|]. split; [|split].
    - apply Forall_app. split; [done|].
      eapply Forall_impl; [exact Hsound|]. intros x. apply channel_of_cons.
    - intros a chs d [[= <-] | Hin] Hname Hresp Hdicts Hch; apply in_or_app.
      + left. by apply (Hhere chs).
      + right. by apply (Hall a chs).
    - intros a status [[= <-] | Hin] Hname Hresp; apply in_or_app.
      + left. by apply Hwarn.
      + right. by apply (Hlog a). }
  destruct (Py.truthy (slack_account_name a0)) eqn:Hname.
  2:{ pose proof (Hnext [] w []) as Hn. rewrite !app_nil_r in Hn. by apply Hn. }
  cbv zeta.
  destruct (respond (sent w) (channels_get c (slack_account_name a0)))
    as [channels_resp|status] eqn:Hresp.
  - destruct (augment_spec (slack_account_name a0)
                (match channels_resp with JList l => l | _ => [] end) all_channels)
      as (added & Hfst & Hsound & Hall).
    assert (Hadded : Forall (channel_of c (JDict a0 :: rest)) added).
    { eapply Forall_impl; [exact Hsound|]. intros x (d & Hin & ->).
      destruct channels_resp as [| | | |chs|]; try done.
      exists a0, (sent w), chs, d. split; [by left|]. by repeat split. }
    assert (Hhere : forall chs d,
              (forall h, respond h (channels_get c (slack_account_name a0))
                         = Body (JList chs)) ->
              Forall (fun x => Py.is_dict x = true) chs ->
              In (JDict d) chs ->
              In (JDict (PyDict.set "_account_name" (slack_account_name a0) d)) added).
    { intros chs d Hans Hdicts Hch. rewrite Hans in Hresp. injection Hresp as <-.
      by apply (proj2 (Hall Hdicts)). }
    destruct (SlackIntegrationChannels.augment _ _ _) as [acc [e|]]; simpl in Hfst;
      subst acc.
    + apply (Hnext added _ [channels_warning (slack_account_name a0) e]);
        [done | done | done | exact Hadded | intros chs d _; apply Hhere |].
      intros status _ Hfail. by rewrite Hfail in Hresp.
    + apply (Hnext added _ []);
        [done | done | by rewrite app_nil_r | exact Hadded
        | intros chs d _; apply Hhere |].
      intros status _ Hfail. by rewrite Hfail in Hresp.
  - pose proof (Hnext [] (World (state w) (cache w)
                              (sent w ++ [channels_get c (slack_account_name a0)])%list
                              (logged w ++ [channels_warning (slack_account_name a0)
                                              (CustomClientHTTPError status)])%list)
                  [channels_warning (slack_account_name a0)
                     (CustomClientHTTPError status)]) as Hn.
    rewrite app_nil_r in Hn. apply Hn; [done | done | done | done | |].
    + intros chs d _ Hans. by rewrite Hans in Hresp.
    + intros status' _ Hfail. rewrite Hfail in Hresp. injection Hresp as ->. by left.
Qed.

Lemma slack_collect_stops (c : org) (l1 : list json) (x : json) (l2 all_channels : list json)
    w :
  Forall (fun a => Py.is_dict a = true) l1 ->
  Py.is_dict x = false ->
  fst (SlackIntegrationChannels.collect c (l1 ++ x :: l2) all_channels w)
  = Raise AttributeError.
Proof.
  intros Hl1 Hx. revert all_channels w.
  induction Hl1 as [|account rest Hd _ IH]; intros all_channels w.
  - simpl. unfold_m. by destruct x.
  - destruct account as [| | | | |a0]; try done.
    rewrite -app_comm_cons collect_cons.
    destruct (Py.truthy _); [|apply IH]. cbv zeta.
    destruct (respond _ _) as [channels_resp|status]; [|apply IH].
    destruct (SlackIntegrationChannels.augment _ _ _) as [acc [e|]]; apply IH.
Qed.

End SlackChannels.

(** X12. Importing a Slack channel by its composite id fetches the channel
    of that account from the source and returns it with "_account_name" set
    to the account of the id; when the fetched channel carries the channel
    name of the id, the id it is returned under is the id asked for. *)
Theorem slack_import_by_id_roundtrip `{Py.Format} `{Transport}
    (account channel : string) (d : list (string * json)) (w : world) :
  colon_free account = true ->
  answers SourceOrg
    (SlackIntegrationChannels.base_path +:+ "/" +:+ account +:+ "/channels/" +:+ channel)
    w (JDict d) ->
  (exists key resource,
     fst (SlackIntegrationChannels.import_resource
            (Some (account +:+ ":" +:+ channel)) JNull w) = Ok (key, JDict resource)
     /\ PyDict.get "_account_name" resource = Some (JStr account)
     /\ forall k, k <> "_account_name" -> PyDict.get k resource = PyDict.get k d)
  /\ (channel_name_of d = Some (JStr channel) ->
      fst (SlackIntegrationChannels.import_resource
             (Some (account +:+ ":" +:+ channel)) JNull w)
      = Ok (account +:+ ":" +:+ channel,
            JDict (PyDict.set "_account_name" (JStr account) d))).
Proof.
  intros Hfree Hresp. rewrite (slack_import_by_id_run _ _ _ _ Hfree Hresp). split.
  - eexists _, _. split; [reflexivity|]. split.
    + apply dict_get_set_eq.
    + intros k Hk. apply dict_get_set_ne. congruence.
  - intros Hname. do 3 f_equal.
    unfold channel_name_of in *.
    rewrite !dict_get_set_ne; [discriminate..|]. by rewrite Hname.
Qed.

Lemma slack_import_by_id_roundtrip_witness :
  colon_free "my-workspace" = true
  /\ fst (SlackIntegrationChannels.import_resource (H := plain_format) (H0 := slack_org)
            (Some ("my-workspace" +:+ ":" +:+ "#alerts")) JNull
            (fresh_world "slack_integration_channels"))
     = Ok ("my-workspace" +:+ ":" +:+ "#alerts",
           JDict (PyDict.set "_account_name" (JStr "my-workspace")
                             [("name", JStr "#alerts")])).
Proof.
  split; [reflexivity|].
  apply (proj2 (@slack_import_by_id_roundtrip plain_format slack_org "my-workspace"
                  "#alerts" [("name", JStr "#alerts")]
                  (fresh_world "slack_integration_channels") eq_refl eq_refl)).
  reflexivity.
Defined.

(** X13. [get_resources] of the Slack adapter, by what the accounts request
    is answered with.  A body that is not a list gives an empty listing.  An
    account that is not a mapping makes the listing raise [AttributeError]:
    the loop over the accounts is outside the [try].  When the accounts are
    mappings the listing does not raise.  Every channel it returns is one
    that the channels request of a listed account answered, tagged with the
    name of that account, a name that counts as true.  It returns every
    channel of an account whose channels request is answered with a list of
    mappings.  An account whose channels request fails is skipped, with a
    warning in the log. *)
Theorem slack_listing_tags_channels `{Py.Format} `{Transport}
    (c : org) (resp : json) (w : world) :
  answers c SlackIntegrationChannels.base_path w resp ->
  (Py.is_list resp = false ->
   fst (SlackIntegrationChannels.get_resources c w) = Ok (JList []))
  /\ (forall l1 x l2,
        resp = JList (l1 ++ x :: l2) ->
        Forall (fun a => Py.is_dict a = true) l1 ->
        Py.is_dict x = false ->
        fst (SlackIntegrationChannels.get_resources c w) = Raise AttributeError)
  /\ (forall accounts,
        resp = JList accounts ->
        Forall (fun a => Py.is_dict a = true) accounts ->
        exists channels w',
          SlackIntegrationChannels.get_resources c w = (Ok (JList channels), w')
          /\ Forall (channel_of c accounts) channels
          /\ Forall tagged channels
          /\ (forall a chs d,
                In (JDict a) accounts ->
                Py.truthy (slack_account_name a) = true ->
                (forall h, respond h (channels_get c (slack_account_name a))
                           = Body (JList chs)) ->
                Forall (fun x => Py.is_dict x = true) chs ->
                In (JDict d) chs ->
                In (JDict (PyDict.set "_account_name" (slack_account_name a) d))
                   channels)
          /\ (forall a status,
                In (JDict a) accounts ->
                Py.truthy (slack_account_name a) = true ->
                (forall h, respond h (channels_get c (slack_account_name a))
                           = HTTPFail status) ->
                In (channels_warning (slack_account_name a)
                      (CustomClientHTTPError status))
                   (logged w'))).
Proof.
  intros Hresp. split; [by apply slack_listing_empty|].
  unfold SlackIntegrationChannels.get_resources, client_get.
  unfold bind at 1 3. unfold call. rewrite Hresp.
  set (w1 := World _ _ _ _). split.
  - intros l1 x l2 -> Hl1 Hx.
    pose proof (slack_collect_stops c l1 x l2 [] w1 Hl1 Hx) as E.
    unfold bind.
    destruct (SlackIntegrationChannels.collect c (l1 ++ x :: l2) [] w1)
      as [[chs|e] w2]; simpl in *; [discriminate E | by injection E as ->].
  - intros accounts -> Haccounts.
    destruct (slack_collect_spec c accounts [] w1 Haccounts)
      as (channels & w' & l & E & _ & _ & Hl & Hsound & Hall & Hlog).
    exists channels, w'. unfold bind. rewrite E. simpl.
    split; [done|]. split; [exact Hsound|]. split; [|split; [exact Hall|]].
    + eapply Forall_impl; [exact Hsound|]. intros x. apply channel_of_tagged.
    + intros a status Hin Hname Hfail. rewrite Hl. apply in_or_app. right.
      by apply (Hlog a).
Qed.

Lemma slack_listing_tags_channels_witness :
  answers (H := slack_org) DestinationOrg SlackIntegrationChannels.base_path
    (fresh_world "slack_integration_channels")
    (JList [JDict [("name", JStr "my-workspace")]])
  /\ exists channels w',
       SlackIntegrationChannels.get_resources (H := plain_format) (H0 := slack_org)
         DestinationOrg (fresh_world "slack_integration_channels")
       = (Ok (JList channels), w')
       /\ In (JDict [("name", JStr "#alerts"); ("_account_name", JStr "my-workspace")])
            channels.
Proof.
  split; [reflexivity|].
  destruct (proj2 (proj2 (@slack_listing_tags_channels plain_format slack_org DestinationOrg
                            (JList [JDict [("name", JStr "my-workspace")]])
                            (fresh_world "slack_integration_channels") eq_refl))
              [JDict [("name", JStr "my-workspace")]] eq_refl)
    as (channels & w' & E & _ & _ & Hall & _).
  { by repeat constructor. }
  exists channels, w'. split; [exact E|].
  apply (Hall [("name", JStr "my-workspace")] [JDict [("name", JStr "#alerts")]]
           [("name", JStr "#alerts")]).
  - by left.
  - reflexivity.
  - intros h. reflexivity.
  - by repeat constructor.
  - by left.
Defined.


(** ** What the destination cache holds *)

Section CacheBuild.
Context `{Py.Format} `{Transport}.
Implicit Types (w : world) (c acc : gmap dkey json) (rs : list json).

Lemma keyed_by_empty (ident : json -> result json) : keyed_by ident ∅.
Proof. intros k v. by rewrite lookup_empty. Qed.

Lemma keyed_by_insert (ident : json -> result json) c (j : json) (k : dkey) (v : json) :
  keyed_by ident c -> ident v = Ok j -> Py.as_key j = Ok k ->
  keyed_by ident (<[k := v]> c).
Proof.
  intros Hc Hv Hk k' v'. destruct (decide (k = k')) as [<-|Hne].
  - rewrite lookup_insert_eq. intros [= <-]. by exists j.
  - rewrite lookup_insert_ne //. apply Hc.
Qed.

Lemma drawn_from_empty rs : drawn_from rs ∅.
Proof. intros k v. by rewrite lookup_empty. Qed.

Lemma drawn_from_insert rs c (k : dkey) (v : json) :
  drawn_from rs c -> In v rs -> drawn_from rs (<[k := v]> c).
Proof.
  intros Hc Hv k' v'. destruct (decide (k = k')) as [<-|Hne].
  - rewrite lookup_insert_eq. by intros [= <-].
  - rewrite lookup_insert_ne //. apply Hc.
Qed.

Lemma index_by_keyed (ident : json -> result string) rs acc c :
  index_by ident rs acc = Ok c ->
  keyed_by (fun r => let? k := ident r in Ok (JStr k)) acc ->
  keyed_by (fun r => let? k := ident r in Ok (JStr k)) c.
Proof.
  revert acc. induction rs as [|r rs IH]; intros acc; simpl.
  - by intros [= ->].
  - destruct (ident r) as [rid|] eqn:Hr; [|done]. simpl.
    intros Hc Hacc. apply (IH _ Hc).
    apply (keyed_by_insert _ _ (JStr rid)); [done | by rewrite Hr | done].
Qed.

Lemma index_accounts_keyed rs acc c :
  GCPIntegration.index_accounts rs acc = Ok c ->
  keyed_by GCPIntegration.client_email_of acc ->
  keyed_by GCPIntegration.client_email_of c.
Proof.
  revert acc. induction rs as [|r rs IH]; intros acc; simpl.
  - by intros [= ->].
  - destruct (GCPIntegration.client_email_of r) as [email|] eqn:Hr; [|done]. simpl.
    destruct (Py.truthy email); [|apply IH].
    destruct (Py.as_key email) as [k|] eqn:Hk; [|done]. simpl.
    intros Hc Hacc. apply (IH _ Hc). by apply (keyed_by_insert _ _ email).
Qed.

Lemma index_services_keyed rs acc c :
  PagerDutyIntegration.index_services rs acc = Ok c ->
  keyed_by (fun r => Py.index r "service_name") acc ->
  keyed_by (fun r => Py.index r "service_name") c.
Proof.
  revert acc. induction rs as [|r rs IH]; intros acc; simpl.
  - by intros [= ->].
  - destruct (Py.index r "service_name") as [name|] eqn:Hr; [|done]. simpl.
    destruct (Py.as_key name) as [k|] eqn:Hk; [|done]. simpl.
    intros Hc Hacc. apply (IH _ Hc). by apply (keyed_by_insert _ _ name).
Qed.

Lemma index_definitions_keyed rs acc c :
  ServiceDefinition.index_definitions rs acc = Ok c ->
  keyed_by ServiceDefinition._get_service_name acc ->
  keyed_by ServiceDefinition._get_service_name c.
Proof.
  revert acc. induction rs as [|r rs IH]; intros acc; simpl.
  - by intros [= ->].
  - destruct (ServiceDefinition._get_service_name r) as [name|] eqn:Hr; [|done]. simpl.
    destruct (Py.truthy name); [|apply IH].
    destruct (Py.as_key name) as [k|] eqn:Hk; [|done]. simpl.
    intros Hc Hacc. apply (IH _ Hc). by apply (keyed_by_insert _ _ name).
Qed.

(** A loop that files each item under its key keeps the cache keyed, and
    drawn from the items, however far it gets. *)
Lemma filing_loop_keyed (ident : json -> result json) (body : json -> M unit) rs :
  (forall r w,
     cache (snd (body r w)) = cache w
     \/ exists j k, ident r = Ok j /\ Py.as_key j = Ok k
                    /\ cache (snd (body r w)) = <[k := r]> (cache w)) ->
  forall w, keyed_by ident (cache w) -> keyed_by ident (cache (snd (for_each rs body w))).
Proof.
  intros Hbody. induction rs as [|r rs IH]; intros w Hw; simpl; [done|].
  unfold bind.
  assert (Hstep : keyed_by ident (cache (snd (body r w)))).
  { destruct (Hbody r w) as [-> | (j & k & Hj & Hk & ->)]; [done|].
    by apply (keyed_by_insert _ _ j). }
  destruct (body r w) as [[[]|e] w1]; simpl in *; [|done].
  by apply IH.
Qed.

Lemma filing_loop_drawn (ident : json -> result json) (body : json -> M unit)
    (all : list json) rs :
  (forall r w,
     cache (snd (body r w)) = cache w
     \/ exists j k, ident r = Ok j /\ Py.as_key j = Ok k
                    /\ cache (snd (body r w)) = <[k := r]> (cache w)) ->
  (forall r, In r rs -> In r all) ->
  forall w, drawn_from all (cache w) -> drawn_from all (cache (snd (for_each rs body w))).
Proof.
  intros Hbody. induction rs as [|r rs IH]; intros Hsub w Hw; simpl; [done|].
  unfold bind.
  assert (Hstep : drawn_from all (cache (snd (body r w)))).
  { destruct (Hbody r w) as [-> | (j & k & Hj & Hk & ->)]; [done|].
    apply drawn_from_insert; [done|]. apply Hsub. by left. }
  destruct (body r w) as [[[]|e] w1]; simpl in *; [|done].
  apply IH; [|done]. intros r' Hr'. apply Hsub. by right.
Qed.

Lemma cache_insert_files (name r : json) w :
  cache (snd (cache_insert name r w)) = cache w
  \/ exists k, Py.as_key name = Ok k
               /\ cache (snd (cache_insert name r w)) = <[k := r]> (cache w).
Proof.
  unfold cache_insert. unfold_m.
  destruct (Py.as_key name) as [k|] eqn:Hk; simpl; [|by left].
  right. by exists k.
Qed.

Lemma fastly_body_step (r : json) w :
  let body := (fun r =>
                 attributes <~ Py.index r "attributes" ;;
                 name <~ Py.index attributes "name" ;;
                 cache_insert name r) in
  cache (snd (body r w)) = cache w
  \/ exists j k,
       (let? attributes := Py.index r "attributes" in Py.index attributes "name") = Ok j
       /\ Py.as_key j = Ok k
       /\ cache (snd (body r w)) = <[k := r]> (cache w).
Proof.
  simpl. unfold bind, lift.
  destruct (Py.index r "attributes") as [attributes|]; simpl; [|by left].
  destruct (Py.index attributes "name") as [name|]; simpl; [|by left].
  destruct (cache_insert_files name r w) as [E | (k & Hk & E)]; [by left|].
  right. by exists name, k.
Qed.

Lemma slack_body_step (r : json) w :
  let body := (fun channel =>
                 composite_id <~ SlackIntegrationChannels._get_composite_id channel ;;
                 cache_insert (JStr composite_id) channel) in
  cache (snd (body r w)) = cache w
  \/ exists j k,
       (let? k := SlackIntegrationChannels._get_composite_id r in Ok (JStr k)) = Ok j
       /\ Py.as_key j = Ok k
       /\ cache (snd (body r w)) = <[k := r]> (cache w).
Proof.
  simpl. unfold bind, lift.
  destruct (SlackIntegrationChannels._get_composite_id r) as [id|]; simpl; [|by left].
  destruct (cache_insert_files (JStr id) r w) as [E | (k & Hk & E)]; [by left|].
  right. by exists (JStr id), k.
Qed.

Lemma fastly_loop_keyed rs w :
  keyed_by (fun r => let? attributes := Py.index r "attributes" in
                     Py.index attributes "name") (cache w) ->
  keyed_by (fun r => let? attributes := Py.index r "attributes" in
                     Py.index attributes "name")
    (cache (snd (for_each rs (fun r =>
       attributes <~ Py.index r "attributes" ;;
       name <~ Py.index attributes "name" ;;
       cache_insert name r) w))).
Proof. apply filing_loop_keyed. intros r w0. apply fastly_body_step. Qed.

Lemma slack_loop_keyed rs w :
  keyed_by (fun r => let? k := SlackIntegrationChannels._get_composite_id r in
                     Ok (JStr k)) (cache w) ->
  keyed_by (fun r => let? k := SlackIntegrationChannels._get_composite_id r in
                     Ok (JStr k))
    (cache (snd (for_each rs (fun channel =>
       composite_id <~ SlackIntegrationChannels._get_composite_id channel ;;
       cache_insert (JStr composite_id) channel) w))).
Proof. apply filing_loop_keyed. intros r w0. apply slack_body_step. Qed.

Lemma fastly_loop_drawn rs w :
  drawn_from rs (cache w) ->
  drawn_from rs
    (cache (snd (for_each rs (fun r =>
       attributes <~ Py.index r "attributes" ;;
       name <~ Py.index attributes "name" ;;
       cache_insert name r) w))).
Proof.
  eapply filing_loop_drawn; [|done]. intros r w0. apply fastly_body_step.
Qed.

Lemma slack_loop_drawn rs w :
  drawn_from rs (cache w) ->
  drawn_from rs
    (cache (snd (for_each rs (fun channel =>
       composite_id <~ SlackIntegrationChannels._get_composite_id channel ;;
       cache_insert (JStr composite_id) channel) w))).
Proof.
  eapply filing_loop_drawn; [|done]. intros r w0. apply slack_body_step.
Qed.

(** The hooks that build the cache aside: [self.cache = await build()]. *)
Lemma assign_keyed (ident : json -> result json) (build : M (gmap dkey json)) w w' :
  (forall w0 c w1, build w0 = (Ok c, w1) -> keyed_by ident c) ->
  (c <- build ;; set_cache c) w = (Ok tt, w') ->
  keyed_by ident (cache w').
Proof.
  intros Hbuild. unfold bind.
  destruct (build w) as [[c|e] w1] eqn:E; [|done].
  intros [= <-]. simpl. by apply (Hbuild _ _ _ E).
Qed.

Lemma assign_atomic (build : M (gmap dkey json)) w e w' :
  keeps_cache build ->
  (c <- build ;; set_cache c) w = (Raise e, w') ->
  cache w' = cache w.
Proof.
  intros Hbuild. unfold bind. specialize (Hbuild w).
  destruct (build w) as [[c|e'] w1]; [done|].
  by intros [= _ <-].
Qed.

Lemma listed_index_keyed (ident : json -> result json) (listing : M json)
    (index : list json -> gmap dkey json -> result (gmap dkey json)) w c w' :
  (forall rs c, index rs ∅ = Ok c -> keyed_by ident c) ->
  (resources <- listing ;; rs <~ Py.iter resources ;; lift (index rs ∅)) w = (Ok c, w') ->
  keyed_by ident c.
Proof.
  intros Hindex. unfold_m.
  destruct (listing w) as [[resources|e] w1]; [|done].
  destruct (Py.iter resources) as [rs|]; simpl; [|done].
  destruct (index rs ∅) as [c'|] eqn:Hc; [|done].
  intros [= <- _]. by apply (Hindex _ _ Hc).
Qed.

Lemma in_place_keyed (ident : json -> result json) (listing : M json)
    (body : json -> M unit) w resp w1 :
  (forall rs w0, keyed_by ident (cache w0) ->
                 keyed_by ident (cache (snd (for_each rs body w0)))) ->
  listing w = (Ok resp, w1) ->
  keyed_by ident
    (cache (snd ((resp <- listing ;; set_cache ∅ ;;; rs <~ Py.iter resp ;;
                  for_each rs body) w))).
Proof.
  intros Hloop Hl. unfold bind at 1. rewrite Hl.
  unfold bind at 1, set_cache at 1. unfold bind at 1, lift at 1.
  destruct (Py.iter resp) as [rs|]; simpl.
  - apply Hloop. simpl. apply keyed_by_empty.
  - apply keyed_by_empty.
Qed.

(** Once the listing is read, the cache is emptied: whatever it holds in
    the end was filed by the loop. *)
Lemma in_place_drawn (listing : M json) (body : json -> M unit) w resp w1 :
  (forall rs w0, drawn_from rs (cache w0) ->
                 drawn_from rs (cache (snd (for_each rs body w0)))) ->
  listing w = (Ok resp, w1) ->
  drawn_from (match Py.iter resp with Ok rs => rs | Raise _ => [] end)
    (cache (snd ((resp <- listing ;; set_cache ∅ ;;; rs <~ Py.iter resp ;;
                  for_each rs body) w))).
Proof.
  intros Hloop Hl. unfold bind at 1. rewrite Hl.
  unfold bind at 1, set_cache at 1. unfold bind at 1, lift at 1.
  destruct (Py.iter resp) as [rs|]; simpl.
  - apply Hloop. simpl. apply drawn_from_empty.
  - apply drawn_from_empty.
Qed.

Lemma keeps_cache_try_except {A} (m : M A) (catches : exn -> bool) (h : exn -> M A) :
  keeps_cache m -> (forall e, keeps_cache (h e)) -> keeps_cache (try_except m catches h).
Proof.
  intros Hm Hh w. unfold try_except. specialize (Hm w).
  destruct (m w) as [[a|e] w1]; simpl in *; [done|].
  destruct (catches e); [|done]. by rewrite Hh.
Qed.

Lemma keeps_cache_log (l : level) (msg : string) : keeps_cache (log l msg).
Proof. done. Qed.

Lemma keeps_cache_get_state : keeps_cache get_state.
Proof. done. Qed.

Lemma webhooks_fetch_keeps_cache (name : json) (on_404 : M unit) acc :
  keeps_cache on_404 -> keeps_cache (WebhooksIntegration.fetch_webhook name on_404 acc).
Proof.
  intros Hon. apply keeps_cache_try_except.
  - apply keeps_cache_bind; [apply keeps_cache_call|]. intros resp.
    apply keeps_cache_bind; [apply keeps_cache_lift|]. intros k. apply keeps_cache_ret.
  - intros [| | | |status|]; try apply keeps_cache_ret.
    apply keeps_cache_bind; [|intros; apply keeps_cache_ret].
    destruct (Z.eqb status 404); [done | apply keeps_cache_log].
Qed.

Lemma webhooks_check_destination_keeps_cache entries acc :
  keeps_cache (WebhooksIntegration.check_destination entries acc).
Proof.
  revert acc. induction entries as [|[_id data] rest IH]; intros acc; simpl.
  - apply keeps_cache_ret.
  - apply keeps_cache_bind; [apply keeps_cache_lift|]. intros name.
    apply keeps_cache_bind; [|intros; apply IH].
    destruct (Py.truthy name); [|apply keeps_cache_ret].
    apply webhooks_fetch_keeps_cache, keeps_cache_log.
Qed.

Lemma webhooks_check_source_keeps_cache entries acc :
  keeps_cache (WebhooksIntegration.check_source entries acc).
Proof.
  revert acc. induction entries as [|[_id data] rest IH]; intros acc; simpl.
  - apply keeps_cache_ret.
  - apply keeps_cache_bind; [apply keeps_cache_lift|]. intros name.
    apply keeps_cache_bind; [|intros; apply IH].
    destruct (Py.truthy name); [|apply keeps_cache_ret].
    apply keeps_cache_bind; [apply keeps_cache_lift|]. intros [|].
    + apply keeps_cache_ret.
    + apply webhooks_fetch_keeps_cache, keeps_cache_ret.
Qed.

Lemma listed_index_keeps_cache (listing : M json)
    (index : list json -> gmap dkey json -> result (gmap dkey json)) :
  keeps_cache listing ->
  keeps_cache (resources <- listing ;; rs <~ Py.iter resources ;; lift (index rs ∅)).
Proof.
  intros Hl. apply keeps_cache_bind; [done|]. intros resources.
  apply keeps_cache_bind; [apply keeps_cache_lift|]. intros rs. apply keeps_cache_lift.
Qed.

Lemma envelope_listing_keeps_cache (c : org) (p k : string) :
  keeps_cache (resp <- client_get c p ;; lift (Py.get resp k (JList []))).
Proof.
  apply keeps_cache_bind; [apply keeps_cache_call|]. intros resp. apply keeps_cache_lift.
Qed.

End CacheBuild.

(** X14. After a successful [pre_apply_hook] of an adapter that lists the
    destination, every entry of the destination cache is filed under the key
    the adapter derives from the cached object itself: the composite key for
    AWS, Azure and Slack, the account name for Fastly, the client email for
    GCP, the service name for PagerDuty and service definitions.  Nothing of
    an earlier cache survives under a key that is not its own. *)
Theorem cache_is_keyed_by_identity `{Py.Format} `{Transport}
    (paginated_get : org -> string -> PaginationConfig -> M json)
    (a : adapter) (ident : json -> result json) (w w' : world) :
  filed_under a = Some ident ->
  pre_apply_hook paginated_get a w = (Ok tt, w') ->
  keyed_by ident (cache w').
Proof.
  intros Ha Hrun. destruct a; simpl in Ha, Hrun; try discriminate Ha; injection Ha as <-.
  - eapply assign_keyed; [|exact Hrun]. intros w0 c w1.
    apply listed_index_keyed. intros rs c' Hc.
    apply (index_by_keyed _ _ _ _ Hc), keyed_by_empty.
  - eapply assign_keyed; [|exact Hrun]. intros w0 c w1.
    apply listed_index_keyed. intros rs c' Hc.
    apply (index_by_keyed _ _ _ _ Hc), keyed_by_empty.
  - unfold FastlyIntegration.pre_apply_hook in Hrun.
    destruct (FastlyIntegration.get_resources DestinationOrg w) as [[resp|e] w1] eqn:Hl.
    + pose proof (in_place_keyed _ _ _ _ _ _ fastly_loop_keyed Hl) as Hk.
      by rewrite Hrun in Hk.
    + unfold bind at 1 in Hrun. by rewrite Hl in Hrun.
  - eapply assign_keyed; [|exact Hrun]. intros w0 c w1.
    apply listed_index_keyed. intros rs c' Hc.
    apply (index_accounts_keyed _ _ _ Hc), keyed_by_empty.
  - eapply assign_keyed; [|exact Hrun]. intros w0 c w1.
    apply listed_index_keyed. intros rs c' Hc.
    apply (index_services_keyed _ _ _ Hc), keyed_by_empty.
  - eapply assign_keyed; [|exact Hrun]. intros w0 c w1.
    apply listed_index_keyed. intros rs c' Hc.
    apply (index_definitions_keyed _ _ _ Hc), keyed_by_empty.
  - unfold SlackIntegrationChannels.pre_apply_hook in Hrun.
    destruct (SlackIntegrationChannels.get_resources DestinationOrg w)
      as [[resp|e] w1] eqn:Hl.
    + pose proof (in_place_keyed _ _ _ _ _ _ slack_loop_keyed Hl) as Hk.
      by rewrite Hrun in Hk.
    + unfold bind at 1 in Hrun. by rewrite Hl in Hrun.
Qed.

Lemma cache_is_keyed_by_identity_witness :
  keyed_by (fun r => let? k := AWSIntegration._get_resource_id (H := plain_format) r in
                     Ok (JStr k))
    (cache (snd (pre_apply_hook (H := plain_format) (H0 := aws_listing)
                   (fun _ _ _ => ret (JList [])) AWS (stale_world "aws_integration")))).
Proof.
  apply (@cache_is_keyed_by_identity plain_format aws_listing
           (fun _ _ _ => ret (JList [])) AWS _ (stale_world "aws_integration") _ eq_refl).
  vm_compute. reflexivity.
Defined.

(** X15. Provided the pagination driver handed to the service definition
    adapter leaves the cache alone, the cache build is all or nothing for the
    adapters that assign the new cache at the end (AWS, Azure, GCP,
    PagerDuty, service definitions, webhooks): when [pre_apply_hook] raises,
    the destination cache is the one it found.  The Fastly and Slack
    adapters clear the cache and fill it in place: once the listing has been
    read the old cache is gone, whether the hook then succeeds or raises
    half way; every entry the cache holds afterwards is an item of the new
    listing, filed under its own key, and a listing that cannot be iterated
    leaves the cache empty. *)
Theorem cache_build_is_atomic_unless_in_place `{Py.Format} `{Transport}
    (paginated_get : org -> string -> PaginationConfig -> M json) (a : adapter) (w : world) :
  (forall p cfg, keeps_cache (paginated_get DestinationOrg p cfg)) ->
  (fills_in_place a = false ->
   forall e w', pre_apply_hook paginated_get a w = (Raise e, w') -> cache w' = cache w)
  /\ (fills_in_place a = true ->
      forall resp w1 ident,
        get_resources paginated_get a DestinationOrg w = (Ok resp, w1) ->
        filed_under a = Some ident ->
        let c' := cache (snd (pre_apply_hook paginated_get a w)) in
        keyed_by ident c'
        /\ (forall k v, c' !! k = Some v -> exists rs, Py.iter resp = Ok rs /\ In v rs)
        /\ (forall e, Py.iter resp = Raise e -> c' = ∅)
        /\ (Py.iter resp = Ok [] -> c' = ∅)).
Proof.
  intros Hpg. split.
  - intros Ha e w' Hrun. destruct a; try discriminate Ha; simpl in Hrun;
      (eapply assign_atomic; [|exact Hrun]).
    + apply listed_index_keeps_cache, envelope_listing_keeps_cache.
    + apply listed_index_keeps_cache.
      apply keeps_cache_bind; [apply keeps_cache_call|]. intros resp.
      destruct (Py.is_list resp); apply keeps_cache_ret.
    + apply listed_index_keeps_cache, envelope_listing_keeps_cache.
    + apply listed_index_keeps_cache, envelope_listing_keeps_cache.
    + apply listed_index_keeps_cache, Hpg.
    + apply keeps_cache_bind; [apply keeps_cache_get_state|]. intros s.
      apply keeps_cache_bind; [apply webhooks_check_destination_keeps_cache|]. intros found.
      apply keeps_cache_bind; [apply keeps_cache_get_state|]. intros s'.
      apply webhooks_check_source_keeps_cache.
  - intros Ha resp w1 ident Hl Hident c'.
    assert (Hdrawn : drawn_from (match Py.iter resp with Ok rs => rs | Raise _ => [] end) c').
    { subst c'. destruct a; try discriminate Ha; simpl in Hl |- *.
      - apply (in_place_drawn _ _ _ _ _ fastly_loop_drawn Hl).
      - apply (in_place_drawn _ _ _ _ _ slack_loop_drawn Hl). }
    split; [|split; [|split]].
    + subst c'. destruct a; try discriminate Ha; simpl in Hl, Hident;
        injection Hident as <-.
      * apply (in_place_keyed _ _ _ _ _ _ fastly_loop_keyed Hl).
      * apply (in_place_keyed _ _ _ _ _ _ slack_loop_keyed Hl).
    + intros k v Hv. specialize (Hdrawn k v Hv).
      destruct (Py.iter resp) as [rs|]; [by exists rs | done].
    + intros e He. rewrite He in Hdrawn. apply map_empty. intros k.
      destruct (c' !! k) as [v|] eqn:Hv; [|done]. by destruct (Hdrawn k v Hv).
    + intros He. rewrite He in Hdrawn. apply map_empty. intros k.
      destruct (c' !! k) as [v|] eqn:Hv; [|done]. by destruct (Hdrawn k v Hv).
Qed.

Lemma cache_build_is_atomic_unless_in_place_witness :
  fills_in_place AWS = false
  /\ cache (snd (pre_apply_hook (H := plain_format) (H0 := failing 503)
                   empty_pages AWS (stale_world "aws_integration")))
     = cache (stale_world "aws_integration")
  /\ cache (stale_world "fastly_integration") !! KStr "stale"
     = Some (JDict [("id", JStr "old")])
  /\ forall k v,
       cache (snd (pre_apply_hook (H := plain_format) (H0 := fastly_listing)
                     empty_pages Fastly (stale_world "fastly_integration"))) !! k
       = Some v ->
       exists rs,
         Py.iter (JList [JDict [("id", JStr "dest-fastly-1");
                                ("attributes", JDict [("name", JStr "test-account")])];
                         JDict [("id", JStr "dest-fastly-2")]]) = Ok rs
         /\ In v rs.
Proof.
  assert (Hpg : forall p cfg, keeps_cache (empty_pages DestinationOrg p cfg))
    by (intros p cfg w; reflexivity).
  split; [reflexivity|]. split; [|split; [reflexivity|]].
  - eapply (proj1 (@cache_build_is_atomic_unless_in_place plain_format (failing 503)
                     empty_pages AWS (stale_world "aws_integration")
                     Hpg) eq_refl).
    vm_compute. reflexivity.
  - assert (Hl : get_resources (H := plain_format) (H0 := fastly_listing) empty_pages
                   Fastly DestinationOrg (stale_world "fastly_integration")
                 = (Ok (JList [JDict [("id", JStr "dest-fastly-1");
                                      ("attributes", JDict [("name", JStr "test-account")])];
                               JDict [("id", JStr "dest-fastly-2")]]),
                    snd (get_resources (H := plain_format) (H0 := fastly_listing)
                           empty_pages Fastly DestinationOrg
                           (stale_world "fastly_integration"))))
      by (vm_compute; reflexivity).
    apply (proj1 (proj2 (proj2 (@cache_build_is_atomic_unless_in_place plain_format
                                  fastly_listing empty_pages Fastly
                                  (stale_world "fastly_integration") Hpg) eq_refl
                           _ _ _ Hl eq_refl))).
Defined.


(** ** Service definitions: one call for create and update *)

Section ServiceDefinitions.
Context `{Py.Format} `{Transport}.
Implicit Types (_id : string) (resource schema : json) (w : world)
  (d a s r : list (string * json)).

Lemma service_create_miss _id resource w :
  cache w !! KStr _id = None ->
  ServiceDefinition.create_resource _id resource w
  = ServiceDefinition.update_resource _id resource w.
Proof.
  intros Hmiss. unfold ServiceDefinition.create_resource.
  assert (Hdec : bool_decide (is_Some (cache w !! KStr _id)) = false).
  { apply bool_decide_eq_false. rewrite Hmiss. by intros [? ?]. }
  unfold bind at 1. unfold get_cache. by rewrite Hdec.
Qed.

Lemma service_create_hit _id resource (existing : json) w :
  cache w !! KStr _id = Some existing ->
  has_table ServiceDefinition.resource_type w ->
  ServiceDefinition.create_resource _id resource w
  = (fst (ServiceDefinition.update_resource _id resource w),
     stored ServiceDefinition.resource_type _id existing
       (snd (ServiceDefinition.update_resource _id resource w))).
Proof.
  intros Hhit Ht. unfold ServiceDefinition.create_resource.
  assert (Hdec : bool_decide (is_Some (cache w !! KStr _id)) = true).
  { apply bool_decide_eq_true. by rewrite Hhit. }
  unfold bind at 1. unfold get_cache. rewrite Hdec.
  unfold bind at 1. rewrite (cached_found _ _ _ Hhit).
  unfold bind at 1. rewrite (store_destination_stored _ _ _ _ Ht).
  destruct Ht as [t Ht]. unfold stored. rewrite Ht.
  rewrite service_definition_update_ignores_state. f_equal.
  pose proof (update_keeps_state ServiceDef _id resource w) as Hk. simpl in Hk.
  unfold with_state. simpl. by rewrite Hk Ht.
Qed.

Lemma service_update_run _id resource schema w :
  ServiceDefinition._extract_schema_data resource = Ok schema ->
  let q := Request DestinationOrg POST ServiceDefinition.base_path (Some schema) None in
  ServiceDefinition.update_resource _id resource w
  = match respond (sent w) q with
    | Body resp =>
        (match ServiceDefinition.first_data resp with
         | Ok data => Ok (_id, data)
         | Raise e => Raise e
         end,
         World (state w) (cache w) (sent w ++ [q])%list (logged w))
    | HTTPFail status =>
        (Raise (CustomClientHTTPError status),
         World (state w) (cache w) (sent w ++ [q])%list (logged w))
    end.
Proof.
  intros Hs q. unfold ServiceDefinition.update_resource. rewrite Hs.
  unfold_m. simpl. fold q.
  destruct (respond (sent w) q) as [resp|status]; [|done].
  by destruct (ServiceDefinition.first_data resp).
Qed.

Lemma mem_get {A} (k : string) (l : list (string * A)) :
  PyDict.mem k l = match PyDict.get k l with Some _ => true | None => false end.
Proof. done. Qed.

End ServiceDefinitions.

(** X16. For service definitions [create_resource] is [update_resource]:
    when the id is not in the destination cache the two are the same call,
    and when it is they send the same request and return the same result,
    [create_resource] only recording the cached definition in the state
    store on the way. *)
Theorem service_definition_create_is_update `{Py.Format} `{Transport}
    (_id : string) (resource : json) (w : world) :
  (cache w !! KStr _id = None ->
   ServiceDefinition.create_resource _id resource w
   = ServiceDefinition.update_resource _id resource w)
  /\ (forall existing,
        cache w !! KStr _id = Some existing ->
        has_table ServiceDefinition.resource_type w ->
        fst (ServiceDefinition.create_resource _id resource w)
        = fst (ServiceDefinition.update_resource _id resource w)
        /\ sent (snd (ServiceDefinition.create_resource _id resource w))
           = sent (snd (ServiceDefinition.update_resource _id resource w))
        /\ entry_of ServiceDefinition.resource_type _id
             (snd (ServiceDefinition.create_resource _id resource w))
           = Some existing).
Proof.
  split.
  - apply service_create_miss.
  - intros existing Hhit Ht. rewrite (service_create_hit _ _ _ _ Hhit Ht). simpl.
    split; [done|]. split; [apply stored_sent|].
    apply entry_of_stored.
    pose proof (update_keeps_state ServiceDef _id resource w) as Hk. simpl in Hk.
    unfold has_table. by rewrite Hk.
Qed.

Lemma service_definition_create_is_update_witness :
  fst (ServiceDefinition.create_resource (H0 := catalogue) "existing-service"
         service_resource service_world)
  = fst (ServiceDefinition.update_resource (H0 := catalogue) "existing-service"
           service_resource service_world)
  /\ ServiceDefinition.create_resource (H0 := catalogue) "new-service"
       service_resource service_world
     = ServiceDefinition.update_resource (H0 := catalogue) "new-service"
         service_resource service_world.
Proof.
  split.
  - apply (proj2 (@service_definition_create_is_update plain_format catalogue
                    "existing-service" service_resource service_world)
             existing_service).
    + reflexivity.
    + by eexists.
  - apply (proj1 (@service_definition_create_is_update plain_format catalogue
                    "new-service" service_resource service_world)).
    reflexivity.
Defined.

(** X17. The name a wrapped service definition is known by is the name of
    the schema that is sent for it: when the definition has
    [attributes.schema] with a "dd-service" or a "name", and the schema has
    no "attributes" of its own, [_extract_schema_data] returns that schema
    and [_get_service_name] gives the same name for the schema as for the
    wrapped definition, "dd-service" taking precedence over "name". *)
Theorem service_name_survives_extraction (d a s : list (string * json)) :
  PyDict.get "attributes" d = Some (JDict a) ->
  PyDict.get "schema" a = Some (JDict s) ->
  PyDict.mem "dd-service" s || PyDict.mem "name" s = true ->
  PyDict.mem "attributes" s = false ->
  ServiceDefinition._extract_schema_data (JDict d) = Ok (JDict s)
  /\ ServiceDefinition._get_service_name (JDict s)
     = ServiceDefinition._get_service_name (JDict d)
  /\ ServiceDefinition._get_service_name (JDict d)
     = match PyDict.get "dd-service" s with
       | Some v => Ok v
       | None => match PyDict.get "name" s with
                 | Some v => Ok v
                 | None => Ok (JStr "")
                 end
       end.
Proof.
  intros Ha Hs Hnamed Hplain.
  unfold ServiceDefinition._extract_schema_data, ServiceDefinition._get_service_name.
  simpl. rewrite !mem_get in Hnamed, Hplain |- *. rewrite Ha. simpl. rewrite !mem_get Hs.
  simpl. rewrite !mem_get.
  destruct (PyDict.get "attributes" s); [done|]. simpl.
  destruct (PyDict.get "dd-service" s) as [v|]; simpl; [done|].
  by destruct (PyDict.get "name" s) as [v|].
Qed.

Lemma service_name_survives_extraction_witness :
  ServiceDefinition._get_service_name
    (JDict [("dd-service", JStr "existing-service"); ("team", JStr "new-team")])
  = ServiceDefinition._get_service_name service_resource.
Proof.
  apply (proj1 (proj2 (service_name_survives_extraction
           [("attributes",
             JDict [("schema", JDict [("dd-service", JStr "existing-service");
                                      ("team", JStr "new-team")])])]
           [("schema", JDict [("dd-service", JStr "existing-service");
                              ("team", JStr "new-team")])]
           [("dd-service", JStr "existing-service"); ("team", JStr "new-team")]
           eq_refl eq_refl eq_refl eq_refl))).
Defined.

(** X18. A write of a service definition sends one POST of the schema and
    reads its result off the "data" of the response: the first item when
    "data" is a list, "data" itself otherwise.  An empty list makes the call
    raise [IndexError] and a response without "data" makes it raise
    [KeyError], in both cases after the POST has been sent. *)
Theorem service_definition_write_result `{Py.Format} `{Transport}
    (_id : string) (resource schema : json) (r : list (string * json)) (w : world) :
  ServiceDefinition._extract_schema_data resource = Ok schema ->
  respond (sent w)
    (Request DestinationOrg POST ServiceDefinition.base_path (Some schema) None)
  = Body (JDict r) ->
  issued w (snd (ServiceDefinition.update_resource _id resource w))
  = [Request DestinationOrg POST ServiceDefinition.base_path (Some schema) None]
  /\ fst (ServiceDefinition.update_resource _id resource w)
     = match PyDict.get "data" r with
       | Some (JList (x :: _)) => Ok (_id, x)
       | Some (JList []) => Raise IndexError
       | Some v => Ok (_id, v)
       | None => Raise (KeyError "data")
       end.
Proof.
  intros Hs Hresp. rewrite (service_update_run _ _ _ _ Hs). simpl. rewrite Hresp.
  split; [apply issued_snoc|]. simpl.
  unfold ServiceDefinition.first_data. simpl.
  destruct (PyDict.get "data" r) as [[| | | |[|x l]|]|]; done.
Qed.

Lemma service_definition_write_result_witness :
  fst (ServiceDefinition.update_resource (H0 := catalogue) "existing-service"
         service_resource service_world)
  = Ok ("existing-service", JDict [("id", JStr "svc")]).
Proof.
  apply (proj2 (@service_definition_write_result plain_format catalogue
                  "existing-service" service_resource
                  (JDict [("dd-service", JStr "existing-service");
                          ("team", JStr "new-team")])
                  [("data", JList [JDict [("id", JStr "svc")]]);
                   ("meta", JDict [("page", JDict [("total_count", JNum 250)])])]
                  service_world eq_refl eq_refl)).
Defined.

(** ** Writes that read the result off an envelope *)

Section Envelope.
Context `{Transport}.
Hypothesis Henv : answers_without "data".

Lemma enveloped_call_fails {A} (q : request) (k : json -> M A) :
  fails_once_sent (KeyError "data")
    (resp <- call q ;; data <~ Py.index resp "data" ;; k data).
Proof.
  intros w. unfold_m.
  destruct (Henv (sent w) q) as (resp & -> & d & -> & Hd). simpl. rewrite Hd.
  eexists _, _. split; [done|]. by right.
Qed.

Lemma enveloped_first_fails {A} (q : request) (k : json -> M A) :
  fails_once_sent (KeyError "data")
    (resp <- call q ;; data <~ ServiceDefinition.first_data resp ;; k data).
Proof.
  intros w. unfold_m.
  destruct (Henv (sent w) q) as (resp & -> & d & -> & Hd).
  unfold ServiceDefinition.first_data. simpl. rewrite Hd.
  eexists _, _. split; [done|]. by right.
Qed.

Lemma fails_once_sent_after_quiet {A B} (e : exn) (m : M A) (k : A -> M B) :
  quiet m -> (forall a, fails_once_sent e (k a)) -> fails_once_sent e (bind m k).
Proof.
  intros Hm Hk w. unfold bind. specialize (Hm w).
  destruct (m w) as [[a|e0] w1]; simpl in *.
  - destruct (Hk a w1) as (e' & w' & -> & Hcase).
    exists e', w'. split; [done|]. destruct Hcase as [Hs|He]; [left; congruence | by right].
  - exists e0, w1. split; [done|]. by left.
Qed.

End Envelope.

Ltac envelope_steps H :=
  repeat first
    [ apply (enveloped_call_fails H)
    | apply (enveloped_first_fails H)
    | apply fails_once_sent_after_quiet; [solve [quiet_steps] |]
    | progress intros
    | match goal with
      | |- context [if ?b then _ else _] => destruct b
      | |- context [match ?x with _ => _ end] => destruct x
      end ].

(** X19. The Fastly, GCP and service definition adapters read the result of
    a write off the "data" key of the response.  When the destination
    accepts the request but answers without "data", [create_resource] and
    [update_resource] do not report success: they raise, and once the
    request has been sent the exception is [KeyError] for "data". *)
Theorem enveloped_writes_need_data `{Py.Format} `{Transport}
    (a : adapter) (_id : string) (resource : json) :
  enveloped a = true ->
  answers_without "data" ->
  fails_once_sent (KeyError "data") (create_resource a _id resource)
  /\ fails_once_sent (KeyError "data") (update_resource a _id resource).
Proof.
  intros Ha Henv.
  split; destruct a; try discriminate Ha; simpl; unfold_adapters; envelope_steps Henv.
Qed.

Lemma enveloped_writes_need_data_witness :
  answers_without (H := accepting) "data"
  /\ exists e w',
       update_resource (H := plain_format) (H0 := accepting) Fastly "src-1"
         (JDict [("attributes", JDict [("name", JStr "test-account")])]) fastly_world
       = (Raise e, w')
       /\ (sent w' = sent fastly_world \/ e = KeyError "data").
Proof.
  assert (Henv : answers_without (H := accepting) "data").
  { intros h q. exists (JDict []). split; [reflexivity|]. by exists []. }
  split; [exact Henv|].
  apply (proj2 (@enveloped_writes_need_data plain_format accepting Fastly "src-1"
                  (JDict [("attributes", JDict [("name", JStr "test-account")])])
                  eq_refl Henv) fastly_world).
Defined.


(** ** Creating what the destination does not have *)

Section CreateMiss.
Context `{Py.Format} `{Transport}.
Implicit Types (a : adapter) (_id key : string) (resource : json) (w : world).

Lemma miss_decided (k : dkey) w :
  cache w !! k = None -> bool_decide (is_Some (cache w !! k)) = false.
Proof. intros Hmiss. apply bool_decide_eq_false. rewrite Hmiss. by intros [? ?]. Qed.

(** What is left of [create_resource] once the cache has been missed: one
    POST, and a result read off the response. *)
Lemma post_then_pure {A} (p : string) (b : json) (k : json -> result A) w :
  let m := (resp <- client_post p b ;; lift (k resp)) in
  issued w (snd (m w)) = [Request DestinationOrg POST p (Some b) None]
  /\ state (snd (m w)) = state w
  /\ cache (snd (m w)) = cache w.
Proof.
  unfold_m. simpl. destruct (respond _ _); simpl; by rewrite issued_snoc.
Qed.

Lemma create_miss_run a _id resource (p : string) (b : json) w :
  misses a (cache w) _id resource ->
  post_path a resource = Ok p ->
  post_body a resource = Ok b ->
  exists k : json -> result (string * json),
    create_resource a _id resource w
    = (resp <- client_post p b ;; lift (k resp)) w.
Proof.
  intros (v & k0 & Hkey & Hk & Hmiss) Hp Hb.
  pose proof (miss_decided _ _ Hmiss) as Hdec.
  assert (Hin : Py.in_cache v (cache w) = Ok false).
  { unfold Py.in_cache. rewrite Hk. simpl. by rewrite Hdec. }
  destruct a; simpl in Hkey, Hp, Hb |- *.
  - injection Hp as <-. injection Hb as <-.
    unfold AWSIntegration.create_resource.
    destruct (AWSIntegration._get_resource_id resource) as [k1|] eqn:E; [|done].
    injection Hkey as <-. injection Hk as <-.
    exists (fun resp =>
              let? created := Py.copy resource in
              let? has := Py.contains "external_id" resp in
              if has : bool then
                let? e := Py.index resp "external_id" in
                let? created := Py.setitem created "external_id" e in
                Ok (_id, created)
              else Ok (_id, created)).
    unfold_m. simpl. rewrite Hdec.
    destruct (respond _ _) as [resp|]; [|done]. simpl.
    destruct (Py.copy resource) as [c0|]; simpl; [|done].
    destruct (Py.contains "external_id" resp) as [[|]|]; simpl; try done.
    destruct (Py.index resp "external_id"); simpl; [|done].
    by destruct (Py.setitem c0 "external_id" _).
  - injection Hp as <-. injection Hb as <-.
    unfold AzureIntegration.create_resource.
    destruct (AzureIntegration._get_resource_id resource) as [k1|] eqn:E; [|done].
    injection Hkey as <-. injection Hk as <-.
    exists (fun _ => Ok (_id, resource)).
    unfold_m. simpl. rewrite Hdec. by destruct (respond _ _).
  - injection Hp as <-. injection Hb as <-.
    unfold FastlyIntegration.create_resource.
    destruct (Py.index resource "attributes") as [attributes|]; [|done].
    simpl in Hkey.
    exists (fun resp => let? data := Py.index resp "data" in Ok (_id, data)).
    unfold key_in_cache. unfold_m. simpl. rewrite Hkey. simpl. rewrite Hin. simpl.
    destruct (respond _ _) as [resp|]; [|done]. simpl.
    by destruct (Py.index resp "data").
  - injection Hp as <-. injection Hb as <-.
    unfold GCPIntegration.create_resource.
    exists (fun resp => let? data := Py.index resp "data" in Ok (_id, data)).
    unfold key_in_cache. unfold_m. simpl. rewrite Hkey. simpl.
    destruct (Py.truthy v); simpl; rewrite ?Hin; simpl;
      (destruct (respond _ _) as [resp|]; [|done]); simpl;
      by destruct (Py.index resp "data").
  - injection Hp as <-. injection Hb as <-.
    unfold PagerDutyIntegration.create_resource.
    exists (fun resp => Ok (_id, resp)).
    unfold key_in_cache. unfold_m. simpl. rewrite Hkey. simpl. rewrite Hin. simpl.
    by destruct (respond _ _).
  - injection Hp as <-. injection Hkey as <-. injection Hk as <-.
    unfold ServiceDefinition.create_resource.
    exists (fun resp => let? data := ServiceDefinition.first_data resp in Ok (_id, data)).
    unfold_m. simpl. rewrite Hdec Hb. simpl.
    destruct (respond _ _) as [resp|]; [|done]. simpl.
    by destruct (ServiceDefinition.first_data resp).
  - injection Hkey as <-. injection Hk as <-.
    unfold SlackIntegrationChannels.create_resource.
    destruct (Py.get resource "_account_name" (JStr "")) as [account_name|] eqn:Ha;
      [|done].
    injection Hp as <-.
    exists (fun resp =>
              let? resp := Py.setitem resp "_account_name" account_name in
              Ok (_id, resp)).
    unfold_m. simpl. rewrite Hdec. simpl. rewrite Hb. simpl.
    destruct (respond _ _) as [resp|]; [|done]. simpl.
    by destruct (Py.setitem resp "_account_name" account_name).
  - injection Hp as <-. injection Hb as <-.
    unfold WebhooksIntegration.create_resource.
    exists (fun resp => Ok (_id, resp)).
    unfold key_in_cache. unfold_m. simpl. rewrite Hkey. simpl. rewrite Hin. simpl.
    by destruct (respond _ _).
Qed.

End CreateMiss.

(** X20. When the instance's identity key is not in the destination cache,
    [create_resource] of every adapter sends exactly one request, a POST to
    the destination: to the collection of the adapter (for Slack, to the
    channels of the instance's account), with the instance as the body
    (wrapped in a "data" envelope for Fastly and GCP, reduced to its schema
    for service definitions, stripped of "_account_name" for Slack).  It
    leaves the state store and the cache as they were. *)
Theorem create_miss_posts_once `{Py.Format} `{Transport}
    (a : adapter) (_id : string) (resource : json) (p : string) (b : json) (w : world) :
  misses a (cache w) _id resource ->
  post_path a resource = Ok p ->
  post_body a resource = Ok b ->
  issued w (snd (create_resource a _id resource w))
  = [Request DestinationOrg POST p (Some b) None]
  /\ state (snd (create_resource a _id resource w)) = state w
  /\ cache (snd (create_resource a _id resource w)) = cache w.
Proof.
  intros Hmiss Hp Hb.
  destruct (create_miss_run a _id resource p b w Hmiss Hp Hb) as [k ->].
  apply post_then_pure.
Qed.

Lemma create_miss_posts_once_witness :
  misses (H := plain_format) GCP (cache (fresh_world "gcp_integration")) "src-gcp-1"
    gcp_account
  /\ issued (fresh_world "gcp_integration")
       (snd (create_resource (H := plain_format) (H0 := accepting) GCP "src-gcp-1"
               gcp_account (fresh_world "gcp_integration")))
     = [Request DestinationOrg POST "/api/v2/integration/gcp/accounts"
          (Some (JDict [("data", gcp_account)])) None].
Proof.
  assert (Hmiss : misses (H := plain_format) GCP (cache (fresh_world "gcp_integration"))
                    "src-gcp-1" gcp_account).
  { exists (JStr "sa@project.iam.gserviceaccount.com"),
      (KStr "sa@project.iam.gserviceaccount.com").
    split; [reflexivity|]. split; reflexivity. }
  split; [exact Hmiss|].
  apply (proj1 (@create_miss_posts_once plain_format accepting GCP "src-gcp-1"
                  gcp_account _ _ (fresh_world "gcp_integration")
                  Hmiss eq_refl eq_refl)).
Defined.

(** ** Import of a resource that is already at hand *)

(** X21. Handed the resource instead of an id, [import_resource] of every
    adapter is a pure function of the resource: it changes nothing (no
    request, no state, no cache, no log line), and when it succeeds it
    returns the resource exactly as it was given. *)
Theorem import_of_given_resource_is_pure `{Py.Format} `{Transport}
    (a : adapter) (_id : option string) (resource : json) (w : world) :
  given _id = None ->
  snd (import_resource a _id resource w) = w
  /\ (forall w0, fst (import_resource a _id resource w0)
                 = fst (import_resource a _id resource w))
  /\ (forall key r,
        fst (import_resource a _id resource w) = Ok (key, r) -> r = resource).
Proof.
  intros Hg.
  destruct a; simpl; unfold_adapters; rewrite Hg; unfold_m; simpl.
  - destruct (AWSIntegration._get_resource_id resource); simpl;
      (split; [done|]); (split; [done|]); by intros ? ? [= _ <-].
  - destruct (AzureIntegration._get_resource_id resource); simpl;
      (split; [done|]); (split; [done|]); by intros ? ? [= _ <-].
  - destruct (Py.index resource "id"); simpl;
      (split; [done|]); (split; [done|]); by intros ? ? [= _ <-].
  - destruct (Py.index resource "id"); simpl;
      (split; [done|]); (split; [done|]); by intros ? ? [= _ <-].
  - destruct (Py.index resource "service_name"); simpl;
      (split; [done|]); (split; [done|]); by intros ? ? [= _ <-].
  - destruct (ServiceDefinition._get_service_name resource); simpl;
      (split; [done|]); (split; [done|]); by intros ? ? [= _ <-].
  - destruct (SlackIntegrationChannels._get_composite_id resource); simpl;
      (split; [done|]); (split; [done|]); by intros ? ? [= _ <-].
  - destruct (Py.index resource "name"); simpl;
      (split; [done|]); (split; [done|]); by intros ? ? [= _ <-].
Qed.

Lemma import_of_given_resource_is_pure_witness :
  given None = None
  /\ snd (import_resource (H := plain_format) (H0 := failing 503) Slack None
            (JDict alerts_channel) (fresh_world "slack_integration_channels"))
     = fresh_world "slack_integration_channels".
Proof.
  split; [reflexivity|].
  apply (proj1 (@import_of_given_resource_is_pure plain_format (failing 503) Slack None
                  (JDict alerts_channel) (fresh_world "slack_integration_channels")
                  eq_refl)).
Defined.


(** ** Webhooks: the pass over the source state *)

Section WebhooksSource.
Context `{Py.Format} `{Transport}.
Implicit Types (w : world) (found acc : gmap dkey json) (entries : list (string * json)).

Lemma check_source_skips entries found w :
  all_found found entries ->
  WebhooksIntegration.check_source entries found w = (Ok found, w).
Proof.
  induction 1 as [|[_id v] entries (d & Hv & Hname) _ IH]; [done|].
  simpl in Hv. subst v. rewrite check_source_cons.
  destruct (PyDict.get "name" d) as [name|]; [|exact IH].
  destruct Hname as [-> | (k & Hk & Hin)]; [exact IH|].
  destruct (Py.truthy name); [|exact IH].
  by rewrite (in_cache_key _ _ _ Hk) (bool_decide_eq_true_2 _ Hin).
Qed.

Lemma check_source_unfound entries acc w :
  down 404 ->
  Forall (fun e => well_named (snd e) = true) entries ->
  exists w',
    WebhooksIntegration.check_source entries acc w = (Ok acc, w')
    /\ logged w' = logged w /\ state w' = state w /\ cache w' = cache w.
Proof.
  intros Hdown Hall. revert w.
  induction Hall as [|[_id v] entries Hv _ IH]; intros w.
  { by exists w. }
  simpl in Hv. destruct v as [| | | | |d]; try discriminate.
  rewrite check_source_cons.
  destruct (PyDict.get "name" d) as [name|] eqn:Hname; [|apply IH].
  destruct (Py.truthy name) eqn:Htruthy; [|apply IH].
  destruct (well_named_key d name Hv Hname Htruthy) as [k Hk].
  rewrite (in_cache_key _ _ _ Hk).
  destruct (bool_decide (is_Some (acc !! k))); [apply IH|].
  unfold bind at 1. rewrite (fetch_source_step _ _ _ _ Hk) Hdown. simpl.
  destruct (IH (World (state w) (cache w)
                  (sent w ++ [webhook_get (Py.str name)])%list (logged w)))
    as (w' & -> & Hl & Hs & Hc).
  by exists w'.
Qed.

End WebhooksSource.

(** X22. The second pass of the webhooks cache build, over the source
    state, fetches only what the first pass did not find: when every entry
    of the source state is without a name or named like a webhook already
    found, it sends nothing and returns what was found.  A 404 in this pass
    is expected and leaves no log line: on a first sync, with nothing
    recorded for the destination and every fetch answered with 404, the
    build returns an empty cache and logs nothing. *)
Theorem webhooks_source_pass `{Py.Format} `{Transport}
    (entries : list (string * json)) (found : gmap dkey json) (w : world) :
  (all_found found entries ->
   WebhooksIntegration.check_source entries found w = (Ok found, w))
  /\ (down 404 ->
      WebhooksIntegration.items_of WebhooksIntegration.resource_type
        (destination (state w)) = [] ->
      Forall (fun e => well_named (snd e) = true)
        (WebhooksIntegration.items_of WebhooksIntegration.resource_type
           (source (state w))) ->
      exists w',
        WebhooksIntegration.get_destination_webhooks w = (Ok ∅, w')
        /\ logged w' = logged w
        /\ state w' = state w).
Proof.
  split.
  - apply check_source_skips.
  - intros Hdown Hdest Hsource.
    destruct (check_source_unfound _ ∅ w Hdown Hsource) as (w' & E & Hl & Hs & _).
    exists w'. split; [|done]. rewrite -E.
    unfold WebhooksIntegration.get_destination_webhooks. unfold_m. simpl.
    by rewrite Hdest.
Qed.

Lemma webhooks_source_pass_witness :
  down (H := failing 404) 404
  /\ exists w',
       WebhooksIntegration.get_destination_webhooks (H := plain_format) (H0 := failing 404)
         first_sync_world
       = (Ok ∅, w')
       /\ logged w' = logged first_sync_world
       /\ state w' = state first_sync_world.
Proof.
  assert (Hdown : down (H := failing 404) 404) by (intros h q; reflexivity).
  split; [exact Hdown|].
  apply (proj2 (@webhooks_source_pass plain_format (failing 404) [] ∅ first_sync_world)
           Hdown eq_refl).
  by repeat constructor.
Defined.

(** ** Slack: what a write hands back *)

Section SlackWrites.
Context `{Py.Format} `{Transport}.
Implicit Types (w : world) (account channel : string) (resource payload resp : json).

Lemma slack_update_by_id_run account channel resource payload w :
  colon_free account = true ->
  SlackIntegrationChannels._prepare_payload resource = Ok payload ->
  let q := Request DestinationOrg PATCH
             (SlackIntegrationChannels.base_path +:+ "/" +:+ account
              +:+ "/channels/" +:+ channel)
             (Some payload) None in
  SlackIntegrationChannels.update_resource (account +:+ ":" +:+ channel) resource w
  = match respond (sent w) q with
    | Body resp =>
        (match Py.setitem resp "_account_name" (JStr account) with
         | Ok tagged_resp => Ok (account +:+ ":" +:+ channel, tagged_resp)
         | Raise e => Raise e
         end,
         World (state w) (cache w) (sent w ++ [q])%list (logged w))
    | HTTPFail status =>
        (Raise (CustomClientHTTPError status),
         World (state w) (cache w) (sent w ++ [q])%list (logged w))
    end.
Proof.
  intros Hfree Hp q. unfold SlackIntegrationChannels.update_resource.
  rewrite parse_composite_id_compose // Hp. unfold_m. simpl. fold q.
  destruct (respond (sent w) q) as [resp|status]; [|done].
  by destruct (Py.setitem resp "_account_name" (JStr account)).
Qed.

End SlackWrites.

(** X23. [update_resource] of the Slack adapter hands back the response
    tagged with the account of the id it was called with: every other field
    is the response's, and when the response carries the channel name of the
    id, the composite id of the result is that id again.  A response that is
    not a mapping cannot take the tag: the call raises [TypeError], after
    the PATCH has been sent. *)
Theorem slack_update_keeps_identity `{Py.Format} `{Transport}
    (account channel : string) (resource payload resp : json) (w : world) :
  colon_free account = true ->
  SlackIntegrationChannels._prepare_payload resource = Ok payload ->
  respond (sent w)
    (Request DestinationOrg PATCH
       (SlackIntegrationChannels.base_path +:+ "/" +:+ account +:+ "/channels/" +:+ channel)
       (Some payload) None)
  = Body resp ->
  (forall r,
     resp = JDict r ->
     exists updated,
       fst (SlackIntegrationChannels.update_resource (account +:+ ":" +:+ channel)
              resource w)
       = Ok (account +:+ ":" +:+ channel, JDict updated)
       /\ PyDict.get "_account_name" updated = Some (JStr account)
       /\ (forall k, k <> "_account_name" -> PyDict.get k updated = PyDict.get k r)
       /\ (channel_name_of r = Some (JStr channel) ->
           SlackIntegrationChannels._get_composite_id (JDict updated)
           = Ok (account +:+ ":" +:+ channel)))
  /\ (Py.is_dict resp = false ->
      fst (SlackIntegrationChannels.update_resource (account +:+ ":" +:+ channel)
             resource w)
      = Raise TypeError
      /\ length (issued w (snd (SlackIntegrationChannels.update_resource
                                  (account +:+ ":" +:+ channel) resource w))) = 1%nat).
Proof.
  intros Hfree Hp Hresp. rewrite (slack_update_by_id_run _ _ _ _ _ Hfree Hp).
  simpl. rewrite Hresp. split.
  - intros r ->. simpl. eexists. split; [reflexivity|].
    split; [apply dict_get_set_eq|].
    split; [intros k Hk; apply dict_get_set_ne; congruence|].
    intros Hname. unfold SlackIntegrationChannels._get_composite_id. simpl.
    rewrite dict_get_set_eq. simpl.
    unfold channel_name_of in Hname.
    rewrite !dict_get_set_ne; [discriminate..|].
    destruct (PyDict.get "channel_name" r) as [v|].
    + injection Hname as ->. by destruct (PyDict.get "name" r).
    + by rewrite Hname.
  - intros Hnd. rewrite issued_snoc. by destruct resp.
Qed.

Lemma slack_update_keeps_identity_witness :
  colon_free "my-workspace" = true
  /\ SlackIntegrationChannels._get_composite_id (H := plain_format)
       (snd (match fst (SlackIntegrationChannels.update_resource (H0 := slack_org)
                          ("my-workspace" +:+ ":" +:+ "#alerts") (JDict alerts_channel)
                          (fresh_world "slack_integration_channels")) with
             | Ok kv => kv
             | Raise _ => ("", JNull)
             end))
     = Ok ("my-workspace" +:+ ":" +:+ "#alerts").
Proof.
  split; [reflexivity|].
  destruct (proj1 (@slack_update_keeps_identity plain_format slack_org "my-workspace"
                     "#alerts" (JDict alerts_channel) _ _
                     (fresh_world "slack_integration_channels") eq_refl eq_refl eq_refl)
              _ eq_refl) as (updated & -> & _ & _ & Hid).
  simpl. by apply Hid.
Defined.


(** ** What the destination cache finds *)

Section CacheFinds.
Context `{Py.Format} `{Transport}.
Implicit Types (w : world) (c acc : gmap dkey json) (rs : list json) (k : string).









(** The loops that file into the cache in place. *)
Section InPlace.
Variables (ident : json -> result json) (body : json -> M unit).
Hypothesis Hbody : forall x w0 w1,
  body x w0 = (Ok tt, w1) ->
  exists j kx,
    ident x = Ok j /\ Py.as_key j = Ok kx /\ cache w1 = <[kx := x]> (cache w0).



End InPlace.





End CacheFinds.





(** ** From the listing to the write *)

Section NoDuplicates.
Context `{Py.Format} `{Transport}.
Implicit Types (a : adapter) (_id k : string) (resource r : json) (w : world).


End NoDuplicates.




(** ** Import by id *)

Section ImportById.
Context `{Py.Format} `{Transport}.

Lemma given_some (i : string) : i <> "" -> given (Some i) = Some i.
Proof. intros Hi. unfold given. apply String.eqb_neq in Hi. by rewrite Hi. Qed.

End ImportById.

(** X26. For the adapters that can fetch one object (Fastly, GCP, PagerDuty,
    service definitions, webhooks), importing by id is fetching and then
    importing what was fetched: one GET of the id under the collection of
    the source, the "data" of the answer unwrapped for the adapters that use
    the envelope, and the result that [import_resource] gives for the
    fetched object.  The resource passed along with the id is not looked at,
    and the key returned is read off the fetched object, not off the id. *)
Theorem import_by_id_is_fetch_then_import `{Py.Format} `{Transport}
    (a : adapter) (i : string) (resource resp : json) (w : world) :
  composite_key a = false ->
  i <> "" ->
  answers SourceOrg (base_path a +:+ "/" +:+ i) w resp ->
  issued w (snd (import_resource a (Some i) resource w))
  = [Request SourceOrg GET (base_path a +:+ "/" +:+ i) None None]
  /\ fst (import_resource a (Some i) resource w)
     = (let? fetched := (if enveloped a then Py.index resp "data" else Ok resp) in
        fst (import_resource a None fetched w)).
Proof.
  intros Ha Hi Hresp. unfold answers in Hresp.
  destruct a; try discriminate Ha; simpl in Hresp |- *; unfold_adapters;
    rewrite (given_some _ Hi); unfold given; unfold_m; simpl; rewrite Hresp; simpl.
  - destruct (Py.index resp "data") as [r|]; simpl; [|by rewrite issued_snoc].
    destruct (Py.index r "id"); simpl; by rewrite issued_snoc.
  - destruct (Py.index resp "data") as [r|]; simpl; [|by rewrite issued_snoc].
    destruct (Py.index r "id"); simpl; by rewrite issued_snoc.
  - destruct (Py.index resp "service_name"); simpl; by rewrite issued_snoc.
  - destruct (Py.index resp "data") as [r|]; simpl; [|by rewrite issued_snoc].
    destruct (ServiceDefinition._get_service_name r); simpl; by rewrite issued_snoc.
  - destruct (Py.index resp "name"); simpl; by rewrite issued_snoc.
Qed.

Lemma import_by_id_is_fetch_then_import_witness :
  composite_key Webhooks = false
  /\ fst (import_resource (H := plain_format) (H0 := webhook_source) Webhooks
            (Some "test-webhook") JNull (fresh_world "webhooks_integration"))
     = Ok (JStr "test-webhook",
           JDict [("name", JStr "test-webhook"); ("url", JStr "https://example.com/hook")]).
Proof.
  split; [reflexivity|].
  apply (proj2 (@import_by_id_is_fetch_then_import plain_format webhook_source
                  Webhooks "test-webhook" JNull _ (fresh_world "webhooks_integration")
                  eq_refl ltac:(discriminate) eq_refl)).
Defined.
